(** * Deployment agent (GitHub to Vercel): a shallow embedding

    The development follows the TypeScript sources:
    - [services/githubService.ts]   -> [GitHubService]
    - [services/vercelService.ts]   -> [VercelService]
    - [services/deploymentService.ts] -> [DeploymentService]
    - [controllers/appController.ts], in its two revisions (combined bearer
      token, and the [x-github]/[x-vercel] header pair) -> [AppController].

    Strings are sequences of code units; [string] covers the code units
    0..255 (the Latin-1 block), which is also what HTTP header values carry.
    Asynchronous calls run to completion one after the other, so they are
    modelled as a state-and-exception monad over the trace of upstream calls. *)

From Stdlib Require Import ZArith String Ascii List Lia.
From stdpp Require Import base option list strings gmap pretty.

Local Open Scope string_scope.

(** ** ECMAScript builtins used by the sources *)
Module Js.

Definition code (c : ascii) : N := N_of_ascii c.

Definition inRange (lo hi : N) (c : ascii) : bool :=
  ((lo <=? code c) && (code c <=? hi))%N.

(** White space and line terminators below U+0100, as [String.prototype.trim]
    removes them: TAB, LF, VT, FF, CR, SP and NBSP. *)
Definition isWhiteSpace (c : ascii) : bool :=
  inRange 9 13 c || (code c =? 32)%N || (code c =? 160)%N.

(** Line terminators, which [.] does not match in a regular expression. *)
Definition isLineTerminator (c : ascii) : bool :=
  (code c =? 10)%N || (code c =? 13)%N.

(** Upper-case letters below U+0100: A-Z, and the Latin-1 capitals
    U+00C0..U+00DE without the multiplication sign U+00D7. *)
Definition isUpper (c : ascii) : bool :=
  inRange 65 90 c || inRange 192 214 c || inRange 216 222 c.

Definition lowerChar (c : ascii) : ascii :=
  if isUpper c then ascii_of_N (code c + 32) else c.

Fixpoint mapChars (f : ascii -> ascii) (s : string) : string :=
  match s with
  | EmptyString => EmptyString
  | String c s' => String (f c) (mapChars f s')
  end.

Definition toLowerCase (s : string) : string := mapChars lowerChar s.

Fixpoint trimStart (s : string) : string :=
  match s with
  | EmptyString => EmptyString
  | String c s' => if isWhiteSpace c then trimStart s' else s
  end.

Fixpoint trimEnd (s : string) : string :=
  match s with
  | EmptyString => EmptyString
  | String c s' =>
      match trimEnd s' with
      | EmptyString => if isWhiteSpace c then EmptyString else String c EmptyString
      | t => String c t
      end
  end.

Definition trim (s : string) : string := trimEnd (trimStart s).

(** [s.split(sep)] for a one-character separator. *)
Fixpoint split (sep : ascii) (s : string) : list string :=
  match s with
  | EmptyString => [EmptyString]
  | String c s' =>
      if Ascii.eqb c sep then EmptyString :: split sep s'
      else match split sep s' with
           | r :: rs => String c r :: rs
           | [] => [String c EmptyString]
           end
  end.

Definition startsWith (s search : string) : bool := String.prefix search s.

Fixpoint includes (s search : string) : bool :=
  String.prefix search s
  || match s with
     | EmptyString => false
     | String _ s' => includes s' search
     end.

(** [s.substring(n)]: the string without its first [n] code units. *)
Fixpoint substring (n : nat) (s : string) : string :=
  match n, s with
  | O, _ => s
  | S n', String _ s' => substring n' s'
  | S _, EmptyString => EmptyString
  end.

Definition endsWith (s search : string) : bool :=
  String.prefix (String.rev search) (String.rev s).

(** Every code unit of [s] satisfies [p]. *)
Fixpoint every (p : ascii -> bool) (s : string) : bool :=
  match s with
  | EmptyString => true
  | String c s' => p c && every p s'
  end.

(** [s] between two double-quote characters (code unit 34). *)
Definition quoted (s : string) : string :=
  String "034"%char (s +:+ String "034"%char EmptyString).

(** A string is falsy exactly when it is empty. *)
Definition nonEmpty (s : string) : bool :=
  match s with EmptyString => false | _ => true end.

(** [a || b] on strings. *)
Definition orElse (a : option string) (b : string) : string :=
  match a with
  | Some s => if nonEmpty s then s else b
  | None => b
  end.

(** The names of the members every object literal inherits from
    [Object.prototype]: eleven functions and the accessor [__proto__]. All of
    them are truthy. *)
Definition objectPrototypeKeys : list string :=
  ["constructor"; "__defineGetter__"; "__defineSetter__"; "hasOwnProperty";
   "__lookupGetter__"; "__lookupSetter__"; "isPrototypeOf"; "propertyIsEnumerable";
   "toString"; "valueOf"; "__proto__"; "toLocaleString"].

Definition inherits (k : string) : bool := existsb (String.eqb k) objectPrototypeKeys.

(** What reading a member of an object literal with string-valued properties
    can give: a string, or the member of [Object.prototype] of that name. *)
Inductive Member : Type :=
| Text (s : string)
| Inherited (key : string).

(** [o[k]] for an object literal with the own properties [own]: the own
    property, else the inherited member, else [undefined]. *)
Definition member (own : gmap string string) (k : string) : option Member :=
  match own !! k with
  | Some s => Some (Text s)
  | None => if inherits k then Some (Inherited k) else None
  end.

(** [m || d] for such a member [m] and a string [d]. *)
Definition memberOr (m : option Member) (d : string) : Member :=
  match m with
  | Some (Text s) => if nonEmpty s then Text s else Text d
  | Some (Inherited k) => Inherited k
  | None => Text d
  end.

(** Values that arrive in a parsed JSON body. Numbers occur only under
    truthiness and [typeof] tests, for which an integer payload suffices. *)
#[warnings="-register-all"]
Inductive Value : Type :=
| Undefined
| Null
| Bool (b : bool)
| Num (n : Z)
| Str (s : string)
| Arr (items : list Value)
| Obj (fields : list (string * Value)).

Definition truthy (v : Value) : bool :=
  match v with
  | Undefined | Null => false
  | Bool b => b
  | Num n => negb (n =? 0)%Z
  | Str s => nonEmpty s
  | Arr _ | Obj _ => true
  end.

Definition isString (v : Value) : bool :=
  match v with Str _ => true | _ => false end.

Fixpoint lookupField (k : string) (fields : list (string * Value)) : Value :=
  match fields with
  | [] => Undefined
  | (k', v) :: rest => if String.eqb k k' then v else lookupField k rest
  end.

(** Thrown values. Everything the sources throw or the runtime raises here
    is an [Error] instance; the name tells the native subclasses apart, and
    [status] is the HTTP status a rejected Octokit request carries. *)
Record Exn : Type := mkExn { name : string; message : string; status : option Z }.

Definition Error (msg : string) : Exn := mkExn "Error" msg None.
Definition TypeError (msg : string) : Exn := mkExn "TypeError" msg None.
Definition RangeError (msg : string) : Exn := mkExn "RangeError" msg None.

(** [v.k] for one of the parameter names the controller reads; the left
    summand when the read itself raises (the receiver is [undefined] or
    [null]). Primitives
    and arrays have no such property. *)
Definition getProp (v : Value) (k : string) : Exn + Value :=
  match v with
  | Undefined =>
      inl (TypeError ("Cannot read properties of undefined (reading '" +:+ k +:+ "')"))
  | Null =>
      inl (TypeError ("Cannot read properties of null (reading '" +:+ k +:+ "')"))
  | Obj fields => inr (lookupField k fields)
  | _ => inr Undefined
  end.

(** *** [Date.prototype.toISOString] on integral time values *)
Section Date.
Local Open Scope Z_scope.

Definition msPerDay : Z := 86400000.
Definition maxTime : Z := 8640000000000000.

(** Year, month and day of a day number counted from 1970-01-01
    (proleptic Gregorian calendar). *)
Definition civilFromDays (days : Z) : Z * Z * Z :=
  let z := days + 719468 in
  let era := z / 146097 in
  let doe := z - era * 146097 in
  let yoe := (doe - doe / 1460 + doe / 36524 - doe / 146096) / 365 in
  let doy := doe - (365 * yoe + yoe / 4 - yoe / 100) in
  let mp := (5 * doy + 2) / 153 in
  let d := doy - (153 * mp + 2) / 5 + 1 in
  let m := if mp <? 10 then mp + 3 else mp - 9 in
  let y := yoe + era * 400 in
  (if m <=? 2 then y + 1 else y, m, d).

Definition digit (n : Z) : ascii := ascii_of_N (48 + Z.to_N (n mod 10)).

Fixpoint digits (width : nat) (n : Z) (acc : string) : string :=
  match width with
  | O => acc
  | S w => digits w (n / 10) (String (digit n) acc)
  end.

(** [n] in decimal, left-padded with zeros to [width] places. *)
Definition padded (width : nat) (n : Z) : string := digits width n EmptyString.

Definition yearString (y : Z) : string :=
  if (0 <=? y) && (y <=? 9999) then padded 4 y
  else if y <? 0 then "-" +:+ padded 6 (- y)
  else "+" +:+ padded 6 y.

Definition toISOString (t : Z) : Exn + string :=
  if (- maxTime <=? t) && (t <=? maxTime) then
    let '(y, m, d) := civilFromDays (t / msPerDay) in
    let ms := t mod msPerDay in
    inr (yearString y +:+ "-" +:+ padded 2 m +:+ "-" +:+ padded 2 d +:+ "T"
         +:+ padded 2 (ms / 3600000) +:+ ":" +:+ padded 2 (ms / 60000 mod 60) +:+ ":"
         +:+ padded 2 (ms / 1000 mod 60) +:+ "." +:+ padded 3 (ms mod 1000) +:+ "Z")
  else inl (RangeError "Invalid time value").
End Date.

End Js.

(** ** Data model *)

(** [GitHubRepoInfo] of githubService.ts. *)
Record GitHubRepoInfo : Type := {
  owner : string;
  repo : string;
  defaultBranch : string;
  isPrivate : bool;
  fullName : string;
  repoId : Z
}.

(** The [data] of a successful [octokit.rest.repos.get]. *)
Record RepoData : Type := {
  owner_login : string;
  data_name : string;
  default_branch : string;
  private : bool;
  full_name : string;
  data_id : Z
}.

(** [VercelProject] of vercelService.ts. *)
Record VercelProject : Type := {
  project_id : string;
  project_name : string;
  accountId : string;
  project_createdAt : Z;
  updatedAt : Z
}.

(** [VercelDeployment] of vercelService.ts. The state is declared as a union
    of six literals; at run time it is whatever string the platform sent. *)
Record VercelDeployment : Type := {
  id : string;
  url : string;
  deployment_name : string;
  state : string;
  createdAt : Z;
  projectId : string;
  inspectorUrl : option string
}.

Record DeploymentResult : Type := {
  deployment : VercelDeployment;
  project : VercelProject;
  result_message : string
}.

Record DeployRepoParams : Type := {
  repoUrl : string;
  projectName : option string;
  framework : option string
}.

Record TokenPair : Type := {
  githubToken : string;
  vercelToken : string
}.

(** Body of [POST /v9/projects]; [gitRepository.type] is always ['github']. *)
Record ProjectData : Type := {
  pd_name : string;
  pd_gitRepository_repo : string;
  pd_framework : option string
}.

(** Body of [POST /v13/deployments]; [gitSource.type] is always ['github']. *)
Record DeploymentData : Type := {
  dd_name : string;
  dd_project : string;
  dd_gitSource_repo : string;
  dd_gitSource_ref : string;
  dd_gitSource_repoId : Z
}.

(** ** The upstream services and the effects of a request *)

(** One entry per request sent upstream. The deployment identifier is kept as
    the value the caller sent; it is interpolated into the request path. *)
Inductive Call : Type :=
| ReposGet (token owner repo : string)
| GetProject (token projectName : string)
| PostProject (token : string) (body : ProjectData)
| PostDeployment (token : string) (body : DeploymentData)
| GetDeployment (token : string) (deploymentId : Js.Value).

Definition Trace : Type := list Call.

(** What a [fetch] against the platform comes to: the call (or the reading of
    the body) rejects; the response is not [ok], with its status, status text
    and [errorData.error?.message]; or the response is [ok] with its body. *)
Inductive Fetched (A : Type) : Type :=
| FetchRejected (e : Js.Exn)
| FetchNotOk (status : Z) (statusText : string) (errorMessage : option string)
| FetchOk (body : A).
Arguments FetchRejected {A} e.
Arguments FetchNotOk {A} status statusText errorMessage.
Arguments FetchOk {A} body.

(** The two upstream APIs. Each answer may depend on the calls made so far,
    so that asking twice need not give the same answer. *)
Record Upstream : Type := {
  reposGet : Trace -> string -> string -> string -> Js.Exn + RepoData;
  fetchGetProject : Trace -> string -> string -> Fetched VercelProject;
  fetchPostProject : Trace -> string -> ProjectData -> Fetched VercelProject;
  fetchPostDeployment : Trace -> string -> DeploymentData -> Fetched VercelDeployment;
  fetchGetDeployment : Trace -> string -> Js.Value -> Fetched VercelDeployment
}.

(** A computation returns or throws, and extends the trace of upstream calls. *)
Inductive Outcome (A : Type) : Type :=
| Returned (a : A)
| Thrown (e : Js.Exn).
Arguments Returned {A} a.
Arguments Thrown {A} e.

Definition M (A : Type) : Type := Trace -> Outcome A * Trace.

Definition ret {A} (a : A) : M A := fun tr => (Returned a, tr).

Definition throw {A} (e : Js.Exn) : M A := fun tr => (Thrown e, tr).

Definition bind {A B} (m : M A) (k : A -> M B) : M B :=
  fun tr =>
    match m tr with
    | (Returned a, tr') => k a tr'
    | (Thrown e, tr') => (Thrown e, tr')
    end.

(** [try { m } catch (error) { handler error }] *)
Definition tryCatch {A} (m : M A) (handler : Js.Exn -> M A) : M A :=
  fun tr =>
    match m tr with
    | (Returned a, tr') => (Returned a, tr')
    | (Thrown e, tr') => handler e tr'
    end.

(** Awaiting one upstream request: the answer is read off the history and the
    request is appended to it. *)
Definition await {A} (c : Call) (answer : Trace -> A) : M A :=
  fun tr => (Returned (answer tr), (tr ++ [c])%list).

(** Lifting a synchronous result. *)
Definition liftSum {A} (r : Js.Exn + A) : M A :=
  match r with
  | inl e => throw e
  | inr a => ret a
  end.

Notation "'do' x <- m ; k" := (bind m (fun x => k))
  (at level 10, x binder, m at level 100, k at level 200).

(** ** githubService.ts *)
Module GitHubService.

(** [s] cut at the first occurrence of [sep]: the part before it and, when
    [sep] occurs, the part after it. *)
Fixpoint breakAt (sep : ascii) (s : string) : string * option string :=
  match s with
  | EmptyString => (EmptyString, None)
  | String c s' =>
      if Ascii.eqb c sep then (EmptyString, Some s')
      else let '(a, b) := breakAt sep s' in (String c a, b)
  end.

(** [s] without its last [n] code units. *)
Definition dropEnd (n : nat) (s : string) : string :=
  String.rev (Js.substring n (String.rev s)).

(** What the lazy group [([^\/]+?)] followed by [(?:\.git)?] captures from a
    segment free of [/]: the segment without one trailing [.git], unless the
    segment is [.git] itself (the group needs one character at least). *)
Definition captureRepo (segment : string) : string :=
  if Js.endsWith segment ".git" && (4 <? String.length segment)%nat
  then dropEnd 4 segment else segment.

Definition stripPrefix (p s : string) : option string :=
  if Js.startsWith s p then Some (Js.substring (String.length p) s) else None.

(** First pattern: the prefix [https://github.com/], an owner [[^\/]+], a
    slash, a repository [[^\/]+?], an optional [.git], and an optional
    trailing path (a slash and any characters but line terminators) up to the
    end of the input. *)
Definition matchHttps (repoUrl : string) : option (string * string) :=
  match stripPrefix "https://github.com/" repoUrl with
  | None => None
  | Some rest =>
      match breakAt "/" rest with
      | (_, None) => None
      | (o, Some rest') =>
          let '(segment, trailing) := breakAt "/" rest' in
          if Js.nonEmpty o && Js.nonEmpty segment
             && match trailing with
                | None => true
                | Some t => Js.every (fun c => negb (Js.isLineTerminator c)) t
                end
          then Some (o, captureRepo segment) else None
      end
  end.

(** Second pattern: the prefix [git@github.com:], an owner [[^\/]+], a slash,
    a repository [[^\/]+?] and an optional [.git] up to the end of the input. *)
Definition matchSsh (repoUrl : string) : option (string * string) :=
  match stripPrefix "git@github.com:" repoUrl with
  | None => None
  | Some rest =>
      match breakAt "/" rest with
      | (o, Some segment) =>
          if Js.nonEmpty o && Js.nonEmpty segment
             && Js.every (fun c => negb (Ascii.eqb c "/")) segment
          then Some (o, captureRepo segment) else None
      | (_, None) => None
      end
  end.

(** Third pattern: [owner/repo], both [[^\/]+], and nothing else. *)
Definition matchSimple (repoUrl : string) : option (string * string) :=
  match breakAt "/" repoUrl with
  | (o, Some r) =>
      if Js.nonEmpty o && Js.nonEmpty r && Js.every (fun c => negb (Ascii.eqb c "/")) r
      then Some (o, r) else None
  | (_, None) => None
  end.

Definition patterns : list (string -> option (string * string)) :=
  [matchHttps; matchSsh; matchSimple].

Fixpoint firstMatch (ps : list (string -> option (string * string)))
    (repoUrl : string) : option (string * string) :=
  match ps with
  | [] => None
  | p :: rest =>
      match p repoUrl with
      | Some m => Some m
      | None => firstMatch rest repoUrl
      end
  end.

Definition parseGitHubUrl (repoUrl : string) : Js.Exn + (string * string) :=
  match firstMatch patterns repoUrl with
  | Some m => inr m
  | None => inl (Js.Error ("Invalid GitHub repository URL: " +:+ repoUrl))
  end.

Section WithUpstream.
Variable up : Upstream.

Definition validateRepository (token repoUrl : string) : M GitHubRepoInfo :=
  tryCatch
    (do '(o, r) <- liftSum (parseGitHubUrl repoUrl);
     do response <- await (ReposGet token o r) (fun tr => reposGet up tr token o r);
     do data <- liftSum response;
     ret {| owner := owner_login data;
            repo := data_name data;
            defaultBranch := default_branch data;
            isPrivate := private data;
            fullName := full_name data;
            repoId := data_id data |})
    (fun error =>
       if decide (Js.status error = Some 404%Z) then
         throw (Js.Error ("Repository not found or not accessible: " +:+ repoUrl))
       else if decide (Js.status error = Some 401%Z) then
         throw (Js.Error "GitHub token is invalid or expired")
       else if decide (Js.status error = Some 403%Z) then
         throw (Js.Error "GitHub token does not have permission to access this repository")
       else throw (Js.Error ("GitHub API error: " +:+ Js.message error))).

End WithUpstream.
End GitHubService.

(** ** vercelService.ts *)
Module VercelService.
Section WithUpstream.
Variable up : Upstream.

(** The body of an [ok] response, or the error thrown for one that is not:
    [prefix] followed by [errorData.error?.message || response.statusText]. *)
Definition bodyOrThrow {A} (prefix : string) (r : Fetched A) : M A :=
  match r with
  | FetchRejected e => throw e
  | FetchNotOk _ statusText errorMessage =>
      throw (Js.Error (prefix +:+ Js.orElse errorMessage statusText))
  | FetchOk body => ret body
  end.

Definition getProject (token projectName : string) : M (option VercelProject) :=
  tryCatch
    (do response <- await (GetProject token projectName)
                      (fun tr => fetchGetProject up tr token projectName);
     match response with
     | FetchRejected e => throw e
     | FetchNotOk status statusText _ =>
         if (status =? 404)%Z then ret None
         else throw (Js.Error ("HTTP " +:+ pretty status +:+ ": " +:+ statusText))
     | FetchOk body => ret (Some body)
     end)
    (fun error =>
       if Js.includes (Js.message error) "404" then ret None else throw error).

Definition createProject (token projectName : string) (repoInfo : GitHubRepoInfo)
    (framework : string) : M VercelProject :=
  tryCatch
    (do existing <- tryCatch (getProject token projectName) (fun _ => ret None);
     match existing with
     | Some p => ret p
     | None =>
         let projectData :=
           {| pd_name := projectName;
              pd_gitRepository_repo := fullName repoInfo;
              pd_framework := if String.eqb framework "static" then None else Some framework |} in
         do response <- await (PostProject token projectData)
                          (fun tr => fetchPostProject up tr token projectData);
         bodyOrThrow "Vercel API error: " response
     end)
    (fun error => throw (Js.Error ("Failed to create Vercel project: " +:+ Js.message error))).

Definition createDeployment (token : string) (project : VercelProject)
    (repoInfo : GitHubRepoInfo) : M VercelDeployment :=
  tryCatch
    (let deploymentData :=
       {| dd_name := project_name project;
          dd_project := project_id project;
          dd_gitSource_repo := fullName repoInfo;
          dd_gitSource_ref := defaultBranch repoInfo;
          dd_gitSource_repoId := repoId repoInfo |} in
     do response <- await (PostDeployment token deploymentData)
                      (fun tr => fetchPostDeployment up tr token deploymentData);
     bodyOrThrow "Vercel deployment error: " response)
    (fun error => throw (Js.Error ("Failed to create deployment: " +:+ Js.message error))).

Definition getDeploymentStatus (token : string) (deploymentId : Js.Value)
    : M VercelDeployment :=
  tryCatch
    (do response <- await (GetDeployment token deploymentId)
                      (fun tr => fetchGetDeployment up tr token deploymentId);
     bodyOrThrow "Vercel API error: " response)
    (fun error => throw (Js.Error ("Failed to get deployment status: " +:+ Js.message error))).

End WithUpstream.
End VercelService.

(** ** deploymentService.ts *)
Module DeploymentService.

Definition parseTokens (combinedToken : string) : Js.Exn + TokenPair :=
  match Js.split ":" combinedToken with
  | [githubToken; vercelToken] =>
      if negb (Js.nonEmpty (Js.trim githubToken)) || negb (Js.nonEmpty (Js.trim vercelToken))
      then inl (Js.Error "Both GitHub and Vercel tokens are required")
      else inr {| githubToken := Js.trim githubToken; vercelToken := Js.trim vercelToken |}
  | _ => inl (Js.Error ("Token format should be " +:+ Js.quoted "github_token:vercel_token"))
  end.

(** The class [[a-z0-9-]]. *)
Definition isSlugChar (c : ascii) : bool :=
  Js.inRange 97 122 c || Js.inRange 48 57 c || Ascii.eqb c "-".

(** [.replace(/[^a-z0-9-]/g, '-')] *)
Definition replaceNonSlug (s : string) : string :=
  Js.mapChars (fun c => if isSlugChar c then c else "-"%char) s.

(** [.replace(/-+/g, '-')]: of every maximal run of hyphens one is kept. *)
Fixpoint collapseHyphens (s : string) : string :=
  match s with
  | EmptyString => EmptyString
  | String c s' =>
      match s' with
      | String c' _ =>
          if Ascii.eqb c "-" && Ascii.eqb c' "-" then collapseHyphens s'
          else String c (collapseHyphens s')
      | EmptyString => String c EmptyString
      end
  end.

Definition dropFirstHyphen (s : string) : string :=
  match s with
  | String c s' => if Ascii.eqb c "-" then s' else s
  | EmptyString => EmptyString
  end.

Fixpoint dropLastHyphen (s : string) : string :=
  match s with
  | EmptyString => EmptyString
  | String c EmptyString => if Ascii.eqb c "-" then EmptyString else s
  | String c s' => String c (dropLastHyphen s')
  end.

(** [.replace(/^-|-$/g, '')]: a hyphen in first place is removed, and so is a
    hyphen in last place of what follows it; no other place can match. *)
Definition dropEdgeHyphens (s : string) : string :=
  dropLastHyphen (dropFirstHyphen s).

Definition generateProjectName (repoInfo : GitHubRepoInfo) (customName : option string)
    : string :=
  match customName with
  | Some name =>
      if Js.nonEmpty name then
        dropEdgeHyphens (collapseHyphens (replaceNonSlug (Js.toLowerCase name)))
      else Js.toLowerCase (owner repoInfo +:+ "-" +:+ repo repoInfo)
  | None => Js.toLowerCase (owner repoInfo +:+ "-" +:+ repo repoInfo)
  end.

(** The own properties of the object literal [statusMessages]. It is indexed
    with the state through [Js.member], which also finds what the literal
    inherits from [Object.prototype]. *)
Definition statusMessages : gmap string string :=
  {[ "BUILDING" := "Deployment is currently building";
     "ERROR" := "Deployment failed with errors";
     "INITIALIZING" := "Deployment is initializing";
     "QUEUED" := "Deployment is queued and waiting to start";
     "READY" := "Deployment is live and ready";
     "CANCELED" := "Deployment was canceled" ]}.

(** What [getDeploymentStatus] resolves to. *)
Record StatusSummary : Type := {
  summary_deployment : VercelDeployment;
  status : string;
  message : Js.Member;
  isLive : bool;
  hasError : bool
}.

Section WithUpstream.
Variable up : Upstream.

Definition deployRepository (tokens : TokenPair) (params : DeployRepoParams)
    : M DeploymentResult :=
  tryCatch
    (do repoInfo <- GitHubService.validateRepository up (githubToken tokens) (repoUrl params);
     let projectName := generateProjectName repoInfo (projectName params) in
     do project <- VercelService.createProject up (vercelToken tokens) projectName repoInfo
                     (Js.orElse (framework params) "static");
     do deployment <- VercelService.createDeployment up (vercelToken tokens) project repoInfo;
     ret {| deployment := deployment;
            project := project;
            result_message :=
              "Successfully initiated deployment of " +:+ fullName repoInfo +:+ " to Vercel" |})
    (fun error => throw (Js.Error ("Deployment failed: " +:+ Js.message error))).

Definition getDeploymentStatus (vercelToken : string) (deploymentId : Js.Value)
    : M StatusSummary :=
  tryCatch
    (do deployment <- VercelService.getDeploymentStatus up vercelToken deploymentId;
     ret {| summary_deployment := deployment;
            status := state deployment;
            message :=
              Js.memberOr (Js.member statusMessages (state deployment))
                "Unknown deployment status";
            isLive := bool_decide (state deployment = "READY");
            hasError := bool_decide (state deployment = "ERROR") |})
    (fun error => throw (Js.Error ("Failed to get deployment status: " +:+ Js.message error))).

End WithUpstream.
End DeploymentService.

(** ** appController.ts *)
Module AppController.

Record Headers : Type := {
  authorization : option string;
  x_github : option string;
  x_vercel : option string
}.

(** The parts of the Express request the controller reads:
    [req.params.toolName], [req.body] and [req.headers]. *)
Record Request : Type := {
  toolName : string;
  body : Js.Value;
  headers : Headers
}.

(** Modelled from the spec: the class [BaseErrorResponseDto] of types/agent.ts,
    which is not among the sources. The spec has the error envelope carry a
    message, an HTTP-style status code and a short context string, which are
    the three constructor arguments in this order. *)
Record BaseErrorResponseDto : Type := {
  error_message : string;
  error_code : Z;
  error_details : string
}.

(** The object [handleDeployRepo] answers with. *)
Record DeployData : Type := {
  dr_deploymentId : string;
  dr_deploymentUrl : string;
  dr_projectName : string;
  dr_status : string;
  dr_message : string;
  dr_repository : string;
  dr_framework : string;
  dr_inspectorUrl : option string;
  dr_tool_type : string
}.

(** The object [handleGetDeploymentStatus] answers with, as it is handed to
    [res.json]. *)
Record StatusData : Type := {
  sr_deploymentId : string;
  sr_status : string;
  sr_deploymentUrl : string;
  sr_message : Js.Member;
  sr_isLive : bool;
  sr_hasError : bool;
  sr_createdAt : string;
  sr_inspectorUrl : option string;
  sr_tool_type : string
}.

Inductive ResponseData : Type :=
| Deploy (d : DeployData)
| Status (s : StatusData).

(** Modelled from the spec: the class [BaseSuccessResponseDto] of
    types/agent.ts, which is not among the sources: the success envelope
    carrying the data, with the response type given as second argument. *)
Record BaseSuccessResponseDto : Type := {
  data : ResponseData;
  responseType : string
}.

Inductive Envelope : Type :=
| Success (dto : BaseSuccessResponseDto)
| Failure (dto : BaseErrorResponseDto).

(** What was written to [res]: the status ([200] unless [res.status] was
    called) and the JSON body. Every path writes exactly once. *)
Record HttpResponse : Type := {
  statusCode : Z;
  json : Envelope
}.

Definition respondError (message : string) (code : Z) (details : string) : HttpResponse :=
  {| statusCode := code;
     json := Failure {| error_message := message; error_code := code; error_details := details |} |}.

Definition respondSuccess (d : ResponseData) : HttpResponse :=
  {| statusCode := 200; json := Success {| data := d; responseType := "mixed" |} |}.

(** A parameter that passed validation, read at its declared type: a string
    stays, and anything else (falsy by then) counts as absent. *)
Definition optString (v : Js.Value) : option string :=
  match v with Js.Str s => Some s | _ => None end.

Definition stringOf (v : Js.Value) : string :=
  match v with Js.Str s => s | _ => EmptyString end.

Definition validateDeployRepoParameters (params : Js.Value) : Js.Exn + unit :=
  match Js.getProp params "repoUrl" with
  | inl e => inl e
  | inr repoUrl =>
      if negb (Js.truthy repoUrl) then
        inl (Js.Error "Missing required parameter: repoUrl")
      else if negb (Js.isString repoUrl) then
        inl (Js.Error "Parameter 'repoUrl' must be a string")
      else if negb (Js.includes (stringOf repoUrl) "github.com") then
        inl (Js.Error "Parameter 'repoUrl' must be a valid GitHub repository URL")
      else
        match Js.getProp params "projectName" with
        | inl e => inl e
        | inr projectName =>
            if Js.truthy projectName && negb (Js.isString projectName) then
              inl (Js.Error "Parameter 'projectName' must be a string")
            else
              match Js.getProp params "framework" with
              | inl e => inl e
              | inr framework =>
                  if Js.truthy framework && negb (Js.isString framework) then
                    inl (Js.Error "Parameter 'framework' must be a string")
                  else inr tt
              end
        end
  end.

Section WithUpstream.
Variable up : Upstream.

Definition handleDeployRepo (tokens : TokenPair) (params : Js.Value) : M HttpResponse :=
  do _ <- liftSum (validateDeployRepoParameters params);
  tryCatch
    (do repoUrl <- liftSum (Js.getProp params "repoUrl");
     do projectName <- liftSum (Js.getProp params "projectName");
     do framework <- liftSum (Js.getProp params "framework");
     do result <- DeploymentService.deployRepository up tokens
                    {| repoUrl := stringOf repoUrl;
                       projectName := optString projectName;
                       framework := Some (Js.orElse (optString framework) "static") |};
     ret (respondSuccess (Deploy
       {| dr_deploymentId := id (deployment result);
          dr_deploymentUrl := "https://" +:+ url (deployment result);
          dr_projectName := project_name (project result);
          dr_status := state (deployment result);
          dr_message := result_message result;
          dr_repository := stringOf repoUrl;
          dr_framework := Js.orElse (optString framework) "static";
          dr_inspectorUrl := inspectorUrl (deployment result);
          dr_tool_type := "deployment" |})))
    (fun error => ret (respondError (Js.message error) 400 "Deployment failed")).

Definition handleGetDeploymentStatus (vercelToken : string) (params : Js.Value)
    : M HttpResponse :=
  do deploymentId <- liftSum (Js.getProp params "deploymentId");
  if negb (Js.truthy deploymentId) then
    throw (Js.Error "Missing required parameter: deploymentId")
  else
    tryCatch
      (do result <- DeploymentService.getDeploymentStatus up vercelToken deploymentId;
       let deployment := DeploymentService.summary_deployment result in
       do createdAt <- liftSum (Js.toISOString (createdAt deployment));
       ret (respondSuccess (Status
         {| sr_deploymentId := id deployment;
            sr_status := state deployment;
            sr_deploymentUrl := "https://" +:+ url deployment;
            sr_message := DeploymentService.message result;
            sr_isLive := DeploymentService.isLive result;
            sr_hasError := DeploymentService.hasError result;
            sr_createdAt := createdAt;
            sr_inspectorUrl := inspectorUrl deployment;
            sr_tool_type := "deployment_status" |})))
      (fun error => ret (respondError (Js.message error) 400 "Failed to get deployment status")).

(** The dispatch on the tool name, shared by both revisions. *)
Definition dispatch (tokens : TokenPair) (req : Request) : M HttpResponse :=
  if String.eqb (toolName req) "deployRepo" then
    handleDeployRepo tokens (body req)
  else if String.eqb (toolName req) "getDeploymentStatus" then
    handleGetDeploymentStatus (vercelToken tokens) (body req)
  else
    ret (respondError ("Unknown tool: " +:+ toolName req) 404
           "Available tools: deployRepo, getDeploymentStatus").

(** The outer [catch] of [handleTool]; every thrown value of the model is an
    [Error] instance, so its message is reported. *)
Definition onToolError (error : Js.Exn) : M HttpResponse :=
  ret (respondError (Js.message error) 500 "Tool execution failed").

End WithUpstream.

(** *** The revision with a combined bearer token *)
Module Bearer.

Definition extractBearerToken (req : Request) : option string :=
  match authorization (headers req) with
  | Some authHeader =>
      if Js.nonEmpty authHeader && Js.startsWith authHeader "Bearer "
      then Some (Js.substring 7 authHeader) else None
  | None => None
  end.

Definition handleTool (up : Upstream) (req : Request) : M HttpResponse :=
  tryCatch
    (match extractBearerToken req with
     | None | Some EmptyString =>
         ret (respondError
               ("Deployment tools require authentication. Please provide Bearer token in format "
                +:+ Js.quoted "github_token:vercel_token")
               401 "Missing Authorization header with Bearer token")
     | Some token =>
         match DeploymentService.parseTokens token with
         | inl error =>
             ret (respondError (Js.message error) 400
                    ("Token format should be " +:+ Js.quoted "github_token:vercel_token"))
         | inr tokens => dispatch up tokens req
         end
     end)
    onToolError.

End Bearer.

(** *** The revision with the [x-github] and [x-vercel] headers *)
Module Headers.

Definition extractTokensFromHeaders (req : Request) : option TokenPair :=
  match x_github (headers req), x_vercel (headers req) with
  | Some githubToken, Some vercelToken =>
      if negb (Js.nonEmpty githubToken) || negb (Js.nonEmpty vercelToken) then None
      else if negb (Js.nonEmpty (Js.trim githubToken))
              || negb (Js.nonEmpty (Js.trim vercelToken)) then None
      else Some {| githubToken := Js.trim githubToken; vercelToken := Js.trim vercelToken |}
  | _, _ => None
  end.

Definition handleTool (up : Upstream) (req : Request) : M HttpResponse :=
  tryCatch
    (match extractTokensFromHeaders req with
     | None =>
         ret (respondError
               "Deployment tools require authentication. Please provide x-github and x-vercel headers"
               401 "Missing x-github and/or x-vercel headers")
     | Some tokens => dispatch up tokens req
     end)
    onToolError.

End Headers.
End AppController.

(** ** Vocabulary of the statements *)
Module Spec.

(** The two revisions of the controller. *)
Inductive Transport : Type := BearerToken | HeaderPair.

Definition handleTool (t : Transport) : Upstream -> AppController.Request -> M AppController.HttpResponse :=
  match t with
  | BearerToken => AppController.Bearer.handleTool
  | HeaderPair => AppController.Headers.handleTool
  end.

(** The credential pair a request authenticates with, if it does. *)
Definition credentials (t : Transport) (req : AppController.Request) : option TokenPair :=
  match t with
  | BearerToken =>
      match AppController.Bearer.extractBearerToken req with
      | Some token =>
          if Js.nonEmpty token then
            match DeploymentService.parseTokens token with
            | inr tokens => Some tokens
            | inl _ => None
            end
          else None
      | None => None
      end
  | HeaderPair => AppController.Headers.extractTokensFromHeaders req
  end.

(** No credentials are presented: no bearer token (or an empty one), or no
    usable header pair. *)
Definition missingAuthentication (t : Transport) (req : AppController.Request) : bool :=
  match t with
  | BearerToken =>
      match AppController.Bearer.extractBearerToken req with
      | Some token => negb (Js.nonEmpty token)
      | None => true
      end
  | HeaderPair =>
      match AppController.Headers.extractTokensFromHeaders req with
      | Some _ => false
      | None => true
      end
  end.

(** The value of a parameter of the body, [undefined] when the body has none. *)
Definition field (params : Js.Value) (k : string) : Js.Value :=
  match Js.getProp params k with
  | inr v => v
  | inl _ => Js.Undefined
  end.

(** The parameters [handleDeployRepo] hands to the orchestrator. *)
Definition deployParams (params : Js.Value) : DeployRepoParams :=
  {| repoUrl := AppController.stringOf (field params "repoUrl");
     projectName := AppController.optString (field params "projectName");
     framework :=
       Some (Js.orElse (AppController.optString (field params "framework")) "static") |}.

(** The answer of [handleDeployRepo] to a deployment that went through. *)
Definition deployEnvelope (params : Js.Value) (result : DeploymentResult)
    : AppController.HttpResponse :=
  AppController.respondSuccess (AppController.Deploy
    {| AppController.dr_deploymentId := id (deployment result);
       AppController.dr_deploymentUrl := "https://" +:+ url (deployment result);
       AppController.dr_projectName := project_name (project result);
       AppController.dr_status := state (deployment result);
       AppController.dr_message := result_message result;
       AppController.dr_repository := AppController.stringOf (field params "repoUrl");
       AppController.dr_framework :=
         Js.orElse (AppController.optString (field params "framework")) "static";
       AppController.dr_inspectorUrl := inspectorUrl (deployment result);
       AppController.dr_tool_type := "deployment" |}).

(** The answer of [handleGetDeploymentStatus] to a status that was fetched. *)
Definition statusEnvelope (summary : DeploymentService.StatusSummary) (iso : string)
    : AppController.HttpResponse :=
  let deployment := DeploymentService.summary_deployment summary in
  AppController.respondSuccess (AppController.Status
    {| AppController.sr_deploymentId := id deployment;
       AppController.sr_status := state deployment;
       AppController.sr_deploymentUrl := "https://" +:+ url deployment;
       AppController.sr_message := DeploymentService.message summary;
       AppController.sr_isLive := DeploymentService.isLive summary;
       AppController.sr_hasError := DeploymentService.hasError summary;
       AppController.sr_createdAt := iso;
       AppController.sr_inspectorUrl := inspectorUrl deployment;
       AppController.sr_tool_type := "deployment_status" |}).

(** Empty, or made of white space only. *)
Definition blank (s : string) : bool := Js.every Js.isWhiteSpace s.

Definition absentOrBlank (o : option string) : bool :=
  match o with
  | Some s => blank s
  | None => true
  end.

Definition colonFree (s : string) : bool := Js.every (fun c => negb (Ascii.eqb c ":")) s.

Fixpoint occurrences (c : ascii) (s : string) : nat :=
  match s with
  | EmptyString => 0
  | String c' s' => (if Ascii.eqb c' c then 1 else 0) + occurrences c s'
  end.

(** The class [[a-z0-9]]. *)
Definition isLowerAlnum (c : ascii) : bool := Js.inRange 97 122 c || Js.inRange 48 57 c.

Definition isHyphen (c : ascii) : bool := Ascii.eqb c "-".

(** Trimming of hyphens as the specification words it: all leading and all
    trailing hyphens go. *)
Fixpoint trimLeadingHyphens (s : string) : string :=
  match s with
  | EmptyString => EmptyString
  | String c s' => if isHyphen c then trimLeadingHyphens s' else s
  end.

Fixpoint trimTrailingHyphens (s : string) : string :=
  match s with
  | EmptyString => EmptyString
  | String c s' =>
      match trimTrailingHyphens s' with
      | EmptyString => if isHyphen c then EmptyString else String c EmptyString
      | t => String c t
      end
  end.

(** The class [[a-z0-9-]]. *)
Definition inClass (c : ascii) : bool := isLowerAlnum c || isHyphen c.

(** Any character outside the class becomes a hyphen. *)
Definition hyphenate (s : string) : string :=
  Js.mapChars (fun c => if inClass c then c else "-"%char) s.

(** Collapsing repeated hyphens, read from left to right: a hyphen is kept
    unless the character before it was a hyphen. *)
Fixpoint collapseAfter (afterHyphen : bool) (s : string) : string :=
  match s with
  | EmptyString => EmptyString
  | String c s' =>
      if isHyphen c then
        if afterHyphen then collapseAfter true s' else String c (collapseAfter true s')
      else String c (collapseAfter false s')
  end.

Definition collapseRepeated (s : string) : string := collapseAfter false s.

(** Sanitization in the specification's words: lowercase; any character
    outside [[a-z0-9-]] becomes a hyphen; repeated hyphens collapse; leading
    and trailing hyphens are trimmed. *)
Definition sanitize (name : string) : string :=
  trimTrailingHyphens (trimLeadingHyphens
    (collapseRepeated (hyphenate (Js.toLowerCase name)))).

Definition startsWithHyphen (s : string) : bool :=
  match s with String c _ => isHyphen c | EmptyString => false end.

Fixpoint endsWithHyphen (s : string) : bool :=
  match s with
  | EmptyString => false
  | String c EmptyString => isHyphen c
  | String _ s' => endsWithHyphen s'
  end.

(** No two hyphens in a row. *)
Fixpoint noAdjacentHyphens (s : string) : bool :=
  match s with
  | EmptyString => true
  | String c s' => negb (isHyphen c && startsWithHyphen s') && noAdjacentHyphens s'
  end.

(** The two errors of [parseTokens]. *)
Definition formatError : Js.Exn :=
  Js.Error ("Token format should be " +:+ Js.quoted "github_token:vercel_token").

Definition bothRequiredError : Js.Exn :=
  Js.Error "Both GitHub and Vercel tokens are required".

(** The answers to a request that does not authenticate. *)
Definition unauthorizedBearer : AppController.HttpResponse :=
  AppController.respondError
    ("Deployment tools require authentication. Please provide Bearer token in format "
     +:+ Js.quoted "github_token:vercel_token")
    401 "Missing Authorization header with Bearer token".

Definition unauthorizedHeaders : AppController.HttpResponse :=
  AppController.respondError
    "Deployment tools require authentication. Please provide x-github and x-vercel headers"
    401 "Missing x-github and/or x-vercel headers".

Definition badToken (e : Js.Exn) : AppController.HttpResponse :=
  AppController.respondError (Js.message e) 400
    ("Token format should be " +:+ Js.quoted "github_token:vercel_token").






(** The endpoint a call goes to. *)
Inductive Endpoint : Type :=
| EReposGet | EGetProject | EPostProject | EPostDeployment | EGetDeployment.

#[global] Instance Endpoint_eq_dec : EqDecision Endpoint.
Proof. solve_decision. Defined.

Definition endpoint (c : Call) : Endpoint :=
  match c with
  | ReposGet _ _ _ => EReposGet
  | GetProject _ _ => EGetProject
  | PostProject _ _ => EPostProject
  | PostDeployment _ _ => EPostDeployment
  | GetDeployment _ _ => EGetDeployment
  end.

End Spec.

(** ** A concrete platform, for running the model *)
Module Scenario.

Definition acmeSite : RepoData :=
  {| owner_login := "Acme"; data_name := "Site"; default_branch := "main";
     private := false; full_name := "Acme/Site"; data_id := 4242 |}.

Definition acmeInfo : GitHubRepoInfo :=
  {| owner := "Acme"; repo := "Site"; defaultBranch := "main";
     isPrivate := false; fullName := "Acme/Site"; repoId := 4242 |}.

Definition notFound : Js.Exn :=
  {| Js.name := "HttpError"; Js.message := "Not Found"; Js.status := Some 404%Z |}.

Definition projectNamed (n : string) : VercelProject :=
  {| project_id := "prj_1"; project_name := n; accountId := "team_1";
     project_createdAt := 1700000000000; updatedAt := 1700000000000 |}.

Definition queued : VercelDeployment :=
  {| id := "dpl_1"; url := "acme-site-abc123.vercel.app"; deployment_name := "acme-site";
     state := "QUEUED"; createdAt := 1700000000000; projectId := "prj_1";
     inspectorUrl := Some "https://vercel.com/acme/acme-site/dpl_1" |}.

Definition ready : VercelDeployment :=
  {| id := "dpl_1"; url := "acme-site-abc123.vercel.app"; deployment_name := "acme-site";
     state := "READY"; createdAt := 1700000000000; projectId := "prj_1";
     inspectorUrl := None |}.

(** GitHub knows [acme/site] only; the platform has no project yet, creates
    what it is asked to, and knows the deployment [dpl_1]. *)
Definition platform : Upstream :=
  {| reposGet := fun _ _ o r =>
       if String.eqb o "acme" && String.eqb r "site" then inr acmeSite else inl notFound;
     fetchGetProject := fun _ _ _ => FetchNotOk 404 "Not Found" None;
     fetchPostProject := fun _ _ pd => FetchOk (projectNamed (pd_name pd));
     fetchPostDeployment := fun _ _ _ => FetchOk queued;
     fetchGetDeployment := fun _ _ v =>
       match v with
       | Js.Str "dpl_1" => FetchOk ready
       | _ => FetchNotOk 404 "Not Found" (Some "Deployment not found")
       end |}.

Definition bearer (token : string) : AppController.Headers :=
  {| AppController.authorization := Some ("Bearer " +:+ token);
     AppController.x_github := None; AppController.x_vercel := None |}.

Definition pair (gh vc : string) : AppController.Headers :=
  {| AppController.authorization := None;
     AppController.x_github := Some gh; AppController.x_vercel := Some vc |}.

Definition deployRequest (h : AppController.Headers) (repoUrl : string) : AppController.Request :=
  {| AppController.toolName := "deployRepo";
     AppController.body := Js.Obj [("repoUrl", Js.Str repoUrl)];
     AppController.headers := h |}.

Definition statusRequest (h : AppController.Headers) (deploymentId : string) : AppController.Request :=
  {| AppController.toolName := "getDeploymentStatus";
     AppController.body := Js.Obj [("deploymentId", Js.Str deploymentId)];
     AppController.headers := h |}.

End Scenario.

(** ** Further vocabulary, for the properties beyond the claims *)
Module Terms.

Definition slashFree (s : string) : bool := Js.every (fun c => negb (Ascii.eqb c "/")) s.

Definition lineFree (s : string) : bool := Js.every (fun c => negb (Js.isLineTerminator c)) s.

(** The string starts with a white-space character. *)
Definition headIsSpace (s : string) : bool :=
  match s with String c _ => Js.isWhiteSpace c | EmptyString => false end.

(** The framework presets the tool declaration lists for [deployRepo]. *)
Definition frameworkEnum : list string :=
  ["nextjs"; "react"; "vue"; "nuxtjs"; "gatsby"; "svelte"; "vite"; "static"].

(** The credential a call carries. *)
Definition callToken (c : Call) : string :=
  match c with
  | ReposGet token _ _ => token
  | GetProject token _ => token
  | PostProject token _ => token
  | PostDeployment token _ => token
  | GetDeployment token _ => token
  end.

(** The credential a call to an endpoint is meant to carry. *)
Definition designatedToken (tokens : TokenPair) (e : Spec.Endpoint) : string :=
  match e with
  | Spec.EReposGet => githubToken tokens
  | _ => vercelToken tokens
  end.

(** The repository information [validateRepository] returns for the [data]
    of GitHub's answer. *)
Definition repoInfoOf (data : RepoData) : GitHubRepoInfo :=
  {| owner := owner_login data; repo := data_name data;
     defaultBranch := default_branch data; isPrivate := private data;
     fullName := full_name data; repoId := data_id data |}.

(** The three steps of the deploy flow. *)
Inductive Step : Type := Validation | Provisioning | Trigger.

(** The step that the message of an error of the deploy flow names. *)
Definition namedStep (message : string) : option Step :=
  if Js.startsWith message "Deployment failed: Failed to create Vercel project: "
  then Some Provisioning
  else if Js.startsWith message "Deployment failed: Failed to create deployment: "
  then Some Trigger
  else if Js.startsWith message "Deployment failed: Repository not found or not accessible: "
          || Js.startsWith message "Deployment failed: GitHub "
  then Some Validation
  else None.

(** Upstream grants the call [c], made after the calls [tr]: GitHub finds the
    repository, or the platform answers [ok]. *)
Definition granted (up : Upstream) (tr : Trace) (c : Call) : bool :=
  match c with
  | ReposGet token o r =>
      match reposGet up tr token o r with inr _ => true | inl _ => false end
  | GetProject token n =>
      match fetchGetProject up tr token n with FetchOk _ => true | _ => false end
  | PostProject token body =>
      match fetchPostProject up tr token body with FetchOk _ => true | _ => false end
  | PostDeployment token body =>
      match fetchPostDeployment up tr token body with FetchOk _ => true | _ => false end
  | GetDeployment token deploymentId =>
      match fetchGetDeployment up tr token deploymentId with FetchOk _ => true | _ => false end
  end.

(** The orders in which the deploy flow can have called the endpoints. *)
Definition deploySequences : list (list Spec.Endpoint) :=
  [ [];
    [Spec.EReposGet];
    [Spec.EReposGet; Spec.EGetProject; Spec.EPostProject];
    [Spec.EReposGet; Spec.EGetProject; Spec.EPostDeployment];
    [Spec.EReposGet; Spec.EGetProject; Spec.EPostProject; Spec.EPostDeployment] ].

End Terms.

(** ** config.ts *)
Module Config.

(** A number as [parseInt] returns it, which is a double: [NaN]; the negative
    zero; an integer of magnitude up to 2^53, all of which a double holds
    exactly; or the double that a larger integer is rounded to. That double is
    not computed (the standard leaves the digits after the twentieth to the
    implementation, and the result may be an infinity): [Rounded n] stands
    for it, [n] being the integer that was read. *)
Inductive Number : Type :=
| NaN
| NegZero
| Int (n : Z)
| Rounded (n : Z).

(** 2^53 *)
Definition maxExact : Z := 9007199254740992.

(** The double for the integer [n] read with the sign [sign]. *)
Definition ofInteger (sign n : Z) : Number :=
  if (n =? 0)%Z && (sign <? 0)%Z then NegZero
  else if (n <=? maxExact)%Z then Int (sign * n)
  else Rounded (sign * n).

Definition digitValue (c : ascii) : option Z :=
  if Js.inRange 48 57 c then Some (Z.of_N (Js.code c) - 48)%Z else None.

(** The value of the longest prefix of decimal digits, [acc] being the value
    of the digits read so far (if any). *)
Fixpoint leadingDigits (acc : option Z) (s : string) : option Z :=
  match s with
  | EmptyString => acc
  | String c s' =>
      match digitValue c with
      | Some d => leadingDigits (Some (10 * default 0%Z acc + d)%Z) s'
      | None => acc
      end
  end.

(** [parseInt(s, 10)]: leading white space is skipped, one sign is read, and
    the digits that follow are the value; without a digit there the result is
    [NaN]. *)
Definition parseInt10 (s : string) : Number :=
  let trimmed := Js.trimStart s in
  let '(sign, rest) :=
    match trimmed with
    | String "-" r => ((-1)%Z, r)
    | String "+" r => (1%Z, r)
    | _ => (1%Z, trimmed)
    end in
  match leadingDigits None rest with
  | Some n => ofInteger sign n
  | None => NaN
  end.

Record Config : Type := {
  port : Number;
  nodeEnv : string
}.

(** The configuration read from the environment (after [dotenv.config()]),
    the default port being the one literal in which the two revisions of the
    file differ. *)
Definition load (defaultPort : string) (env : gmap string string) : Config :=
  {| port := parseInt10 (Js.orElse (env !! "PORT") defaultPort);
     nodeEnv := Js.orElse (env !! "NODE_ENV") "development" |}.

(** The revision with the default port 3000. *)
Definition config3000 (env : gmap string string) : Config := load "3000" env.

(** The revision with the default port 8080. *)
Definition config8080 (env : gmap string string) : Config := load "8080" env.

End Config.

(** ** Further platforms, for running the model *)
Module Cases.

(** GitHub rejects the token. *)
Definition expiredToken : Upstream :=
  {| reposGet := fun _ _ _ _ =>
       inl {| Js.name := "HttpError"; Js.message := "Bad credentials"; Js.status := Some 401%Z |};
     fetchGetProject := fetchGetProject Scenario.platform;
     fetchPostProject := fetchPostProject Scenario.platform;
     fetchPostDeployment := fetchPostDeployment Scenario.platform;
     fetchGetDeployment := fetchGetDeployment Scenario.platform |}.

(** The project exists already. *)
Definition existingProject : Upstream :=
  {| reposGet := reposGet Scenario.platform;
     fetchGetProject := fun _ _ n => FetchOk (Scenario.projectNamed n);
     fetchPostProject := fun _ _ _ => FetchNotOk 409 "Conflict" (Some "Project already exists");
     fetchPostDeployment := fetchPostDeployment Scenario.platform;
     fetchGetDeployment := fetchGetDeployment Scenario.platform |}.

(** The project lookup breaks down, project creation works, and the
    deployment is refused without an error message in the body. *)
Definition flaky : Upstream :=
  {| reposGet := reposGet Scenario.platform;
     fetchGetProject := fun _ _ _ => FetchNotOk 500 "Internal Server Error" None;
     fetchPostProject := fetchPostProject Scenario.platform;
     fetchPostDeployment := fun _ _ _ => FetchNotOk 402 "Payment Required" (Some "");
     fetchGetDeployment := fun _ _ _ =>
       FetchOk {| id := "dpl_2"; url := "x.vercel.app"; deployment_name := "x";
                  state := "READY"; createdAt := 9000000000000000; projectId := "prj_1";
                  inspectorUrl := None |} |}.


(** A repository whose default project name is not a fixed point of the
    sanitization. *)
Definition dottedRepo : GitHubRepoInfo :=
  {| owner := "acme"; repo := "my.site_1"; defaultBranch := "main";
     isPrivate := false; fullName := "acme/my.site_1"; repoId := 7 |}.

End Cases.

(** * Properties *)

(** ** The model on the inputs of the repository's tests *)

Example parseGitHubUrl_forms :
  GitHubService.parseGitHubUrl "https://github.com/owner/repo" = inr ("owner", "repo")
  /\ GitHubService.parseGitHubUrl "https://github.com/owner/repo.git" = inr ("owner", "repo")
  /\ GitHubService.parseGitHubUrl "git@github.com:owner/repo.git" = inr ("owner", "repo")
  /\ GitHubService.parseGitHubUrl "owner/repo" = inr ("owner", "repo")
  /\ GitHubService.parseGitHubUrl "https://github.com/owner/repo/tree/main"
     = inr ("owner", "repo")
  /\ GitHubService.parseGitHubUrl "invalid-url"
     = inl (Js.Error "Invalid GitHub repository URL: invalid-url")
  /\ GitHubService.parseGitHubUrl "https://gitlab.com/owner/repo"
     = inl (Js.Error "Invalid GitHub repository URL: https://gitlab.com/owner/repo").
Proof. vm_compute. repeat split. Qed.

Example parseTokens_tests :
  DeploymentService.parseTokens "github_token_123:vercel_token_456"
    = inr {| githubToken := "github_token_123"; vercelToken := "vercel_token_456" |}
  /\ DeploymentService.parseTokens " github_token_123 : vercel_token_456 "
     = inr {| githubToken := "github_token_123"; vercelToken := "vercel_token_456" |}
  /\ DeploymentService.parseTokens "github:token:vercel:token" = inl Spec.formatError.
Proof. vm_compute. repeat split. Qed.

Example toISOString_dates :
  Js.toISOString 1700000000000 = inr "2023-11-14T22:13:20.000Z"
  /\ Js.toISOString 0 = inr "1970-01-01T00:00:00.000Z"
  /\ Js.toISOString (-1) = inr "1969-12-31T23:59:59.999Z"
  /\ Js.toISOString 951782400000 = inr "2000-02-29T00:00:00.000Z"
  /\ Js.toISOString (-62198755200000) = inr "-000001-01-01T00:00:00.000Z"
  /\ Js.toISOString 8640000000000000 = inr "+275760-09-13T00:00:00.000Z"
  /\ Js.toISOString 8640000000000001 = inl (Js.RangeError "Invalid time value").
Proof. vm_compute. repeat split. Qed.

(** ** Strings *)

Lemma append_cons (c : ascii) (a b : string) : String c a +:+ b = String c (a +:+ b).
Proof. reflexivity. Qed.

Lemma nonEmpty_true (s : string) : Js.nonEmpty s = true <-> s <> "".
Proof. destruct s; simpl; split; congruence. Qed.

Lemma trimEnd_keeps_head (c : ascii) (s : string) :
  Js.isWhiteSpace c = false -> Js.nonEmpty (Js.trimEnd (String c s)) = true.
Proof.
  intros Hc. simpl. destruct (Js.trimEnd s); [rewrite Hc|]; reflexivity.
Qed.

Lemma nonEmpty_trim (s : string) : Js.nonEmpty (Js.trim s) = negb (Spec.blank s).
Proof.
  unfold Js.trim, Spec.blank.
  induction s as [|c s IH]; [reflexivity|].
  cbn [Js.trimStart Js.every].
  destruct (Js.isWhiteSpace c) eqn:Hc; [exact IH|].
  now rewrite trimEnd_keeps_head.
Qed.

Lemma split_length (sep : ascii) (s : string) :
  length (Js.split sep s) = S (Spec.occurrences sep s).
Proof.
  induction s as [|c s IH]; [reflexivity|].
  cbn [Js.split Spec.occurrences].
  destruct (Ascii.eqb c sep); cbn [length]; [now rewrite IH|].
  destruct (Js.split sep s); cbn [length] in *; [discriminate|exact IH].
Qed.

Lemma split_colonFree (s : string) : Spec.colonFree s = true -> Js.split ":" s = [s].
Proof.
  unfold Spec.colonFree.
  induction s as [|c s IH]; [reflexivity|].
  cbn [Js.every Js.split]. intros [Hc Hs]%andb_prop.
  apply negb_true_iff in Hc. rewrite Hc, (IH Hs). reflexivity.
Qed.

Lemma split_at_colon (a b : string) :
  Spec.colonFree a = true -> Js.split ":" (a +:+ ":" +:+ b) = a :: Js.split ":" b.
Proof.
  unfold Spec.colonFree.
  induction a as [|c a IH]; [reflexivity|].
  cbn [Js.every]. intros [Hc Ha]%andb_prop.
  apply negb_true_iff in Hc.
  rewrite append_cons. cbn [Js.split]. rewrite Hc, (IH Ha). reflexivity.
Qed.

(** ** Credential split *)

Lemma parseTokens_format (s : string) :
  Spec.occurrences ":" s <> 1 -> DeploymentService.parseTokens s = inl Spec.formatError.
Proof.
  intros Hn. unfold DeploymentService.parseTokens.
  pose proof (split_length ":" s) as Hlen.
  destruct (Js.split ":" s) as [|g [|v [|x rest]]]; cbn [length] in Hlen;
    try reflexivity.
  exfalso. apply Hn. lia.
Qed.

Lemma parseTokens_pair (a b : string) :
  Spec.colonFree a = true -> Spec.colonFree b = true ->
  DeploymentService.parseTokens (a +:+ ":" +:+ b) =
    if Spec.blank a || Spec.blank b then inl Spec.bothRequiredError
    else inr {| githubToken := Js.trim a; vercelToken := Js.trim b |}.
Proof.
  intros Ha Hb. unfold DeploymentService.parseTokens.
  rewrite (split_at_colon a b Ha), (split_colonFree b Hb).
  rewrite !nonEmpty_trim, !negb_involutive. reflexivity.
Qed.

(** C5. [parseTokens] on the listed inputs, and in general: a string with no
    colon or with more than one fails with the format error; a string with
    exactly one colon fails with the both-required error when either side is
    empty or white space only, and otherwise yields the two trimmed sides. *)
Theorem parseTokens_cases :
  DeploymentService.parseTokens "gh:vc" = inr {| githubToken := "gh"; vercelToken := "vc" |}
  /\ DeploymentService.parseTokens " gh : vc " = inr {| githubToken := "gh"; vercelToken := "vc" |}
  /\ DeploymentService.parseTokens "gh" = inl Spec.formatError
  /\ DeploymentService.parseTokens "gh:mid:vc" = inl Spec.formatError
  /\ DeploymentService.parseTokens ":vc" = inl Spec.bothRequiredError
  /\ DeploymentService.parseTokens "gh:" = inl Spec.bothRequiredError
  /\ DeploymentService.parseTokens ":" = inl Spec.bothRequiredError
  /\ (forall s, Spec.occurrences ":" s <> 1 ->
        DeploymentService.parseTokens s = inl Spec.formatError)
  /\ (forall a b, Spec.colonFree a = true -> Spec.colonFree b = true ->
        DeploymentService.parseTokens (a +:+ ":" +:+ b) =
          if Spec.blank a || Spec.blank b then inl Spec.bothRequiredError
          else inr {| githubToken := Js.trim a; vercelToken := Js.trim b |}).
Proof.
  repeat split; try (vm_compute; reflexivity).
  - exact parseTokens_format.
  - exact parseTokens_pair.
Qed.

Lemma parseTokens_cases_witness :
  DeploymentService.parseTokens "a:b:c:d" = inl Spec.formatError
  /\ DeploymentService.parseTokens "  :vc" = inl Spec.bothRequiredError.
Proof.
  destruct parseTokens_cases as (_ & _ & _ & _ & _ & _ & _ & Hfmt & Hpair).
  split.
  - apply Hfmt. vm_compute. lia.
  - apply (Hpair "  " "vc"); reflexivity.
Defined.

(** ** Project-name resolution *)

Lemma collapse_head (s : string) :
  Spec.startsWithHyphen (DeploymentService.collapseHyphens s) = Spec.startsWithHyphen s.
Proof.
  induction s as [|c s IH]; [reflexivity|].
  cbn [DeploymentService.collapseHyphens].
  destruct s as [|c' s']; [reflexivity|].
  destruct (Ascii.eqb c "-") eqn:Hc; cbn [andb].
  - destruct (Ascii.eqb c' "-") eqn:Hc'.
    + rewrite IH. cbn [Spec.startsWithHyphen]. unfold Spec.isHyphen. now rewrite Hc, Hc'.
    + reflexivity.
  - reflexivity.
Qed.

Lemma collapse_noAdjacent (s : string) :
  Spec.noAdjacentHyphens (DeploymentService.collapseHyphens s) = true.
Proof.
  induction s as [|c s IH]; [reflexivity|].
  cbn [DeploymentService.collapseHyphens].
  destruct s as [|c' s']; [cbn; now rewrite andb_false_r|].
  destruct (Ascii.eqb c "-" && Ascii.eqb c' "-") eqn:Hcc; [exact IH|].
  cbn [Spec.noAdjacentHyphens]. rewrite IH, andb_true_r, collapse_head.
  cbn [Spec.startsWithHyphen]. unfold Spec.isHyphen. now rewrite Hcc.
Qed.

Lemma trimLeading_once (s : string) :
  Spec.noAdjacentHyphens s = true ->
  Spec.trimLeadingHyphens s = DeploymentService.dropFirstHyphen s.
Proof.
  destruct s as [|c s]; [reflexivity|].
  cbn [Spec.noAdjacentHyphens Spec.trimLeadingHyphens DeploymentService.dropFirstHyphen].
  unfold Spec.isHyphen at 1 2. destruct (Ascii.eqb c "-"); [|reflexivity].
  cbn [andb]. intros [Hs _]%andb_prop. apply negb_true_iff in Hs.
  destruct s as [|c' s']; [reflexivity|].
  cbn in Hs |- *. now rewrite Hs.
Qed.

Lemma dropFirst_noAdjacent (s : string) :
  Spec.noAdjacentHyphens s = true ->
  Spec.noAdjacentHyphens (DeploymentService.dropFirstHyphen s) = true.
Proof.
  destruct s as [|c s]; [reflexivity|].
  intros H. cbn [DeploymentService.dropFirstHyphen].
  destruct (Ascii.eqb c "-"); [|exact H].
  cbn [Spec.noAdjacentHyphens] in H. now apply andb_prop in H as [_ H].
Qed.

Lemma dropLast_empty (s : string) :
  DeploymentService.dropLastHyphen s = "" -> s = "" \/ s = "-".
Proof.
  destruct s as [|c [|c' s']]; cbn; auto.
  - destruct (Ascii.eqb c "-") eqn:Hc; [|discriminate].
    apply Ascii.eqb_eq in Hc. subst. auto.
  - discriminate.
Qed.

Lemma trimTrailing_once (s : string) :
  Spec.noAdjacentHyphens s = true ->
  Spec.trimTrailingHyphens s = DeploymentService.dropLastHyphen s.
Proof.
  induction s as [|c s IH]; [reflexivity|].
  cbn [Spec.noAdjacentHyphens]. intros [Hc Hs]%andb_prop.
  cbn [Spec.trimTrailingHyphens]. rewrite (IH Hs).
  destruct s as [|c' s']; [reflexivity|].
  change (DeploymentService.dropLastHyphen (String c (String c' s')))
    with (String c (DeploymentService.dropLastHyphen (String c' s'))).
  destruct (DeploymentService.dropLastHyphen (String c' s')) eqn:Hd; [|reflexivity].
  apply dropLast_empty in Hd as [Hd|Hd]; [discriminate|].
  injection Hd as -> ->.
  cbn in Hc. apply negb_true_iff in Hc. rewrite andb_true_r in Hc. now rewrite Hc.
Qed.

(** After the collapse, removing one hyphen at each end is trimming. *)
Lemma dropEdge_is_trim (s : string) :
  Spec.noAdjacentHyphens s = true ->
  DeploymentService.dropEdgeHyphens s = Spec.trimTrailingHyphens (Spec.trimLeadingHyphens s).
Proof.
  intros Hs. unfold DeploymentService.dropEdgeHyphens.
  rewrite (trimLeading_once s Hs).
  now rewrite (trimTrailing_once _ (dropFirst_noAdjacent s Hs)).
Qed.

Lemma replaceNonSlug_hyphenate (s : string) :
  DeploymentService.replaceNonSlug s = Spec.hyphenate s.
Proof. reflexivity. Qed.

Lemma collapseAfter_true (s : string) :
  Spec.collapseAfter true s
  = if Spec.startsWithHyphen s
    then DeploymentService.dropFirstHyphen (Spec.collapseAfter false s)
    else Spec.collapseAfter false s.
Proof.
  destruct s as [|c s]; [reflexivity|].
  cbn [Spec.collapseAfter Spec.startsWithHyphen].
  destruct (Spec.isHyphen c) eqn:Hc; [|reflexivity].
  cbn [DeploymentService.dropFirstHyphen]. unfold Spec.isHyphen in Hc. now rewrite Hc.
Qed.

(** The left-to-right reading of the collapse is the one of the code, which
    drops a hyphen whenever another one follows. *)
Lemma collapseHyphens_repeated (s : string) :
  DeploymentService.collapseHyphens s = Spec.collapseRepeated s.
Proof.
  unfold Spec.collapseRepeated.
  induction s as [|c s IH]; [reflexivity|].
  cbn [DeploymentService.collapseHyphens Spec.collapseAfter].
  destruct s as [|c' s'].
  - now destruct (Spec.isHyphen c).
  - fold (Spec.isHyphen c). fold (Spec.isHyphen c').
    rewrite collapseAfter_true. cbn [Spec.startsWithHyphen].
    destruct (Spec.isHyphen c) eqn:Hc; cbn [andb]; [|now rewrite IH].
    destruct (Spec.isHyphen c') eqn:Hc'; [|now rewrite IH].
    rewrite IH. cbn [Spec.collapseAfter]. rewrite Hc'.
    cbn [DeploymentService.dropFirstHyphen].
    unfold Spec.isHyphen in Hc, Hc'. rewrite Hc'.
    apply Ascii.eqb_eq in Hc, Hc'. now subst.
Qed.

Lemma sanitize_pipeline (name : string) :
  Spec.sanitize name
  = Spec.trimTrailingHyphens (Spec.trimLeadingHyphens
      (DeploymentService.collapseHyphens
         (DeploymentService.replaceNonSlug (Js.toLowerCase name)))).
Proof.
  unfold Spec.sanitize. rewrite collapseHyphens_repeated.
  now rewrite <- replaceNonSlug_hyphenate.
Qed.

Lemma sanitize_refines (name : string) :
  DeploymentService.dropEdgeHyphens
    (DeploymentService.collapseHyphens
       (DeploymentService.replaceNonSlug (Js.toLowerCase name)))
  = Spec.sanitize name.
Proof. rewrite sanitize_pipeline. apply dropEdge_is_trim, collapse_noAdjacent. Qed.

Lemma replaceNonSlug_slug (s : string) :
  Js.every DeploymentService.isSlugChar (DeploymentService.replaceNonSlug s) = true.
Proof.
  induction s as [|c s IH]; [reflexivity|].
  unfold DeploymentService.replaceNonSlug in *. cbn [Js.mapChars Js.every].
  rewrite IH, andb_true_r.
  destruct (DeploymentService.isSlugChar c) eqn:Hc; [exact Hc|reflexivity].
Qed.

Lemma collapse_every (p : ascii -> bool) (s : string) :
  Js.every p s = true -> Js.every p (DeploymentService.collapseHyphens s) = true.
Proof.
  induction s as [|c s IH]; [reflexivity|].
  cbn [Js.every]. intros [Hc Hs]%andb_prop.
  cbn [DeploymentService.collapseHyphens].
  destruct s as [|c' s']; [cbn; now rewrite Hc|].
  destruct (Ascii.eqb c "-" && Ascii.eqb c' "-"); [exact (IH Hs)|].
  cbn [Js.every]. now rewrite Hc, (IH Hs).
Qed.

Lemma trimLeading_every (p : ascii -> bool) (s : string) :
  Js.every p s = true -> Js.every p (Spec.trimLeadingHyphens s) = true.
Proof.
  induction s as [|c s IH]; [reflexivity|].
  intros H. cbn [Spec.trimLeadingHyphens].
  destruct (Spec.isHyphen c); [|exact H].
  cbn [Js.every] in H. apply andb_prop in H as [_ H]. exact (IH H).
Qed.

Lemma trimTrailing_every (p : ascii -> bool) (s : string) :
  Js.every p s = true -> Js.every p (Spec.trimTrailingHyphens s) = true.
Proof.
  induction s as [|c s IH]; [reflexivity|].
  cbn [Js.every]. intros [Hc Hs]%andb_prop.
  cbn [Spec.trimTrailingHyphens]. specialize (IH Hs).
  destruct (Spec.trimTrailingHyphens s) as [|c' t].
  - destruct (Spec.isHyphen c); [reflexivity|]. cbn. now rewrite Hc.
  - change (p c && Js.every p (String c' t) = true). now rewrite Hc, IH.
Qed.

Lemma trimLeading_head (s : string) :
  Spec.startsWithHyphen (Spec.trimLeadingHyphens s) = false.
Proof.
  induction s as [|c s IH]; [reflexivity|].
  cbn [Spec.trimLeadingHyphens]. destruct (Spec.isHyphen c) eqn:Hc; [exact IH|exact Hc].
Qed.

Lemma trimTrailing_head (s : string) :
  Spec.startsWithHyphen s = false ->
  Spec.startsWithHyphen (Spec.trimTrailingHyphens s) = false.
Proof.
  destruct s as [|c s]; [reflexivity|].
  cbn [Spec.startsWithHyphen Spec.trimTrailingHyphens]. intros Hc.
  destruct (Spec.trimTrailingHyphens s); [rewrite Hc|]; cbn; auto.
Qed.

Lemma trimTrailing_last (s : string) :
  Spec.endsWithHyphen (Spec.trimTrailingHyphens s) = false.
Proof.
  induction s as [|c s IH]; [reflexivity|].
  cbn [Spec.trimTrailingHyphens].
  destruct (Spec.trimTrailingHyphens s) as [|c' t] eqn:Ht.
  - destruct (Spec.isHyphen c) eqn:Hc; [reflexivity|exact Hc].
  - exact IH.
Qed.

Lemma trimLeading_noAdjacent (s : string) :
  Spec.noAdjacentHyphens s = true -> Spec.noAdjacentHyphens (Spec.trimLeadingHyphens s) = true.
Proof.
  induction s as [|c s IH]; [reflexivity|].
  intros H. cbn [Spec.trimLeadingHyphens].
  destruct (Spec.isHyphen c); [|exact H].
  cbn [Spec.noAdjacentHyphens] in H. apply andb_prop in H as [_ H]. exact (IH H).
Qed.

Lemma trimTrailing_noAdjacent (s : string) :
  Spec.noAdjacentHyphens s = true -> Spec.noAdjacentHyphens (Spec.trimTrailingHyphens s) = true.
Proof.
  induction s as [|c s IH]; [reflexivity|].
  cbn [Spec.noAdjacentHyphens]. intros [Hc Hs]%andb_prop.
  cbn [Spec.trimTrailingHyphens]. specialize (IH Hs).
  destruct (Spec.trimTrailingHyphens s) as [|c' t] eqn:Ht.
  - destruct (Spec.isHyphen c); [reflexivity|]. cbn. now rewrite andb_false_r.
  - cbn [Spec.noAdjacentHyphens] in *. rewrite IH, andb_true_r.
    destruct s as [|c2 s2]; [discriminate|].
    cbn [Spec.trimTrailingHyphens] in Ht.
    assert (c' = c2) as ->.
    { destruct (Spec.trimTrailingHyphens s2); [destruct (Spec.isHyphen c2)|]; congruence. }
    exact Hc.
Qed.

Lemma sanitize_shape (name : string) :
  Js.every DeploymentService.isSlugChar (Spec.sanitize name) = true
  /\ Spec.noAdjacentHyphens (Spec.sanitize name) = true
  /\ Spec.startsWithHyphen (Spec.sanitize name) = false
  /\ Spec.endsWithHyphen (Spec.sanitize name) = false.
Proof.
  rewrite sanitize_pipeline. repeat split.
  - apply trimTrailing_every, trimLeading_every, collapse_every, replaceNonSlug_slug.
  - apply trimTrailing_noAdjacent, trimLeading_noAdjacent, collapse_noAdjacent.
  - apply trimTrailing_head, trimLeading_head.
  - apply trimTrailing_last.
Qed.

Lemma generateProjectName_supplied (r : GitHubRepoInfo) (name : string) :
  name <> "" ->
  DeploymentService.generateProjectName r (Some name) = Spec.sanitize name.
Proof.
  intros Hne. unfold DeploymentService.generateProjectName.
  apply nonEmpty_true in Hne. rewrite Hne. apply sanitize_refines.
Qed.

(** C6, as amended. For every non-empty supplied name the resolved name is the
    name lowercased, with every character outside [[a-z0-9-]] replaced by a
    hyphen, runs of hyphens collapsed and leading and trailing hyphens
    trimmed: it is made of [[a-z0-9-]] only, has no two hyphens in a row and
    neither starts nor ends with a hyphen. When no name is supplied, or the
    supplied name is the empty string, the resolved name is the lowercased
    [<owner>-<repo>]. *)
Theorem generateProjectName_resolves (r : GitHubRepoInfo) :
  (forall name, name <> "" ->
     DeploymentService.generateProjectName r (Some name) = Spec.sanitize name
     /\ Js.every DeploymentService.isSlugChar
          (DeploymentService.generateProjectName r (Some name)) = true
     /\ Spec.noAdjacentHyphens (DeploymentService.generateProjectName r (Some name)) = true
     /\ Spec.startsWithHyphen (DeploymentService.generateProjectName r (Some name)) = false
     /\ Spec.endsWithHyphen (DeploymentService.generateProjectName r (Some name)) = false)
  /\ DeploymentService.generateProjectName r (Some "My Project!") = "my-project"
  /\ DeploymentService.generateProjectName r (Some "--a--b--") = "a-b"
  /\ DeploymentService.generateProjectName r None
       = Js.toLowerCase (owner r +:+ "-" +:+ repo r)
  /\ DeploymentService.generateProjectName r (Some "")
       = Js.toLowerCase (owner r +:+ "-" +:+ repo r)
  /\ DeploymentService.generateProjectName Scenario.acmeInfo None = "acme-site".
Proof.
  split; [|repeat split].
  intros name Hne. rewrite (generateProjectName_supplied r name Hne).
  split; [reflexivity|apply sanitize_shape].
Qed.

Lemma generateProjectName_resolves_witness :
  DeploymentService.generateProjectName Scenario.acmeInfo (Some "Hello, World") = "hello-world".
Proof.
  destruct (generateProjectName_resolves Scenario.acmeInfo) as (H & _).
  destruct (H "Hello, World") as (-> & _); [discriminate|reflexivity].
Defined.

(** C6, as stated, fails at the empty string: it is a supplied name, and the
    resolved name is not its sanitization but the lowercased [<owner>-<repo>]. *)
Lemma generateProjectName_empty_name_counterexample :
  ~ (forall (r : GitHubRepoInfo) (name : string),
       DeploymentService.generateProjectName r (Some name) = Spec.sanitize name).
Proof.
  intros H. specialize (H Scenario.acmeInfo ""). vm_compute in H. discriminate.
Qed.

Lemma lowerAlnum_or_hyphen (c : ascii) :
  Spec.isLowerAlnum c = false ->
  Spec.isHyphen (if DeploymentService.isSlugChar c then c else "-"%char) = true.
Proof.
  intros Hc. unfold DeploymentService.isSlugChar.
  fold (Spec.isLowerAlnum c). rewrite Hc. cbn [orb].
  fold (Spec.isHyphen c). now destruct (Spec.isHyphen c) eqn:Hh.
Qed.

Lemma replaceNonSlug_hyphens (s : string) :
  Js.every (fun c => negb (Spec.isLowerAlnum c)) s = true ->
  Js.every Spec.isHyphen (DeploymentService.replaceNonSlug s) = true.
Proof.
  induction s as [|c s IH]; [reflexivity|].
  cbn [Js.every]. intros [Hc Hs]%andb_prop. apply negb_true_iff in Hc.
  unfold DeploymentService.replaceNonSlug in *. cbn [Js.mapChars Js.every].
  now rewrite (lowerAlnum_or_hyphen c Hc), (IH Hs).
Qed.

Lemma collapse_hyphens_only (s : string) :
  s <> "" -> Js.every Spec.isHyphen s = true ->
  DeploymentService.collapseHyphens s = "-".
Proof.
  induction s as [|c s IH]; [congruence|].
  intros _. cbn [Js.every]. intros [Hc Hs]%andb_prop.
  assert (c = "-"%char) as -> by now apply Ascii.eqb_eq.
  destruct s as [|c' s']; [reflexivity|].
  pose proof Hs as Hs'. cbn [Js.every] in Hs'. apply andb_prop in Hs' as [Hc' _].
  assert (c' = "-"%char) as -> by now apply Ascii.eqb_eq.
  change (DeploymentService.collapseHyphens (String "-" s') = "-").
  apply IH; [discriminate|exact Hs].
Qed.

Lemma mapChars_nonEmpty (f : ascii -> ascii) (s : string) :
  s <> "" -> Js.mapChars f s <> "".
Proof. destruct s; [congruence|discriminate]. Qed.

(** C10. A non-empty supplied name that has no character of [[a-z0-9]] once
    lowercased resolves to the empty string, as ['!!!'] does; a supplied empty
    string is treated as absent and resolves to the lowercased
    [<owner>-<repo>]. *)
Theorem generateProjectName_may_be_empty (r : GitHubRepoInfo) :
  (forall name, name <> "" ->
     Js.every (fun c => negb (Spec.isLowerAlnum c)) (Js.toLowerCase name) = true ->
     DeploymentService.generateProjectName r (Some name) = "")
  /\ DeploymentService.generateProjectName r (Some "!!!") = ""
  /\ DeploymentService.generateProjectName r (Some "")
       = DeploymentService.generateProjectName r None
  /\ DeploymentService.generateProjectName r None
       = Js.toLowerCase (owner r +:+ "-" +:+ repo r).
Proof.
  split; [|repeat split].
  intros name Hne Hall. unfold DeploymentService.generateProjectName.
  pose proof Hne as Hne'. apply nonEmpty_true in Hne'. rewrite Hne'.
  rewrite collapse_hyphens_only; [reflexivity| |].
  - apply mapChars_nonEmpty, mapChars_nonEmpty, Hne.
  - apply replaceNonSlug_hyphens, Hall.
Qed.

Lemma generateProjectName_may_be_empty_witness :
  DeploymentService.generateProjectName Scenario.acmeInfo (Some "?! _ !?") = "".
Proof.
  destruct (generateProjectName_may_be_empty Scenario.acmeInfo) as (H & _).
  apply H; [discriminate|reflexivity].
Defined.

(** ** Effects *)

Lemma tryCatch_returned {A} (m : M A) (h : Js.Exn -> M A) (tr tr' : Trace) (a : A) :
  m tr = (Returned a, tr') -> tryCatch m h tr = (Returned a, tr').
Proof. intros H. unfold tryCatch. now rewrite H. Qed.

Lemma tryCatch_thrown {A} (m : M A) (h : Js.Exn -> M A) (tr tr' : Trace) (e : Js.Exn) :
  m tr = (Thrown e, tr') -> tryCatch m h tr = h e tr'.
Proof. intros H. unfold tryCatch. now rewrite H. Qed.

(** ** Status translation *)








Lemma getDeploymentStatus_ok (up : Upstream) (token : string) (deploymentId : Js.Value)
    (tr : Trace) (dep : VercelDeployment) :
  fetchGetDeployment up tr token deploymentId = FetchOk dep ->
  DeploymentService.getDeploymentStatus up token deploymentId tr =
    (Returned {| DeploymentService.summary_deployment := dep;
                 DeploymentService.status := state dep;
                 DeploymentService.message :=
                   Js.memberOr (Js.member DeploymentService.statusMessages (state dep))
                     "Unknown deployment status";
                 DeploymentService.isLive := bool_decide (state dep = "READY");
                 DeploymentService.hasError := bool_decide (state dep = "ERROR") |},
     tr ++ [GetDeployment token deploymentId])%list.
Proof.
  intros H.
  unfold DeploymentService.getDeploymentStatus, VercelService.getDeploymentStatus,
    tryCatch, bind, await, ret.
  rewrite H. reflexivity.
Qed.




Lemma getDeploymentStatus_returned (up : Upstream) (token : string)
    (deploymentId : Js.Value) (tr tr' : Trace) (summary : DeploymentService.StatusSummary) :
  DeploymentService.getDeploymentStatus up token deploymentId tr = (Returned summary, tr') ->
  exists dep,
    fetchGetDeployment up tr token deploymentId = FetchOk dep
    /\ DeploymentService.summary_deployment summary = dep
    /\ DeploymentService.status summary = state dep
    /\ DeploymentService.message summary
       = Js.memberOr (Js.member DeploymentService.statusMessages (state dep))
           "Unknown deployment status"
    /\ DeploymentService.isLive summary = bool_decide (state dep = "READY")
    /\ DeploymentService.hasError summary = bool_decide (state dep = "ERROR")
    /\ tr' = (tr ++ [GetDeployment token deploymentId])%list.
Proof.
  destruct (fetchGetDeployment up tr token deploymentId) as [e|st text em|dep] eqn:Hf.
  - unfold DeploymentService.getDeploymentStatus, VercelService.getDeploymentStatus,
      tryCatch, bind, await, ret. rewrite Hf. cbn. discriminate.
  - unfold DeploymentService.getDeploymentStatus, VercelService.getDeploymentStatus,
      tryCatch, bind, await, ret. rewrite Hf. cbn. discriminate.
  - rewrite (getDeploymentStatus_ok up token deploymentId tr dep Hf).
    intros [= <- <-]. exists dep. cbn. repeat split.
Qed.

(** C8. Whatever state the platform reports, recognized or not, the summary
    never has [isLive] and [hasError] both true. *)
Theorem isLive_hasError_exclusive (up : Upstream) (token : string)
    (deploymentId : Js.Value) (tr tr' : Trace) (summary : DeploymentService.StatusSummary) :
  DeploymentService.getDeploymentStatus up token deploymentId tr = (Returned summary, tr') ->
  ~ (DeploymentService.isLive summary = true /\ DeploymentService.hasError summary = true).
Proof.
  intros (dep & _ & _ & _ & _ & Hlive & Herr & _)%getDeploymentStatus_returned [Hl He].
  rewrite Hlive in Hl. rewrite Herr in He.
  apply bool_decide_eq_true in Hl, He. congruence.
Qed.

Lemma isLive_hasError_exclusive_witness :
  exists summary,
    DeploymentService.getDeploymentStatus Scenario.platform "vc" (Js.Str "dpl_1") []
      = (Returned summary, [GetDeployment "vc" (Js.Str "dpl_1")])
    /\ DeploymentService.isLive summary = true
    /\ ~ (DeploymentService.isLive summary = true /\ DeploymentService.hasError summary = true).
Proof.
  eexists. split; [reflexivity|]. split; [reflexivity|].
  apply (isLive_hasError_exclusive Scenario.platform "vc" (Js.Str "dpl_1") []
           [GetDeployment "vc" (Js.Str "dpl_1")]).
  reflexivity.
Defined.

(** ** Error propagation in the orchestrator *)

Ltac unfold_monad := unfold liftSum; unfold tryCatch, bind, await, ret, throw.

Lemma validateRepository_trace (up : Upstream) (token repoUrl : string) (tr : Trace) :
  snd (GitHubService.validateRepository up token repoUrl tr) = tr
  \/ exists o r,
       GitHubService.parseGitHubUrl repoUrl = inr (o, r)
       /\ snd (GitHubService.validateRepository up token repoUrl tr)
          = (tr ++ [ReposGet token o r])%list.
Proof.
  unfold GitHubService.validateRepository. unfold_monad.
  destruct (GitHubService.parseGitHubUrl repoUrl) as [e|[o r]].
  - left. cbn. repeat case_decide; reflexivity.
  - right. exists o, r. split; [reflexivity|].
    cbn. destruct (reposGet up tr token o r); cbn; repeat case_decide; reflexivity.
Qed.

Lemma getProject_trace (up : Upstream) (token projectName : string) (tr : Trace) :
  snd (VercelService.getProject up token projectName tr)
  = (tr ++ [GetProject token projectName])%list.
Proof.
  unfold VercelService.getProject. unfold_monad. cbn.
  destruct (fetchGetProject up tr token projectName) as [e|st text em|p]; cbn.
  - destruct (Js.includes _ _); reflexivity.
  - destruct (st =? 404)%Z; cbn; [reflexivity|destruct (Js.includes _ _); reflexivity].
  - reflexivity.
Qed.

Lemma createProject_trace (up : Upstream) (token projectName : string)
    (repoInfo : GitHubRepoInfo) (framework : string) (tr : Trace) :
  snd (VercelService.createProject up token projectName repoInfo framework tr)
    = (tr ++ [GetProject token projectName])%list
  \/ exists body,
       snd (VercelService.createProject up token projectName repoInfo framework tr)
       = (tr ++ [GetProject token projectName; PostProject token body])%list.
Proof.
  unfold VercelService.createProject.
  pose proof (getProject_trace up token projectName tr) as Hg.
  unfold_monad. cbn beta.
  destruct (VercelService.getProject up token projectName tr) as [[[p|]|e] tr1];
    cbn [snd] in Hg; subst tr1.
  - left. reflexivity.
  - right. eexists. rewrite <- app_assoc. cbn.
    destruct (fetchPostProject up _ token _); reflexivity.
  - right. eexists. rewrite <- app_assoc. cbn.
    destruct (fetchPostProject up _ token _); reflexivity.
Qed.

Lemma createDeployment_trace (up : Upstream) (token : string) (project : VercelProject)
    (repoInfo : GitHubRepoInfo) (tr : Trace) :
  exists body,
    snd (VercelService.createDeployment up token project repoInfo tr)
    = (tr ++ [PostDeployment token body])%list.
Proof.
  unfold VercelService.createDeployment. unfold_monad. cbn. eexists.
  destruct (fetchPostDeployment up tr token _); reflexivity.
Qed.

Lemma getDeploymentStatus_trace (up : Upstream) (token : string)
    (deploymentId : Js.Value) (tr : Trace) :
  snd (DeploymentService.getDeploymentStatus up token deploymentId tr)
  = (tr ++ [GetDeployment token deploymentId])%list.
Proof.
  unfold DeploymentService.getDeploymentStatus, VercelService.getDeploymentStatus.
  unfold_monad. cbn.
  destruct (fetchGetDeployment up tr token deploymentId); reflexivity.
Qed.

Ltac nodup_endpoints := apply (bool_decide_unpack _); vm_compute; exact I.

Lemma deployRepository_trace (up : Upstream) (tokens : TokenPair)
    (params : DeployRepoParams) (tr : Trace) :
  exists added,
    snd (DeploymentService.deployRepository up tokens params tr) = (tr ++ added)%list
    /\ NoDup (Spec.endpoint <$> added).
Proof.
  unfold DeploymentService.deployRepository.
  pose proof (validateRepository_trace up (githubToken tokens) (repoUrl params) tr) as Hv.
  unfold_monad. cbn beta.
  destruct (GitHubService.validateRepository up (githubToken tokens) (repoUrl params) tr)
    as [[info|e] tr1]; cbn [snd] in Hv.
  2:{ cbn. destruct Hv as [->|(o & r & _ & ->)]; eexists; split;
        [symmetry; apply app_nil_r|constructor|reflexivity|cbn; nodup_endpoints]. }
  match goal with
  | |- context [VercelService.createProject up ?t ?n ?i ?f tr1] =>
      pose proof (createProject_trace up t n i f tr1) as Hp;
      destruct (VercelService.createProject up t n i f tr1) as [[proj|e] tr2]
  end; cbn [snd] in Hp.
  2:{ cbn. destruct Hv as [->|(o & r & _ & ->)], Hp as [->|(body & ->)];
        rewrite <- ?app_assoc; eexists; (split; [reflexivity|]);
        cbn; nodup_endpoints. }
  pose proof (createDeployment_trace up (vercelToken tokens) proj info tr2) as (dd & Hd).
  destruct (VercelService.createDeployment up (vercelToken tokens) proj info tr2)
    as [[dep|e] tr3]; cbn [snd] in Hd; cbn; subst tr3;
    destruct Hv as [->|(o & r & _ & ->)], Hp as [->|(body & ->)];
    rewrite <- ?app_assoc; eexists; (split; [reflexivity|]);
    cbn; nodup_endpoints.
Qed.

Lemma deployRepository_returned (up : Upstream) (tokens : TokenPair)
    (params : DeployRepoParams) (tr tr' : Trace) (result : DeploymentResult) :
  DeploymentService.deployRepository up tokens params tr = (Returned result, tr') ->
  exists info tr1 tr2,
    GitHubService.validateRepository up (githubToken tokens) (repoUrl params) tr
      = (Returned info, tr1)
    /\ VercelService.createProject up (vercelToken tokens)
         (DeploymentService.generateProjectName info (projectName params)) info
         (Js.orElse (framework params) "static") tr1
       = (Returned (project result), tr2)
    /\ VercelService.createDeployment up (vercelToken tokens) (project result) info tr2
       = (Returned (deployment result), tr')
    /\ result_message result
       = "Successfully initiated deployment of " +:+ fullName info +:+ " to Vercel".
Proof.
  unfold DeploymentService.deployRepository. unfold_monad. cbn beta.
  destruct (GitHubService.validateRepository up (githubToken tokens) (repoUrl params) tr)
    as [[info|e] tr1]; [|discriminate].
  destruct (VercelService.createProject up (vercelToken tokens) _ info _ tr1)
    as [[proj|e] tr2] eqn:Hp; [|discriminate].
  destruct (VercelService.createDeployment up (vercelToken tokens) proj info tr2)
    as [[dep|e] tr3] eqn:Hd; [|discriminate].
  intros [= <- <-]. exists info, tr1, tr2. cbn. auto.
Qed.

(** C3. An error raised by any step of the deploy flow is thrown again with
    ['Deployment failed: '] put before its unchanged message, and one raised
    in the status flow with ['Failed to get deployment status: ']; the steps
    after the failing one are not run, a result is returned only when every
    step returned, and no upstream endpoint is requested twice. *)
Theorem orchestrator_rewraps_errors (up : Upstream) (tokens : TokenPair)
    (params : DeployRepoParams) (tr : Trace) :
  (forall e tr1,
     GitHubService.validateRepository up (githubToken tokens) (repoUrl params) tr
       = (Thrown e, tr1) ->
     DeploymentService.deployRepository up tokens params tr
       = (Thrown (Js.Error ("Deployment failed: " +:+ Js.message e)), tr1))
  /\ (forall info tr1 e tr2,
        GitHubService.validateRepository up (githubToken tokens) (repoUrl params) tr
          = (Returned info, tr1) ->
        VercelService.createProject up (vercelToken tokens)
          (DeploymentService.generateProjectName info (projectName params)) info
          (Js.orElse (framework params) "static") tr1
          = (Thrown e, tr2) ->
        DeploymentService.deployRepository up tokens params tr
          = (Thrown (Js.Error ("Deployment failed: " +:+ Js.message e)), tr2))
  /\ (forall info tr1 proj tr2 e tr3,
        GitHubService.validateRepository up (githubToken tokens) (repoUrl params) tr
          = (Returned info, tr1) ->
        VercelService.createProject up (vercelToken tokens)
          (DeploymentService.generateProjectName info (projectName params)) info
          (Js.orElse (framework params) "static") tr1
          = (Returned proj, tr2) ->
        VercelService.createDeployment up (vercelToken tokens) proj info tr2
          = (Thrown e, tr3) ->
        DeploymentService.deployRepository up tokens params tr
          = (Thrown (Js.Error ("Deployment failed: " +:+ Js.message e)), tr3))
  /\ (forall result tr',
        DeploymentService.deployRepository up tokens params tr = (Returned result, tr') ->
        exists info tr1 tr2,
          GitHubService.validateRepository up (githubToken tokens) (repoUrl params) tr
            = (Returned info, tr1)
          /\ VercelService.createProject up (vercelToken tokens)
               (DeploymentService.generateProjectName info (projectName params)) info
               (Js.orElse (framework params) "static") tr1
             = (Returned (project result), tr2)
          /\ VercelService.createDeployment up (vercelToken tokens) (project result) info tr2
             = (Returned (deployment result), tr'))
  /\ (forall token deploymentId e tr1,
        VercelService.getDeploymentStatus up token deploymentId tr = (Thrown e, tr1) ->
        DeploymentService.getDeploymentStatus up token deploymentId tr
          = (Thrown (Js.Error ("Failed to get deployment status: " +:+ Js.message e)), tr1))
  /\ (forall token deploymentId summary tr',
        DeploymentService.getDeploymentStatus up token deploymentId tr
          = (Returned summary, tr') ->
        VercelService.getDeploymentStatus up token deploymentId tr
          = (Returned (DeploymentService.summary_deployment summary), tr'))
  /\ (exists added,
        snd (DeploymentService.deployRepository up tokens params tr) = (tr ++ added)%list
        /\ NoDup (Spec.endpoint <$> added))
  /\ (forall token deploymentId,
        snd (DeploymentService.getDeploymentStatus up token deploymentId tr)
        = (tr ++ [GetDeployment token deploymentId])%list).
Proof.
  repeat apply conj.
  - intros e tr1 Hv. unfold DeploymentService.deployRepository.
    unfold_monad. cbn beta. now rewrite Hv.
  - intros info tr1 e tr2 Hv Hp. unfold DeploymentService.deployRepository.
    unfold_monad. cbn beta. now rewrite Hv, Hp.
  - intros info tr1 proj tr2 e tr3 Hv Hp Hd. unfold DeploymentService.deployRepository.
    unfold_monad. cbn beta. now rewrite Hv, Hp, Hd.
  - intros result tr' (info & tr1 & tr2 & Hv & Hp & Hd & _)%deployRepository_returned.
    now exists info, tr1, tr2.
  - intros token deploymentId e tr1 Hs. unfold DeploymentService.getDeploymentStatus.
    unfold_monad. cbn beta. now rewrite Hs.
  - intros token deploymentId summary tr'. unfold DeploymentService.getDeploymentStatus.
    unfold_monad. cbn beta.
    destruct (VercelService.getDeploymentStatus up token deploymentId tr) as [[dep|e] tr1];
      [|discriminate].
    now intros [= <- <-].
  - apply deployRepository_trace.
  - intros token deploymentId. apply getDeploymentStatus_trace.
Qed.

Lemma orchestrator_rewraps_errors_witness :
  DeploymentService.deployRepository Scenario.platform
    {| githubToken := "gh"; vercelToken := "vc" |}
    {| repoUrl := "https://github.com/acme/nope"; projectName := None; framework := None |} []
  = (Thrown (Js.Error
       "Deployment failed: Repository not found or not accessible: https://github.com/acme/nope"),
     [ReposGet "gh" "acme" "nope"])
  /\ DeploymentService.getDeploymentStatus Scenario.platform "vc" (Js.Str "dpl_9") []
     = (Thrown (Js.Error
          "Failed to get deployment status: Failed to get deployment status: Vercel API error: Deployment not found"),
        [GetDeployment "vc" (Js.Str "dpl_9")]).
Proof.
  pose proof (orchestrator_rewraps_errors Scenario.platform
    {| githubToken := "gh"; vercelToken := "vc" |}
    {| repoUrl := "https://github.com/acme/nope"; projectName := None; framework := None |} [])
    as (Hd & _ & _ & _ & Hs & _).
  split.
  - apply (Hd (Js.Error "Repository not found or not accessible: https://github.com/acme/nope")).
    reflexivity.
  - apply (Hs "vc" (Js.Str "dpl_9")
             (Js.Error "Failed to get deployment status: Vercel API error: Deployment not found")).
    reflexivity.
Defined.

(** ** The request adapter: authentication *)

Lemma handleTool_authenticated (t : Spec.Transport) (up : Upstream)
    (req : AppController.Request) (tokens : TokenPair) (tr : Trace) :
  Spec.credentials t req = Some tokens ->
  Spec.handleTool t up req tr
  = tryCatch (AppController.dispatch up tokens req) AppController.onToolError tr.
Proof.
  destruct t; cbn [Spec.credentials Spec.handleTool].
  - unfold AppController.Bearer.handleTool.
    destruct (AppController.Bearer.extractBearerToken req) as [[|c token]|]; cbn;
      try discriminate.
    destruct (DeploymentService.parseTokens (String c token)); [discriminate|].
    now intros [= ->].
  - unfold AppController.Headers.handleTool.
    destruct (AppController.Headers.extractTokensFromHeaders req); [|discriminate].
    now intros [= ->].
Qed.

Lemma handleTool_missingAuthentication (t : Spec.Transport) (up : Upstream)
    (req : AppController.Request) (tr : Trace) :
  Spec.missingAuthentication t req = true ->
  Spec.handleTool t up req tr
  = (Returned (match t with
               | Spec.BearerToken => Spec.unauthorizedBearer
               | Spec.HeaderPair => Spec.unauthorizedHeaders
               end), tr).
Proof.
  destruct t; cbn [Spec.missingAuthentication Spec.handleTool].
  - unfold AppController.Bearer.handleTool.
    destruct (AppController.Bearer.extractBearerToken req) as [[|c token]|]; cbn;
      try discriminate; reflexivity.
  - unfold AppController.Headers.handleTool.
    destruct (AppController.Headers.extractTokensFromHeaders req); [discriminate|].
    reflexivity.
Qed.

Lemma handleTool_badToken (up : Upstream) (req : AppController.Request)
    (token : string) (e : Js.Exn) (tr : Trace) :
  AppController.Bearer.extractBearerToken req = Some token ->
  token <> "" ->
  DeploymentService.parseTokens token = inl e ->
  AppController.Bearer.handleTool up req tr = (Returned (Spec.badToken e), tr).
Proof.
  intros Hx Hne Hp. unfold AppController.Bearer.handleTool. rewrite Hx.
  destruct token as [|c token]; [congruence|]. now rewrite Hp.
Qed.

Lemma extractTokensFromHeaders_blank (req : AppController.Request) :
  Spec.absentOrBlank (AppController.x_github (AppController.headers req))
  || Spec.absentOrBlank (AppController.x_vercel (AppController.headers req)) = true ->
  AppController.Headers.extractTokensFromHeaders req = None.
Proof.
  unfold AppController.Headers.extractTokensFromHeaders, Spec.absentOrBlank.
  destruct (AppController.x_github _) as [g|], (AppController.x_vercel _) as [v|];
    try reflexivity.
  rewrite !nonEmpty_trim, !negb_involutive. intros ->.
  now destruct (negb (Js.nonEmpty g) || negb (Js.nonEmpty v)).
Qed.

Lemma startsWith_append (p s : string) : Js.startsWith (p +:+ s) p = true.
Proof.
  unfold Js.startsWith. induction p as [|c p IH]; [now destruct s|].
  rewrite append_cons. cbn [String.prefix].
  destruct (ascii_dec c c); [exact IH|congruence].
Qed.

Lemma extractBearerToken_bearer (req : AppController.Request) (token : string) :
  AppController.authorization (AppController.headers req) = Some ("Bearer " +:+ token) ->
  AppController.Bearer.extractBearerToken req = Some token.
Proof.
  intros H. unfold AppController.Bearer.extractBearerToken. rewrite H.
  rewrite (startsWith_append "Bearer " token).
  change (Js.substring 7 ("Bearer " +:+ token)) with token.
  reflexivity.
Qed.

(** C4, as amended. With the header pair, a request in which either header is
    absent, empty or white space only is answered with status 401. With the
    bearer token, status 401 answers a request whose [Authorization] header is
    absent, does not start with ['Bearer '] or carries an empty token; a
    combined token in which either side is empty or white space only, or
    which has no colon or more than one, is answered with status 400. In all
    these cases nothing is requested upstream. *)
Theorem authentication_failures (up : Upstream) (req : AppController.Request) (tr : Trace) :
  (Spec.absentOrBlank (AppController.x_github (AppController.headers req))
   || Spec.absentOrBlank (AppController.x_vercel (AppController.headers req)) = true ->
   AppController.Headers.handleTool up req tr = (Returned Spec.unauthorizedHeaders, tr))
  /\ (AppController.authorization (AppController.headers req) = None ->
      AppController.Bearer.handleTool up req tr = (Returned Spec.unauthorizedBearer, tr))
  /\ (forall h,
        AppController.authorization (AppController.headers req) = Some h ->
        Js.startsWith h "Bearer " = false ->
        AppController.Bearer.handleTool up req tr = (Returned Spec.unauthorizedBearer, tr))
  /\ (AppController.authorization (AppController.headers req) = Some "Bearer " ->
      AppController.Bearer.handleTool up req tr = (Returned Spec.unauthorizedBearer, tr))
  /\ (forall a b,
        AppController.authorization (AppController.headers req)
          = Some ("Bearer " +:+ a +:+ ":" +:+ b) ->
        Spec.colonFree a = true -> Spec.colonFree b = true ->
        Spec.blank a || Spec.blank b = true ->
        AppController.Bearer.handleTool up req tr
          = (Returned (Spec.badToken Spec.bothRequiredError), tr))
  /\ (forall token,
        AppController.authorization (AppController.headers req)
          = Some ("Bearer " +:+ token) ->
        token <> "" -> Spec.occurrences ":" token <> 1 ->
        AppController.Bearer.handleTool up req tr
          = (Returned (Spec.badToken Spec.formatError), tr))
  /\ AppController.statusCode Spec.unauthorizedHeaders = 401%Z
  /\ AppController.statusCode Spec.unauthorizedBearer = 401%Z
  /\ (forall e, AppController.statusCode (Spec.badToken e) = 400%Z).
Proof.
  repeat apply conj; try reflexivity.
  - intros H. apply (handleTool_missingAuthentication Spec.HeaderPair).
    cbn. now rewrite (extractTokensFromHeaders_blank req H).
  - intros H. apply (handleTool_missingAuthentication Spec.BearerToken).
    cbn. unfold AppController.Bearer.extractBearerToken. now rewrite H.
  - intros h H Hs. apply (handleTool_missingAuthentication Spec.BearerToken).
    cbn. unfold AppController.Bearer.extractBearerToken. rewrite H, Hs.
    now rewrite andb_false_r.
  - intros H. apply (handleTool_missingAuthentication Spec.BearerToken).
    cbn. unfold AppController.Bearer.extractBearerToken. now rewrite H.
  - intros a b H Ha Hb Hblank.
    apply (handleTool_badToken up req (a +:+ ":" +:+ b)).
    + now apply extractBearerToken_bearer.
    + destruct a; discriminate.
    + rewrite (parseTokens_pair a b Ha Hb). now rewrite Hblank.
  - intros token H Hne Hocc.
    apply (handleTool_badToken up req token); [|exact Hne|].
    + now apply extractBearerToken_bearer.
    + now apply parseTokens_format.
Qed.

Lemma authentication_failures_witness :
  AppController.Headers.handleTool Scenario.platform
    (Scenario.deployRequest (Scenario.pair "gh" "   ") "https://github.com/acme/site") []
    = (Returned Spec.unauthorizedHeaders, [])
  /\ AppController.Bearer.handleTool Scenario.platform
       (Scenario.deployRequest (Scenario.bearer "gh:  ") "https://github.com/acme/site") []
     = (Returned (Spec.badToken Spec.bothRequiredError), [])
  /\ AppController.Bearer.handleTool Scenario.platform
       (Scenario.deployRequest (Scenario.bearer "gh") "https://github.com/acme/site") []
     = (Returned (Spec.badToken Spec.formatError), []).
Proof.
  split; [|split].
  - apply (authentication_failures Scenario.platform
             (Scenario.deployRequest (Scenario.pair "gh" "   ") "https://github.com/acme/site") []).
    reflexivity.
  - pose proof (authentication_failures Scenario.platform
      (Scenario.deployRequest (Scenario.bearer "gh:  ") "https://github.com/acme/site") [])
      as (_ & _ & _ & _ & Hboth & _).
    apply (Hboth "gh" "  "); reflexivity.
  - pose proof (authentication_failures Scenario.platform
      (Scenario.deployRequest (Scenario.bearer "gh") "https://github.com/acme/site") [])
      as (_ & _ & _ & _ & _ & Hformat & _).
    apply (Hformat "gh"); [reflexivity|discriminate|vm_compute; lia].
Defined.

(** C4, as stated, fails under the bearer transport: a combined token whose
    GitHub side is empty is answered with status 400, not 401. *)
Lemma bearer_empty_credential_counterexample :
  exists resp,
    AppController.Bearer.handleTool Scenario.platform
      (Scenario.deployRequest (Scenario.bearer ":vc") "https://github.com/acme/site") []
      = (Returned resp, [])
    /\ AppController.statusCode resp = 400%Z
    /\ AppController.statusCode resp <> 401%Z.
Proof. eexists. split; [reflexivity|]. split; [reflexivity|discriminate]. Qed.

(** ** The request adapter: dispatch and status codes *)

Lemma validate_accepts_objects (params : Js.Value) :
  AppController.validateDeployRepoParameters params = inr tt ->
  exists fields, params = Js.Obj fields.
Proof.
  destruct params; try discriminate. intros _. now eexists.
Qed.

Lemma handleDeployRepo_invalid (up : Upstream) (tokens : TokenPair) (params : Js.Value)
    (e : Js.Exn) (tr : Trace) :
  AppController.validateDeployRepoParameters params = inl e ->
  AppController.handleDeployRepo up tokens params tr = (Thrown e, tr).
Proof.
  intros H. unfold AppController.handleDeployRepo. unfold_monad. now rewrite H.
Qed.

Lemma handleDeployRepo_valid (up : Upstream) (tokens : TokenPair) (params : Js.Value)
    (tr : Trace) :
  AppController.validateDeployRepoParameters params = inr tt ->
  AppController.handleDeployRepo up tokens params tr
  = match DeploymentService.deployRepository up tokens (Spec.deployParams params) tr with
    | (Returned result, tr') => (Returned (Spec.deployEnvelope params result), tr')
    | (Thrown e, tr') =>
        (Returned (AppController.respondError (Js.message e) 400 "Deployment failed"), tr')
    end.
Proof.
  intros H. destruct (validate_accepts_objects params H) as [fields ->].
  unfold AppController.handleDeployRepo. unfold_monad. rewrite H. cbn beta iota.
  cbn [Js.getProp].
  change (DeploymentService.deployRepository up tokens _ tr)
    with (DeploymentService.deployRepository up tokens (Spec.deployParams (Js.Obj fields)) tr).
  destruct (DeploymentService.deployRepository up tokens _ tr) as [[result|e] tr'];
    reflexivity.
Qed.

Lemma handleGetDeploymentStatus_unreadable (up : Upstream) (token : string)
    (params : Js.Value) (e : Js.Exn) (tr : Trace) :
  Js.getProp params "deploymentId" = inl e ->
  AppController.handleGetDeploymentStatus up token params tr = (Thrown e, tr).
Proof.
  intros H. unfold AppController.handleGetDeploymentStatus. unfold_monad. now rewrite H.
Qed.

Lemma handleGetDeploymentStatus_missing (up : Upstream) (token : string)
    (params v : Js.Value) (tr : Trace) :
  Js.getProp params "deploymentId" = inr v -> Js.truthy v = false ->
  AppController.handleGetDeploymentStatus up token params tr
  = (Thrown (Js.Error "Missing required parameter: deploymentId"), tr).
Proof.
  intros H Hv. unfold AppController.handleGetDeploymentStatus. unfold_monad.
  rewrite H. cbn beta iota. now rewrite Hv.
Qed.

Lemma handleGetDeploymentStatus_present (up : Upstream) (token : string)
    (params v : Js.Value) (tr : Trace) :
  Js.getProp params "deploymentId" = inr v -> Js.truthy v = true ->
  AppController.handleGetDeploymentStatus up token params tr
  = match DeploymentService.getDeploymentStatus up token v tr with
    | (Returned summary, tr') =>
        match Js.toISOString (createdAt (DeploymentService.summary_deployment summary)) with
        | inr iso => (Returned (Spec.statusEnvelope summary iso), tr')
        | inl e =>
            (Returned (AppController.respondError (Js.message e) 400
                         "Failed to get deployment status"), tr')
        end
    | (Thrown e, tr') =>
        (Returned (AppController.respondError (Js.message e) 400
                     "Failed to get deployment status"), tr')
    end.
Proof.
  intros H Hv. unfold AppController.handleGetDeploymentStatus. unfold_monad.
  rewrite H. cbn beta iota. rewrite Hv. cbn [negb]. cbn beta iota zeta.
  destruct (DeploymentService.getDeploymentStatus up token v tr) as [[summary|e] tr'];
    [|reflexivity].
  destruct (Js.toISOString _); reflexivity.
Qed.

Lemma dispatch_deployRepo (up : Upstream) (tokens : TokenPair)
    (req : AppController.Request) :
  AppController.toolName req = "deployRepo" ->
  AppController.dispatch up tokens req
  = AppController.handleDeployRepo up tokens (AppController.body req).
Proof. intros H. unfold AppController.dispatch. now rewrite H. Qed.

Lemma dispatch_getDeploymentStatus (up : Upstream) (tokens : TokenPair)
    (req : AppController.Request) :
  AppController.toolName req = "getDeploymentStatus" ->
  AppController.dispatch up tokens req
  = AppController.handleGetDeploymentStatus up (vercelToken tokens) (AppController.body req).
Proof. intros H. unfold AppController.dispatch. now rewrite H. Qed.

Lemma dispatch_unknown (up : Upstream) (tokens : TokenPair)
    (req : AppController.Request) (tr : Trace) :
  AppController.toolName req <> "deployRepo" ->
  AppController.toolName req <> "getDeploymentStatus" ->
  AppController.dispatch up tokens req tr
  = (Returned (AppController.respondError ("Unknown tool: " +:+ AppController.toolName req)
                 404 "Available tools: deployRepo, getDeploymentStatus"), tr).
Proof.
  intros H1 H2. unfold AppController.dispatch.
  apply String.eqb_neq in H1, H2. now rewrite H1, H2.
Qed.

Lemma validate_repoUrl_missing (params v : Js.Value) :
  Js.getProp params "repoUrl" = inr v -> Js.truthy v = false ->
  AppController.validateDeployRepoParameters params
  = inl (Js.Error "Missing required parameter: repoUrl").
Proof.
  intros H Hv. unfold AppController.validateDeployRepoParameters. now rewrite H, Hv.
Qed.

Lemma validate_repoUrl_not_string (params v : Js.Value) :
  Js.getProp params "repoUrl" = inr v -> Js.truthy v = true -> Js.isString v = false ->
  AppController.validateDeployRepoParameters params
  = inl (Js.Error "Parameter 'repoUrl' must be a string").
Proof.
  intros H Hv Hs. unfold AppController.validateDeployRepoParameters. now rewrite H, Hv, Hs.
Qed.

Lemma validate_repoUrl_not_github (params : Js.Value) (s : string) :
  Js.getProp params "repoUrl" = inr (Js.Str s) -> s <> "" ->
  Js.includes s "github.com" = false ->
  AppController.validateDeployRepoParameters params
  = inl (Js.Error "Parameter 'repoUrl' must be a valid GitHub repository URL").
Proof.
  intros H Hne Hi. unfold AppController.validateDeployRepoParameters. rewrite H.
  cbn [Js.truthy Js.isString AppController.stringOf negb].
  apply nonEmpty_true in Hne. now rewrite Hne, Hi.
Qed.

Lemma handleTool_thrown (t : Spec.Transport) (up : Upstream) (req : AppController.Request)
    (tokens : TokenPair) (e : Js.Exn) (tr tr' : Trace) :
  Spec.credentials t req = Some tokens ->
  AppController.dispatch up tokens req tr = (Thrown e, tr') ->
  Spec.handleTool t up req tr
  = (Returned (AppController.respondError (Js.message e) 500 "Tool execution failed"), tr').
Proof.
  intros Hc Hd. rewrite (handleTool_authenticated t up req tokens tr Hc).
  now rewrite (tryCatch_thrown _ _ tr tr' e Hd).
Qed.

Lemma handleTool_returned (t : Spec.Transport) (up : Upstream) (req : AppController.Request)
    (tokens : TokenPair) (resp : AppController.HttpResponse) (tr tr' : Trace) :
  Spec.credentials t req = Some tokens ->
  AppController.dispatch up tokens req tr = (Returned resp, tr') ->
  Spec.handleTool t up req tr = (Returned resp, tr').
Proof.
  intros Hc Hd. rewrite (handleTool_authenticated t up req tokens tr Hc).
  now rewrite (tryCatch_returned _ _ tr tr' resp Hd).
Qed.

(** C1, as amended. A deployRepo invocation whose parameters fail validation
    (repoUrl missing, not a string, or without ['github.com']) and a
    getDeploymentStatus invocation without deploymentId are answered with an
    error envelope of status 500 that carries the validation message: the
    validation error is thrown before the handler's own [try] and is caught by
    [handleTool]. Status 400 answers an error raised by the orchestrator and,
    with the bearer token, a malformed combined token. Missing authentication
    yields 401, an unknown tool name 404, and any exception that reaches
    [handleTool] 500. *)
Theorem request_adapter_status_codes (t : Spec.Transport) (up : Upstream)
    (req : AppController.Request) (tr : Trace) :
  (forall tokens e,
     Spec.credentials t req = Some tokens ->
     AppController.toolName req = "deployRepo" ->
     AppController.validateDeployRepoParameters (AppController.body req) = inl e ->
     Spec.handleTool t up req tr
     = (Returned (AppController.respondError (Js.message e) 500 "Tool execution failed"), tr))
  /\ (forall v,
        Js.getProp (AppController.body req) "repoUrl" = inr v ->
        (Js.truthy v = false ->
         AppController.validateDeployRepoParameters (AppController.body req)
         = inl (Js.Error "Missing required parameter: repoUrl"))
        /\ (Js.truthy v = true -> Js.isString v = false ->
            AppController.validateDeployRepoParameters (AppController.body req)
            = inl (Js.Error "Parameter 'repoUrl' must be a string"))
        /\ (forall s, v = Js.Str s -> s <> "" -> Js.includes s "github.com" = false ->
            AppController.validateDeployRepoParameters (AppController.body req)
            = inl (Js.Error "Parameter 'repoUrl' must be a valid GitHub repository URL")))
  /\ (forall tokens v,
        Spec.credentials t req = Some tokens ->
        AppController.toolName req = "getDeploymentStatus" ->
        Js.getProp (AppController.body req) "deploymentId" = inr v ->
        Js.truthy v = false ->
        Spec.handleTool t up req tr
        = (Returned (AppController.respondError "Missing required parameter: deploymentId"
                       500 "Tool execution failed"), tr))
  /\ (forall tokens e tr',
        Spec.credentials t req = Some tokens ->
        AppController.toolName req = "deployRepo" ->
        AppController.validateDeployRepoParameters (AppController.body req) = inr tt ->
        DeploymentService.deployRepository up tokens
          (Spec.deployParams (AppController.body req)) tr = (Thrown e, tr') ->
        Spec.handleTool t up req tr
        = (Returned (AppController.respondError (Js.message e) 400 "Deployment failed"), tr'))
  /\ (forall tokens v e tr',
        Spec.credentials t req = Some tokens ->
        AppController.toolName req = "getDeploymentStatus" ->
        Js.getProp (AppController.body req) "deploymentId" = inr v ->
        Js.truthy v = true ->
        DeploymentService.getDeploymentStatus up (vercelToken tokens) v tr = (Thrown e, tr') ->
        Spec.handleTool t up req tr
        = (Returned (AppController.respondError (Js.message e) 400
                       "Failed to get deployment status"), tr'))
  /\ (forall token e,
        t = Spec.BearerToken ->
        AppController.Bearer.extractBearerToken req = Some token -> token <> "" ->
        DeploymentService.parseTokens token = inl e ->
        Spec.handleTool t up req tr = (Returned (Spec.badToken e), tr)
        /\ AppController.statusCode (Spec.badToken e) = 400%Z)
  /\ (Spec.missingAuthentication t req = true ->
      exists resp,
        Spec.handleTool t up req tr = (Returned resp, tr)
        /\ AppController.statusCode resp = 401%Z
        /\ exists message details,
             AppController.json resp
             = AppController.Failure
                 {| AppController.error_message := message;
                    AppController.error_code := 401;
                    AppController.error_details := details |})
  /\ (forall tokens,
        Spec.credentials t req = Some tokens ->
        AppController.toolName req <> "deployRepo" ->
        AppController.toolName req <> "getDeploymentStatus" ->
        Spec.handleTool t up req tr
        = (Returned (AppController.respondError
                       ("Unknown tool: " +:+ AppController.toolName req) 404
                       "Available tools: deployRepo, getDeploymentStatus"), tr))
  /\ (forall tokens e tr',
        Spec.credentials t req = Some tokens ->
        AppController.dispatch up tokens req tr = (Thrown e, tr') ->
        Spec.handleTool t up req tr
        = (Returned (AppController.respondError (Js.message e) 500 "Tool execution failed"),
           tr')).
Proof.
  repeat apply conj.
  - intros tokens e Hc Ht Hv. apply (handleTool_thrown t up req tokens e tr tr Hc).
    rewrite (dispatch_deployRepo up tokens req Ht).
    now apply handleDeployRepo_invalid.
  - intros v Hp. repeat apply conj.
    + now apply validate_repoUrl_missing.
    + now apply validate_repoUrl_not_string.
    + intros s -> Hne Hi. now apply (validate_repoUrl_not_github _ s).
  - intros tokens v Hc Ht Hp Hv.
    apply (handleTool_thrown t up req tokens
             (Js.Error "Missing required parameter: deploymentId") tr tr Hc).
    rewrite (dispatch_getDeploymentStatus up tokens req Ht).
    now apply (handleGetDeploymentStatus_missing up _ _ v).
  - intros tokens e tr' Hc Ht Hv Hd.
    apply (handleTool_returned t up req tokens _ tr tr' Hc).
    rewrite (dispatch_deployRepo up tokens req Ht).
    rewrite (handleDeployRepo_valid up tokens _ tr Hv). now rewrite Hd.
  - intros tokens v e tr' Hc Ht Hp Hv Hd.
    apply (handleTool_returned t up req tokens _ tr tr' Hc).
    rewrite (dispatch_getDeploymentStatus up tokens req Ht).
    rewrite (handleGetDeploymentStatus_present up _ _ v tr Hp Hv). now rewrite Hd.
  - intros token e -> Hx Hne Hp. split; [|reflexivity].
    now apply (handleTool_badToken up req token).
  - intros Hm. rewrite (handleTool_missingAuthentication t up req tr Hm).
    destruct t; eexists; (split; [reflexivity|]); (split; [reflexivity|]);
      eexists; eexists; reflexivity.
  - intros tokens Hc H1 H2. apply (handleTool_returned t up req tokens _ tr tr Hc).
    now apply dispatch_unknown.
  - intros tokens e tr' Hc Hd. now apply (handleTool_thrown t up req tokens).
Qed.

Lemma request_adapter_status_codes_witness :
  Spec.handleTool Spec.HeaderPair Scenario.platform
    {| AppController.toolName := "deployRepo";
       AppController.body := Js.Obj [("repoUrl", Js.Str "https://gitlab.com/acme/site")];
       AppController.headers := Scenario.pair "gh" "vc" |} []
  = (Returned (AppController.respondError
                 "Parameter 'repoUrl' must be a valid GitHub repository URL"
                 500 "Tool execution failed"), [])
  /\ Spec.handleTool Spec.BearerToken Scenario.platform
       {| AppController.toolName := "getDeploymentStatus";
          AppController.body := Js.Obj [];
          AppController.headers := Scenario.bearer "gh:vc" |} []
     = (Returned (AppController.respondError "Missing required parameter: deploymentId"
                    500 "Tool execution failed"), []).
Proof.
  split.
  - pose proof (request_adapter_status_codes Spec.HeaderPair Scenario.platform
      {| AppController.toolName := "deployRepo";
         AppController.body := Js.Obj [("repoUrl", Js.Str "https://gitlab.com/acme/site")];
         AppController.headers := Scenario.pair "gh" "vc" |} []) as (H & _).
    apply (H {| githubToken := "gh"; vercelToken := "vc" |}
             (Js.Error "Parameter 'repoUrl' must be a valid GitHub repository URL"));
      reflexivity.
  - pose proof (request_adapter_status_codes Spec.BearerToken Scenario.platform
      {| AppController.toolName := "getDeploymentStatus";
         AppController.body := Js.Obj [];
         AppController.headers := Scenario.bearer "gh:vc" |} []) as (_ & _ & H & _).
    apply (H {| githubToken := "gh"; vercelToken := "vc" |} Js.Undefined); reflexivity.
Defined.

(** C1, as stated, fails: a deployRepo invocation without repoUrl fails
    validation and is answered with status 500, not 400, under either
    transport. *)
Lemma validation_failure_counterexample :
  AppController.validateDeployRepoParameters (Js.Obj [])
    = inl (Js.Error "Missing required parameter: repoUrl")
  /\ (exists resp,
        AppController.Bearer.handleTool Scenario.platform
          {| AppController.toolName := "deployRepo";
             AppController.body := Js.Obj [];
             AppController.headers := Scenario.bearer "gh:vc" |} []
        = (Returned resp, [])
        /\ AppController.statusCode resp = 500%Z
        /\ AppController.statusCode resp <> 400%Z)
  /\ (exists resp,
        AppController.Headers.handleTool Scenario.platform
          {| AppController.toolName := "deployRepo";
             AppController.body := Js.Obj [];
             AppController.headers := Scenario.pair "gh" "vc" |} []
        = (Returned resp, [])
        /\ AppController.statusCode resp = 500%Z
        /\ AppController.statusCode resp <> 400%Z).
Proof.
  split; [reflexivity|].
  split; eexists; (split; [reflexivity|]); (split; [reflexivity|discriminate]).
Qed.

(** ** End to end: a repository that GitHub does not know *)

Lemma prefix_append (n a s : string) :
  String.prefix n a = true -> String.prefix n (a +:+ s) = true.
Proof.
  revert a. induction n as [|c n IH]; intros a; [now destruct (a +:+ s)|].
  destruct a as [|c' a]; [discriminate|].
  rewrite append_cons. cbn [String.prefix].
  destruct (ascii_dec c c'); [apply IH|discriminate].
Qed.

Lemma includes_append (a s n : string) :
  Js.includes a n = true -> Js.includes (a +:+ s) n = true.
Proof.
  induction a as [|c a IH].
  - cbn [Js.includes]. rewrite orb_false_r. intros H.
    destruct n; [now destruct s|discriminate].
  - rewrite append_cons. cbn [Js.includes]. intros [H|H]%orb_prop.
    + pose proof (prefix_append n (String c a) s H) as Hp.
      rewrite append_cons in Hp. now rewrite Hp.
    + rewrite (IH H). apply orb_true_r.
Qed.

Lemma validateRepository_not_found (up : Upstream) (token repoUrl o r : string)
    (e : Js.Exn) (tr : Trace) :
  GitHubService.parseGitHubUrl repoUrl = inr (o, r) ->
  reposGet up tr token o r = inl e ->
  Js.status e = Some 404%Z ->
  GitHubService.validateRepository up token repoUrl tr
  = (Thrown (Js.Error ("Repository not found or not accessible: " +:+ repoUrl)),
     (tr ++ [ReposGet token o r])%list).
Proof.
  intros Hp Hg Hs. unfold GitHubService.validateRepository. unfold_monad.
  rewrite Hp. cbn beta iota. rewrite Hg. cbn beta iota.
  now rewrite decide_True by exact Hs.
Qed.

Lemma deployRepository_not_found (up : Upstream) (tokens : TokenPair)
    (params : DeployRepoParams) (o r : string) (e : Js.Exn) (tr : Trace) :
  GitHubService.parseGitHubUrl (repoUrl params) = inr (o, r) ->
  reposGet up tr (githubToken tokens) o r = inl e ->
  Js.status e = Some 404%Z ->
  DeploymentService.deployRepository up tokens params tr
  = (Thrown (Js.Error ("Deployment failed: Repository not found or not accessible: "
                       +:+ repoUrl params)),
     (tr ++ [ReposGet (githubToken tokens) o r])%list).
Proof.
  intros Hp Hg Hs. unfold DeploymentService.deployRepository.
  unfold tryCatch at 1, bind at 1.
  now rewrite (validateRepository_not_found up _ _ o r e tr Hp Hg Hs).
Qed.

(** C9. When GitHub answers 404 for the owner and repository of a deploy
    request, the caller receives an error envelope with status 400 whose
    message contains ['not found']. *)
Theorem repository_not_found_is_400 (t : Spec.Transport) (up : Upstream)
    (req : AppController.Request) (tr : Trace) (tokens : TokenPair)
    (o r : string) (e : Js.Exn) :
  Spec.credentials t req = Some tokens ->
  AppController.toolName req = "deployRepo" ->
  AppController.validateDeployRepoParameters (AppController.body req) = inr tt ->
  GitHubService.parseGitHubUrl (repoUrl (Spec.deployParams (AppController.body req)))
    = inr (o, r) ->
  reposGet up tr (githubToken tokens) o r = inl e ->
  Js.status e = Some 404%Z ->
  exists message,
    Spec.handleTool t up req tr
    = (Returned {| AppController.statusCode := 400;
                   AppController.json :=
                     AppController.Failure
                       {| AppController.error_message := message;
                          AppController.error_code := 400;
                          AppController.error_details := "Deployment failed" |} |},
       (tr ++ [ReposGet (githubToken tokens) o r])%list)
    /\ message
       = "Deployment failed: Repository not found or not accessible: "
         +:+ repoUrl (Spec.deployParams (AppController.body req))
    /\ Js.includes message "not found" = true.
Proof.
  intros Hc Ht Hv Hp Hg Hs. eexists. split; [|split; [reflexivity|]].
  - apply (handleTool_returned t up req tokens _ tr _ Hc).
    rewrite (dispatch_deployRepo up tokens req Ht).
    rewrite (handleDeployRepo_valid up tokens _ tr Hv).
    now rewrite (deployRepository_not_found up tokens _ o r e tr Hp Hg Hs).
  - now apply includes_append.
Qed.

Lemma repository_not_found_is_400_witness :
  exists message,
    Spec.handleTool Spec.HeaderPair Scenario.platform
      (Scenario.deployRequest (Scenario.pair "gh" "vc") "https://github.com/acme/nope") []
    = (Returned {| AppController.statusCode := 400;
                   AppController.json :=
                     AppController.Failure
                       {| AppController.error_message := message;
                          AppController.error_code := 400;
                          AppController.error_details := "Deployment failed" |} |},
       [ReposGet "gh" "acme" "nope"])
    /\ message
       = "Deployment failed: Repository not found or not accessible: https://github.com/acme/nope"
    /\ Js.includes message "not found" = true.
Proof.
  apply (repository_not_found_is_400 Spec.HeaderPair Scenario.platform
           (Scenario.deployRequest (Scenario.pair "gh" "vc") "https://github.com/acme/nope") []
           {| githubToken := "gh"; vercelToken := "vc" |} "acme" "nope" Scenario.notFound);
    reflexivity.
Defined.

(** ** Success envelopes *)










Lemma createDeployment_returned (up : Upstream) (token : string) (proj : VercelProject)
    (info : GitHubRepoInfo) (tr tr' : Trace) (dep : VercelDeployment) :
  VercelService.createDeployment up token proj info tr = (Returned dep, tr') ->
  exists body, fetchPostDeployment up tr token body = FetchOk dep.
Proof.
  unfold VercelService.createDeployment. unfold_monad. cbn beta iota zeta.
  intros H. eexists.
  destruct (fetchPostDeployment up tr token _) as [e|st text em|b] eqn:Hf;
    cbn in H; try discriminate.
  injection H as <- _. exact Hf.
Qed.





(** * Properties beyond the claims *)

(** ** More on strings *)

Lemma append_assoc (a b c : string) : (a +:+ b) +:+ c = a +:+ (b +:+ c).
Proof. induction a as [|x a IH]; [reflexivity|]. now rewrite !append_cons, IH. Qed.

Lemma append_empty_r (a : string) : a +:+ "" = a.
Proof. induction a as [|x a IH]; [reflexivity|]. now rewrite append_cons, IH. Qed.

Lemma length_append (a b : string) :
  String.length (a +:+ b) = String.length a + String.length b.
Proof. induction a as [|x a IH]; [reflexivity|]. rewrite append_cons. cbn. now rewrite IH. Qed.

Lemma every_append (p : ascii -> bool) (a b : string) :
  Js.every p (a +:+ b) = Js.every p a && Js.every p b.
Proof.
  induction a as [|x a IH]; [reflexivity|].
  rewrite append_cons. cbn [Js.every]. now rewrite IH, andb_assoc.
Qed.

Lemma rev_app_append (a acc : string) : String.rev_app a acc = String.rev a +:+ acc.
Proof.
  unfold String.rev. revert acc. induction a as [|x a IH]; intros acc; [reflexivity|].
  cbn [String.rev_app]. rewrite (IH (String x acc)), (IH (String x "")).
  now rewrite append_assoc.
Qed.

Lemma rev_append (a b : string) : String.rev (a +:+ b) = String.rev b +:+ String.rev a.
Proof.
  induction a as [|x a IH].
  - now rewrite append_empty_r.
  - rewrite append_cons. unfold String.rev at 1 3. cbn [String.rev_app].
    rewrite !rev_app_append, IH. now rewrite append_assoc.
Qed.

Lemma rev_involutive (a : string) : String.rev (String.rev a) = a.
Proof.
  induction a as [|x a IH]; [reflexivity|].
  unfold String.rev at 2. cbn [String.rev_app]. rewrite rev_app_append, rev_append, IH.
  reflexivity.
Qed.

Lemma every_rev (p : ascii -> bool) (a : string) : Js.every p (String.rev a) = Js.every p a.
Proof.
  induction a as [|x a IH]; [reflexivity|].
  unfold String.rev. cbn [String.rev_app]. rewrite rev_app_append, every_append, IH.
  cbn. rewrite andb_true_r. apply andb_comm.
Qed.

Lemma length_rev (a : string) : String.length (String.rev a) = String.length a.
Proof.
  induction a as [|x a IH]; [reflexivity|].
  unfold String.rev. cbn [String.rev_app]. rewrite rev_app_append, length_append, IH.
  cbn. lia.
Qed.

Lemma every_substring (p : ascii -> bool) (n : nat) (s : string) :
  Js.every p s = true -> Js.every p (Js.substring n s) = true.
Proof.
  revert s. induction n as [|n IH]; intros s; [now destruct s|].
  destruct s as [|c s]; [reflexivity|].
  cbn [Js.every Js.substring]. intros [_ H]%andb_prop. now apply IH.
Qed.

Lemma length_substring (n : nat) (s : string) :
  String.length (Js.substring n s) = String.length s - n.
Proof.
  revert s. induction n as [|n IH]; intros s; [destruct s; cbn; lia|].
  destruct s as [|c s]; [reflexivity|]. cbn. apply IH.
Qed.

Lemma nonEmpty_length (s : string) : Js.nonEmpty s = true <-> 0 < String.length s.
Proof. destruct s; cbn; split; (congruence || lia). Qed.

Lemma breakAt_free (sep : ascii) (s : string) :
  Js.every (fun c => negb (Ascii.eqb c sep)) s = true ->
  GitHubService.breakAt sep s = (s, None).
Proof.
  induction s as [|c s IH]; [reflexivity|].
  cbn [Js.every GitHubService.breakAt]. intros [Hc Hs]%andb_prop.
  apply negb_true_iff in Hc. now rewrite Hc, (IH Hs).
Qed.

Lemma breakAt_append (sep : ascii) (a b : string) :
  Js.every (fun c => negb (Ascii.eqb c sep)) a = true ->
  GitHubService.breakAt sep (a +:+ String sep b) = (a, Some b).
Proof.
  induction a as [|c a IH].
  - intros _. change (GitHubService.breakAt sep (String sep b) = ("", Some b)).
    cbn. now rewrite Ascii.eqb_refl.
  - cbn [Js.every]. intros [Hc Ha]%andb_prop. apply negb_true_iff in Hc.
    rewrite append_cons. cbn [GitHubService.breakAt]. now rewrite Hc, (IH Ha).
Qed.

(** What [breakAt] returns: the first part has no separator, and the string
    is the first part alone or the two parts around one separator. *)
Lemma breakAt_inv (sep : ascii) (s a : string) (b : option string) :
  GitHubService.breakAt sep s = (a, b) ->
  Js.every (fun c => negb (Ascii.eqb c sep)) a = true
  /\ s = match b with Some t => a +:+ String sep t | None => a end.
Proof.
  revert a b. induction s as [|c s IH]; intros a b.
  - intros [= <- <-]. now split.
  - cbn [GitHubService.breakAt]. destruct (Ascii.eqb c sep) eqn:Hc.
    + intros [= <- <-]. apply Ascii.eqb_eq in Hc. subst. now split.
    + destruct (GitHubService.breakAt sep s) as [a' b'] eqn:Hb.
      intros [= <- <-]. destruct (IH a' b' eq_refl) as [Ha Hs].
      split; [cbn; now rewrite Hc, Ha|].
      destruct b'; rewrite ?append_cons; now f_equal.
Qed.

Lemma stripPrefix_append (p s : string) : GitHubService.stripPrefix p (p +:+ s) = Some s.
Proof.
  unfold GitHubService.stripPrefix. rewrite startsWith_append. f_equal.
  induction p as [|c p IH]; [reflexivity|exact IH].
Qed.

Lemma prefix_inv (p s : string) :
  String.prefix p s = true -> s = p +:+ Js.substring (String.length p) s.
Proof.
  revert s. induction p as [|c p IH]; intros s; [reflexivity|].
  destruct s as [|c' s]; [discriminate|]. cbn [String.prefix].
  destruct (ascii_dec c c') as [->|]; [|discriminate].
  intros H. rewrite append_cons. cbn [String.length Js.substring]. f_equal. now apply IH.
Qed.

Lemma stripPrefix_inv (p s rest : string) :
  GitHubService.stripPrefix p s = Some rest -> s = p +:+ rest.
Proof.
  unfold GitHubService.stripPrefix, Js.startsWith.
  destruct (String.prefix p s) eqn:Hp; [|discriminate].
  intros [= <-]. now apply prefix_inv.
Qed.

Lemma dropEnd_append (a b : string) :
  GitHubService.dropEnd (String.length b) (a +:+ b) = a.
Proof.
  unfold GitHubService.dropEnd. rewrite rev_append.
  replace (Js.substring (String.length b) (String.rev b +:+ String.rev a))
    with (String.rev a); [apply rev_involutive|].
  rewrite <- (length_rev b).
  generalize (String.rev b). intros r. induction r as [|c r IH]; [reflexivity|exact IH].
Qed.

Lemma endsWith_append (a b : string) : Js.endsWith (a +:+ b) b = true.
Proof.
  unfold Js.endsWith. rewrite rev_append. apply startsWith_append.
Qed.

Lemma captureRepo_git (r : string) :
  r <> "" -> GitHubService.captureRepo (r +:+ ".git") = r.
Proof.
  intros Hr. unfold GitHubService.captureRepo.
  rewrite endsWith_append. cbn [andb].
  assert ((4 <? String.length (r +:+ ".git"))%nat = true) as ->.
  { apply Nat.ltb_lt. rewrite length_append. destruct r; [congruence|cbn; lia]. }
  apply (dropEnd_append r ".git").
Qed.

Lemma captureRepo_shape (p : ascii -> bool) (s : string) :
  Js.nonEmpty s = true -> Js.every p s = true ->
  Js.nonEmpty (GitHubService.captureRepo s) = true
  /\ Js.every p (GitHubService.captureRepo s) = true.
Proof.
  intros Hn Hp. unfold GitHubService.captureRepo.
  destruct (Js.endsWith s ".git" && (4 <? String.length s)%nat) eqn:Hc; [|now split].
  apply andb_prop in Hc as [_ Hlen]. apply Nat.ltb_lt in Hlen.
  unfold GitHubService.dropEnd. split.
  - apply nonEmpty_length. rewrite length_rev, length_substring, length_rev. lia.
  - rewrite every_rev. apply every_substring. now rewrite every_rev.
Qed.

(** ** Repository references ([parseGitHubUrl]) *)

Lemma prefix_within (sep : ascii) (p a b : string) :
  Js.every (fun c => negb (Ascii.eqb c sep)) p = true ->
  String.prefix p (a +:+ String sep b) = true -> String.prefix p a = true.
Proof.
  revert a. induction p as [|c p IH]; intros a Hp; [now destruct a|].
  cbn [Js.every] in Hp. apply andb_prop in Hp as [Hc Hp]. apply negb_true_iff in Hc.
  destruct a as [|x a].
  - change ("" +:+ String sep b) with (String sep b). cbn [String.prefix].
    destruct (ascii_dec c sep) as [->|]; [|discriminate].
    now rewrite Ascii.eqb_refl in Hc.
  - rewrite append_cons. cbn [String.prefix].
    destruct (ascii_dec c x); [apply IH, Hp|discriminate].
Qed.

Lemma breakAt_slash (a b : string) :
  Terms.slashFree a = true -> GitHubService.breakAt "/" (a +:+ "/" +:+ b) = (a, Some b).
Proof. intros H. now apply (breakAt_append "/" a b). Qed.

Lemma stripPrefix_slashFree (p s : string) :
  Terms.slashFree p = false -> Terms.slashFree s = true ->
  GitHubService.stripPrefix p s = None.
Proof.
  intros Hp Hs. destruct (GitHubService.stripPrefix p s) as [rest|] eqn:H; [|reflexivity].
  apply stripPrefix_inv in H. subst s. unfold Terms.slashFree in *.
  rewrite every_append, Hp in Hs. discriminate.
Qed.

Lemma matchHttps_owner_repo (o r : string) :
  Terms.slashFree o = true -> Terms.slashFree r = true ->
  GitHubService.matchHttps (o +:+ "/" +:+ r) = None.
Proof.
  intros Ho Hr. unfold GitHubService.matchHttps.
  destruct (GitHubService.stripPrefix _ _) as [rest|] eqn:H; [|reflexivity].
  apply stripPrefix_inv in H.
  assert (GitHubService.breakAt "/" (o +:+ "/" +:+ r) = (o, Some r)) as Hb
    by now apply breakAt_append.
  rewrite H in Hb.
  change ("https://github.com/" +:+ rest)
    with ("https:" +:+ String "/" ("/github.com/" +:+ rest)) in Hb.
  rewrite (breakAt_append "/" "https:" _ eq_refl) in Hb.
  injection Hb as <- <-. discriminate.
Qed.

Lemma matchSsh_owner_repo (o r : string) :
  Js.startsWith o "git@github.com:" = false ->
  GitHubService.matchSsh (o +:+ "/" +:+ r) = None.
Proof.
  intros Ho. unfold GitHubService.matchSsh, GitHubService.stripPrefix, Js.startsWith.
  destruct (String.prefix "git@github.com:" (o +:+ "/" +:+ r)) eqn:Hp; [|reflexivity].
  apply (prefix_within "/" "git@github.com:" o r eq_refl) in Hp.
  unfold Js.startsWith in Ho. congruence.
Qed.

Lemma matchSimple_owner_repo (o r : string) :
  o <> "" -> r <> "" -> Terms.slashFree o = true -> Terms.slashFree r = true ->
  GitHubService.matchSimple (o +:+ "/" +:+ r) = Some (o, r).
Proof.
  intros Ho Hr Hso Hsr. unfold GitHubService.matchSimple.
  rewrite (breakAt_slash o r Hso).
  apply nonEmpty_true in Ho, Hr. unfold Terms.slashFree in Hsr.
  now rewrite Ho, Hr, Hsr.
Qed.

Lemma matchHttps_url (o segment : string) (trailing : option string) :
  o <> "" -> segment <> "" ->
  Terms.slashFree o = true -> Terms.slashFree segment = true ->
  match trailing with Some t => Terms.lineFree t = true | None => True end ->
  GitHubService.matchHttps
    ("https://github.com/" +:+ o +:+ "/" +:+
       match trailing with Some t => segment +:+ "/" +:+ t | None => segment end)
  = Some (o, GitHubService.captureRepo segment).
Proof.
  intros Ho Hs Hso Hss Ht. unfold GitHubService.matchHttps.
  rewrite stripPrefix_append, (breakAt_slash o _ Hso).
  apply nonEmpty_true in Ho, Hs.
  destruct trailing as [t|].
  - rewrite (breakAt_slash segment t Hss). unfold Terms.lineFree in Ht.
    now rewrite Ho, Hs, Ht.
  - rewrite (breakAt_free "/" segment Hss). now rewrite Ho, Hs.
Qed.

Lemma matchHttps_ssh (rest : string) :
  GitHubService.matchHttps ("git@github.com:" +:+ rest) = None.
Proof. reflexivity. Qed.

Lemma matchSsh_url (o segment : string) :
  o <> "" -> segment <> "" ->
  Terms.slashFree o = true -> Terms.slashFree segment = true ->
  GitHubService.matchSsh ("git@github.com:" +:+ o +:+ "/" +:+ segment)
  = Some (o, GitHubService.captureRepo segment).
Proof.
  intros Ho Hs Hso Hss. unfold GitHubService.matchSsh.
  rewrite stripPrefix_append, (breakAt_slash o _ Hso).
  apply nonEmpty_true in Ho, Hs. unfold Terms.slashFree in Hss.
  now rewrite Ho, Hs, Hss.
Qed.

Lemma captureRepo_plain (r : string) :
  Js.endsWith r ".git" = false -> GitHubService.captureRepo r = r.
Proof. intros H. unfold GitHubService.captureRepo. now rewrite H. Qed.

Lemma slashFree_git (r : string) :
  Terms.slashFree r = true -> Terms.slashFree (r +:+ ".git") = true.
Proof. intros H. unfold Terms.slashFree in *. now rewrite every_append, H. Qed.

Lemma append_nonEmpty (a b : string) : a <> "" -> a +:+ b <> "".
Proof. destruct a; [congruence|discriminate]. Qed.

Lemma matchHttps_fields (s o r : string) :
  GitHubService.matchHttps s = Some (o, r) ->
  o <> "" /\ r <> "" /\ Terms.slashFree o = true /\ Terms.slashFree r = true.
Proof.
  unfold GitHubService.matchHttps.
  destruct (GitHubService.stripPrefix _ s) as [rest|]; [|discriminate].
  destruct (GitHubService.breakAt "/" rest) as [o' [rest'|]] eqn:Hb1; [|discriminate].
  destruct (GitHubService.breakAt "/" rest') as [segment trailing] eqn:Hb2.
  destruct (Js.nonEmpty o') eqn:Ho; [|discriminate].
  destruct (Js.nonEmpty segment) eqn:Hs; [|discriminate].
  cbn [andb]. destruct (match trailing with Some _ => _ | None => _ end); [|discriminate].
  intros [= <- <-].
  apply breakAt_inv in Hb1 as [Hso _]. apply breakAt_inv in Hb2 as [Hss _].
  destruct (captureRepo_shape _ segment Hs Hss) as [Hn Hc].
  repeat split; try assumption; now apply nonEmpty_true.
Qed.

Lemma matchSsh_fields (s o r : string) :
  GitHubService.matchSsh s = Some (o, r) ->
  o <> "" /\ r <> "" /\ Terms.slashFree o = true /\ Terms.slashFree r = true.
Proof.
  unfold GitHubService.matchSsh.
  destruct (GitHubService.stripPrefix _ s) as [rest|]; [|discriminate].
  destruct (GitHubService.breakAt "/" rest) as [o' [segment|]] eqn:Hb1; [|discriminate].
  destruct (Js.nonEmpty o') eqn:Ho; [|discriminate].
  destruct (Js.nonEmpty segment) eqn:Hs; [|discriminate].
  cbn [andb]. destruct (Js.every _ segment) eqn:Hss; [|discriminate].
  intros [= <- <-].
  apply breakAt_inv in Hb1 as [Hso _].
  destruct (captureRepo_shape _ segment Hs Hss) as [Hn Hc].
  repeat split; try assumption; now apply nonEmpty_true.
Qed.

Lemma matchSimple_fields (s o r : string) :
  GitHubService.matchSimple s = Some (o, r) ->
  o <> "" /\ r <> "" /\ Terms.slashFree o = true /\ Terms.slashFree r = true.
Proof.
  unfold GitHubService.matchSimple.
  destruct (GitHubService.breakAt "/" s) as [o' [r'|]] eqn:Hb1; [|discriminate].
  destruct (Js.nonEmpty o') eqn:Ho; [|discriminate].
  destruct (Js.nonEmpty r') eqn:Hr; [|discriminate].
  cbn [andb]. destruct (Js.every _ r') eqn:Hsr; [|discriminate].
  intros [= <- <-].
  apply breakAt_inv in Hb1 as [Hso _].
  repeat split; try assumption; now apply nonEmpty_true.
Qed.

(** X1. Whatever reference [parseGitHubUrl] accepts, the owner and the
    repository it returns are both non-empty and free of slashes. *)
Theorem parseGitHubUrl_fields (repoUrl o r : string) :
  GitHubService.parseGitHubUrl repoUrl = inr (o, r) ->
  o <> "" /\ r <> "" /\ Terms.slashFree o = true /\ Terms.slashFree r = true.
Proof.
  unfold GitHubService.parseGitHubUrl, GitHubService.patterns.
  cbn [GitHubService.firstMatch].
  destruct (GitHubService.matchHttps repoUrl) as [[o1 r1]|] eqn:H1.
  { intros [= <- <-]. now apply (matchHttps_fields repoUrl). }
  destruct (GitHubService.matchSsh repoUrl) as [[o2 r2]|] eqn:H2.
  { intros [= <- <-]. now apply (matchSsh_fields repoUrl). }
  destruct (GitHubService.matchSimple repoUrl) as [[o3 r3]|] eqn:H3; [|discriminate].
  intros [= <- <-]. now apply (matchSimple_fields repoUrl).
Qed.

Lemma parseGitHubUrl_fields_witness :
  GitHubService.parseGitHubUrl "https://github.com/acme/site.git/tree/main"
    = inr ("acme", "site")
  /\ Terms.slashFree "acme" = true /\ Terms.slashFree "site" = true.
Proof.
  split; [reflexivity|].
  destruct (parseGitHubUrl_fields "https://github.com/acme/site.git/tree/main" "acme" "site"
              eq_refl) as (_ & _ & Ho & Hr).
  now split.
Defined.

Lemma parse_https (o segment : string) (trailing : option string) :
  o <> "" -> segment <> "" ->
  Terms.slashFree o = true -> Terms.slashFree segment = true ->
  match trailing with Some t => Terms.lineFree t = true | None => True end ->
  GitHubService.parseGitHubUrl
    ("https://github.com/" +:+ o +:+ "/" +:+
       match trailing with Some t => segment +:+ "/" +:+ t | None => segment end)
  = inr (o, GitHubService.captureRepo segment).
Proof.
  intros Ho Hs Hso Hss Ht.
  unfold GitHubService.parseGitHubUrl, GitHubService.patterns.
  cbn [GitHubService.firstMatch].
  now rewrite (matchHttps_url o segment trailing Ho Hs Hso Hss Ht).
Qed.

Lemma parse_ssh (o segment : string) :
  o <> "" -> segment <> "" ->
  Terms.slashFree o = true -> Terms.slashFree segment = true ->
  GitHubService.parseGitHubUrl ("git@github.com:" +:+ o +:+ "/" +:+ segment)
  = inr (o, GitHubService.captureRepo segment).
Proof.
  intros Ho Hs Hso Hss.
  unfold GitHubService.parseGitHubUrl, GitHubService.patterns.
  cbn [GitHubService.firstMatch].
  rewrite matchHttps_ssh. now rewrite (matchSsh_url o segment Ho Hs Hso Hss).
Qed.

Lemma parse_simple (o r : string) :
  o <> "" -> r <> "" -> Terms.slashFree o = true -> Terms.slashFree r = true ->
  Js.startsWith o "git@github.com:" = false ->
  GitHubService.parseGitHubUrl (o +:+ "/" +:+ r) = inr (o, r).
Proof.
  intros Ho Hr Hso Hsr Hp.
  unfold GitHubService.parseGitHubUrl, GitHubService.patterns.
  cbn [GitHubService.firstMatch].
  rewrite (matchHttps_owner_repo o r Hso Hsr), (matchSsh_owner_repo o r Hp).
  now rewrite (matchSimple_owner_repo o r Ho Hr Hso Hsr).
Qed.

(** X2. All the accepted forms of one reference yield the same owner and
    repository: for a non-empty, slash-free owner and repository, the
    repository not ending in [.git], the https URL, with or without [.git]
    and with or without a trailing path, the ssh URL, with or without [.git],
    and the bare [owner/repo] (for an owner that does not itself start with
    [git@github.com:]) all parse to that owner and repository. *)
Theorem parseGitHubUrl_forms_agree (o r : string) :
  o <> "" -> r <> "" -> Terms.slashFree o = true -> Terms.slashFree r = true ->
  Js.endsWith r ".git" = false ->
  GitHubService.parseGitHubUrl ("https://github.com/" +:+ o +:+ "/" +:+ r) = inr (o, r)
  /\ GitHubService.parseGitHubUrl ("https://github.com/" +:+ o +:+ "/" +:+ r +:+ ".git")
     = inr (o, r)
  /\ (forall path, Terms.lineFree path = true ->
        GitHubService.parseGitHubUrl
          ("https://github.com/" +:+ o +:+ "/" +:+ r +:+ "/" +:+ path) = inr (o, r)
        /\ GitHubService.parseGitHubUrl
             ("https://github.com/" +:+ o +:+ "/" +:+ (r +:+ ".git") +:+ "/" +:+ path)
           = inr (o, r))
  /\ GitHubService.parseGitHubUrl ("git@github.com:" +:+ o +:+ "/" +:+ r) = inr (o, r)
  /\ GitHubService.parseGitHubUrl ("git@github.com:" +:+ o +:+ "/" +:+ r +:+ ".git")
     = inr (o, r)
  /\ (Js.startsWith o "git@github.com:" = false ->
      GitHubService.parseGitHubUrl (o +:+ "/" +:+ r) = inr (o, r)).
Proof.
  intros Ho Hr Hso Hsr Hgit.
  pose proof (captureRepo_plain r Hgit) as Hplain.
  pose proof (captureRepo_git r Hr) as Hstrip.
  pose proof (slashFree_git r Hsr) as Hsg.
  pose proof (append_nonEmpty r ".git" Hr) as Hng.
  split; [|split; [|split; [|split; [|split]]]].
  - rewrite <- Hplain at 2. now apply (parse_https o r None).
  - rewrite <- Hstrip at 2. now apply (parse_https o (r +:+ ".git") None).
  - intros path Hpath. split.
    + rewrite <- Hplain at 2. now apply (parse_https o r (Some path)).
    + rewrite <- Hstrip at 2. now apply (parse_https o (r +:+ ".git") (Some path)).
  - rewrite <- Hplain at 2. now apply parse_ssh.
  - rewrite <- Hstrip at 2. now apply (parse_ssh o (r +:+ ".git")).
  - intros Hp. now apply parse_simple.
Qed.

Lemma parseGitHubUrl_forms_agree_witness :
  GitHubService.parseGitHubUrl "https://github.com/acme/site.git/tree/main/docs"
    = inr ("acme", "site")
  /\ GitHubService.parseGitHubUrl "git@github.com:acme/site.git" = inr ("acme", "site")
  /\ GitHubService.parseGitHubUrl "acme/site" = inr ("acme", "site").
Proof.
  destruct (parseGitHubUrl_forms_agree "acme" "site") as (_ & _ & Hpath & _ & Hssh & Hbare);
    try reflexivity; try discriminate.
  split; [|split].
  - apply (Hpath "tree/main/docs"). reflexivity.
  - exact Hssh.
  - apply Hbare. reflexivity.
Defined.

Lemma matchSsh_slashFree (s : string) :
  Terms.slashFree s = true -> GitHubService.matchSsh s = None.
Proof.
  intros Hs. unfold GitHubService.matchSsh.
  destruct (GitHubService.stripPrefix _ s) as [rest|] eqn:H; [|reflexivity].
  apply stripPrefix_inv in H. subst s.
  unfold Terms.slashFree in Hs. rewrite every_append in Hs.
  apply andb_prop in Hs as [_ Hrest].
  now rewrite (breakAt_free "/" rest Hrest).
Qed.

(** X3. A reference without any slash is never accepted: [parseGitHubUrl]
    fails with ['Invalid GitHub repository URL: '] followed by the input. *)
Theorem parseGitHubUrl_needs_slash (repoUrl : string) :
  Terms.slashFree repoUrl = true ->
  GitHubService.parseGitHubUrl repoUrl
  = inl (Js.Error ("Invalid GitHub repository URL: " +:+ repoUrl)).
Proof.
  intros Hs. unfold GitHubService.parseGitHubUrl, GitHubService.patterns.
  cbn [GitHubService.firstMatch].
  unfold GitHubService.matchHttps.
  rewrite (stripPrefix_slashFree "https://github.com/" repoUrl eq_refl Hs).
  rewrite (matchSsh_slashFree repoUrl Hs).
  unfold GitHubService.matchSimple. now rewrite (breakAt_free "/" repoUrl Hs).
Qed.

Lemma parseGitHubUrl_needs_slash_witness :
  GitHubService.parseGitHubUrl "git@github.com:acme"
  = inl (Js.Error "Invalid GitHub repository URL: git@github.com:acme").
Proof. apply (parseGitHubUrl_needs_slash "git@github.com:acme"). reflexivity. Defined.

(** X4. An https URL of any other host is rejected: a string that starts
    with [https://] but not with [https://github.com/] fails with
    ['Invalid GitHub repository URL: '] followed by the input. *)
Theorem parseGitHubUrl_other_host (rest : string) :
  Js.startsWith ("https://" +:+ rest) "https://github.com/" = false ->
  GitHubService.parseGitHubUrl ("https://" +:+ rest)
  = inl (Js.Error ("Invalid GitHub repository URL: " +:+ "https://" +:+ rest)).
Proof.
  intros Hp. unfold GitHubService.parseGitHubUrl, GitHubService.patterns.
  cbn [GitHubService.firstMatch].
  unfold GitHubService.matchHttps, GitHubService.stripPrefix at 1. rewrite Hp.
  assert (GitHubService.matchSsh ("https://" +:+ rest) = None) as -> by reflexivity.
  unfold GitHubService.matchSimple.
  change ("https://" +:+ rest) with ("https:" +:+ String "/" (String "/" rest)) at 1.
  rewrite (breakAt_append "/" "https:" _ eq_refl).
  reflexivity.
Qed.

Lemma parseGitHubUrl_other_host_witness :
  GitHubService.parseGitHubUrl "https://gitlab.com/owner/repo"
  = inl (Js.Error "Invalid GitHub repository URL: https://gitlab.com/owner/repo").
Proof. apply (parseGitHubUrl_other_host "gitlab.com/owner/repo"). reflexivity. Defined.

(** X5. Only the URL forms strip a [.git] suffix. For a non-empty,
    slash-free owner and repository, [https://github.com/<o>/<r>.git] parses
    to the repository [<r>], while the bare [<o>/<r>.git] parses to the
    repository [<r>.git]. *)
Theorem parseGitHubUrl_bare_keeps_git (o r : string) :
  o <> "" -> r <> "" -> Terms.slashFree o = true -> Terms.slashFree r = true ->
  Js.startsWith o "git@github.com:" = false ->
  GitHubService.parseGitHubUrl ("https://github.com/" +:+ o +:+ "/" +:+ r +:+ ".git")
    = inr (o, r)
  /\ GitHubService.parseGitHubUrl (o +:+ "/" +:+ r +:+ ".git") = inr (o, r +:+ ".git").
Proof.
  intros Ho Hr Hso Hsr Hp. split.
  - rewrite <- (captureRepo_git r Hr) at 2.
    apply (parse_https o (r +:+ ".git") None); auto using append_nonEmpty, slashFree_git.
  - apply parse_simple; auto using append_nonEmpty, slashFree_git.
Qed.

Lemma parseGitHubUrl_bare_keeps_git_witness :
  GitHubService.parseGitHubUrl "https://github.com/acme/site.git" = inr ("acme", "site")
  /\ GitHubService.parseGitHubUrl "acme/site.git" = inr ("acme", "site.git").
Proof.
  apply (parseGitHubUrl_bare_keeps_git "acme" "site"); try reflexivity; discriminate.
Defined.

(** ** Repository validation ([validateRepository]) *)

Lemma parseGitHubUrl_error (repoUrl : string) (e : Js.Exn) :
  GitHubService.parseGitHubUrl repoUrl = inl e ->
  e = Js.Error ("Invalid GitHub repository URL: " +:+ repoUrl).
Proof.
  unfold GitHubService.parseGitHubUrl.
  destruct (GitHubService.firstMatch _ _); [discriminate|]. now intros [= <-].
Qed.

(** X6. A reference that does not parse never reaches GitHub: nothing is
    requested, and the error reads ['GitHub API error: Invalid GitHub
    repository URL: '] followed by the reference. *)
Theorem validateRepository_unparseable (up : Upstream) (token repoUrl : string)
    (e : Js.Exn) (tr : Trace) :
  GitHubService.parseGitHubUrl repoUrl = inl e ->
  GitHubService.validateRepository up token repoUrl tr
  = (Thrown (Js.Error ("GitHub API error: Invalid GitHub repository URL: " +:+ repoUrl)), tr).
Proof.
  intros Hp. pose proof (parseGitHubUrl_error repoUrl e Hp) as ->.
  unfold GitHubService.validateRepository. unfold_monad. now rewrite Hp.
Qed.

Lemma validateRepository_unparseable_witness :
  GitHubService.validateRepository Scenario.platform "gh" "invalid-url" []
  = (Thrown (Js.Error "GitHub API error: Invalid GitHub repository URL: invalid-url"), []).
Proof.
  apply (validateRepository_unparseable Scenario.platform "gh" "invalid-url"
           (Js.Error "Invalid GitHub repository URL: invalid-url")).
  reflexivity.
Defined.

Lemma validateRepository_rejected (up : Upstream) (token repoUrl o r : string)
    (e : Js.Exn) (tr : Trace) :
  GitHubService.parseGitHubUrl repoUrl = inr (o, r) ->
  reposGet up tr token o r = inl e ->
  GitHubService.validateRepository up token repoUrl tr
  = (Thrown
       (if decide (Js.status e = Some 404%Z) then
          Js.Error ("Repository not found or not accessible: " +:+ repoUrl)
        else if decide (Js.status e = Some 401%Z) then
          Js.Error "GitHub token is invalid or expired"
        else if decide (Js.status e = Some 403%Z) then
          Js.Error "GitHub token does not have permission to access this repository"
        else Js.Error ("GitHub API error: " +:+ Js.message e)),
     (tr ++ [ReposGet token o r])%list).
Proof.
  intros Hp Hg. unfold GitHubService.validateRepository. unfold_monad.
  rewrite Hp. cbn beta iota. rewrite Hg. cbn beta iota.
  repeat case_decide; reflexivity.
Qed.

Lemma validateRepository_found (up : Upstream) (token repoUrl o r : string)
    (data : RepoData) (tr : Trace) :
  GitHubService.parseGitHubUrl repoUrl = inr (o, r) ->
  reposGet up tr token o r = inr data ->
  GitHubService.validateRepository up token repoUrl tr
  = (Returned {| owner := owner_login data; repo := data_name data;
                 defaultBranch := default_branch data; isPrivate := private data;
                 fullName := full_name data; repoId := data_id data |},
     (tr ++ [ReposGet token o r])%list).
Proof.
  intros Hp Hg. unfold GitHubService.validateRepository. unfold_monad.
  rewrite Hp. cbn beta iota. now rewrite Hg.
Qed.

(** X7. A rejected repository lookup is reported by its status: 401 as an
    invalid or expired token, 403 as a missing permission, and any status
    other than 404, 401 and 403 (or none) as ['GitHub API error: '] followed
    by the rejection's own message. GitHub is asked exactly once. *)
Theorem validateRepository_api_errors (up : Upstream) (token repoUrl o r : string)
    (e : Js.Exn) (tr : Trace) :
  GitHubService.parseGitHubUrl repoUrl = inr (o, r) ->
  reposGet up tr token o r = inl e ->
  (Js.status e = Some 401%Z ->
   GitHubService.validateRepository up token repoUrl tr
   = (Thrown (Js.Error "GitHub token is invalid or expired"),
      (tr ++ [ReposGet token o r])%list))
  /\ (Js.status e = Some 403%Z ->
      GitHubService.validateRepository up token repoUrl tr
      = (Thrown (Js.Error "GitHub token does not have permission to access this repository"),
         (tr ++ [ReposGet token o r])%list))
  /\ (Js.status e <> Some 404%Z -> Js.status e <> Some 401%Z -> Js.status e <> Some 403%Z ->
      GitHubService.validateRepository up token repoUrl tr
      = (Thrown (Js.Error ("GitHub API error: " +:+ Js.message e)),
         (tr ++ [ReposGet token o r])%list)).
Proof.
  intros Hp Hg. rewrite (validateRepository_rejected up token repoUrl o r e tr Hp Hg).
  repeat apply conj.
  - intros Hs. rewrite Hs. reflexivity.
  - intros Hs. rewrite Hs. reflexivity.
  - intros H4 H1 H3. now rewrite !decide_False by assumption.
Qed.

Lemma validateRepository_api_errors_witness :
  GitHubService.validateRepository Cases.expiredToken "gh" "acme/site" []
  = (Thrown (Js.Error "GitHub token is invalid or expired"), [ReposGet "gh" "acme" "site"]).
Proof.
  destruct (validateRepository_api_errors Cases.expiredToken "gh" "acme/site" "acme" "site"
              {| Js.name := "HttpError"; Js.message := "Bad credentials";
                 Js.status := Some 401%Z |} [] eq_refl eq_refl) as (H & _).
  now apply H.
Defined.

Lemma append_cancel_l (a x y : string) : a +:+ x = a +:+ y -> x = y.
Proof.
  induction a as [|c a IH]; [trivial|].
  rewrite !append_cons. intros [= H]. exact (IH H).
Qed.

(** X8. Two references that parse to the same owner and repository are
    validated with the same single request. They get the same outcome, except
    when GitHub answers 404: that error names the reference as it was typed,
    so that the two outcomes are equal exactly when GitHub does not answer 404
    or the references are the same string. The repository information
    returned is taken from GitHub's answer, not from the reference. *)
Theorem validateRepository_same_reference (up : Upstream) (token u1 u2 o r : string)
    (tr : Trace) :
  GitHubService.parseGitHubUrl u1 = inr (o, r) ->
  GitHubService.parseGitHubUrl u2 = inr (o, r) ->
  snd (GitHubService.validateRepository up token u1 tr) = (tr ++ [ReposGet token o r])%list
  /\ snd (GitHubService.validateRepository up token u2 tr) = (tr ++ [ReposGet token o r])%list
  /\ (GitHubService.validateRepository up token u1 tr
        = GitHubService.validateRepository up token u2 tr
      <-> u1 = u2
          \/ forall e, reposGet up tr token o r = inl e -> Js.status e <> Some 404%Z)
  /\ (forall e,
        reposGet up tr token o r = inl e -> Js.status e = Some 404%Z ->
        fst (GitHubService.validateRepository up token u1 tr)
          = Thrown (Js.Error ("Repository not found or not accessible: " +:+ u1))
        /\ fst (GitHubService.validateRepository up token u2 tr)
           = Thrown (Js.Error ("Repository not found or not accessible: " +:+ u2)))
  /\ (forall data,
        reposGet up tr token o r = inr data ->
        exists info,
          GitHubService.validateRepository up token u1 tr
            = (Returned info, (tr ++ [ReposGet token o r])%list)
          /\ owner info = owner_login data /\ repo info = data_name data
          /\ fullName info = full_name data /\ defaultBranch info = default_branch data
          /\ repoId info = data_id data).
Proof.
  intros H1 H2.
  destruct (reposGet up tr token o r) as [e|data] eqn:Hg.
  - rewrite (validateRepository_rejected up token u1 o r e tr H1 Hg).
    rewrite (validateRepository_rejected up token u2 o r e tr H2 Hg).
    split; [reflexivity|]. split; [reflexivity|].
    destruct (decide (Js.status e = Some 404%Z)) as [H404|H404].
    + split; [|split; [|discriminate]].
      * split.
        -- intros [= H]. left. exact (append_cancel_l _ _ _ H).
        -- intros [->|H]; [reflexivity|]. now destruct (H e eq_refl).
      * intros e' _ _. now split.
    + split; [|split; [|discriminate]].
      * split; [|reflexivity]. intros _. right. now intros e' [= <-].
      * intros e' [= <-] H. now destruct H404.
  - rewrite (validateRepository_found up token u1 o r data tr H1 Hg).
    rewrite (validateRepository_found up token u2 o r data tr H2 Hg).
    split; [reflexivity|]. split; [reflexivity|]. split; [|split; [discriminate|]].
    + split; [|reflexivity]. intros _. right. discriminate.
    + intros data' [= <-]. eexists. split; [reflexivity|]. cbn. auto.
Qed.

Lemma validateRepository_same_reference_witness :
  GitHubService.validateRepository Scenario.platform "gh" "git@github.com:acme/site.git" []
  = GitHubService.validateRepository Scenario.platform "gh" "https://github.com/acme/site" [].
Proof.
  destruct (validateRepository_same_reference Scenario.platform "gh"
              "git@github.com:acme/site.git" "https://github.com/acme/site" "acme" "site"
              [] eq_refl eq_refl) as (_ & _ & Hsame & _).
  apply Hsame. right. discriminate.
Defined.

(** ** The deployment platform ([VercelService]) *)

Lemma includes_prepend (a s n : string) :
  Js.includes s n = true -> Js.includes (a +:+ s) n = true.
Proof.
  intros H. induction a as [|c a IH]; [exact H|].
  rewrite append_cons. cbn [Js.includes]. rewrite IH. apply orb_true_r.
Qed.

Lemma getProject_run (up : Upstream) (token projectName : string) (tr : Trace) :
  VercelService.getProject up token projectName tr
  = (match fetchGetProject up tr token projectName with
     | FetchRejected e =>
         if Js.includes (Js.message e) "404" then Returned None else Thrown e
     | FetchNotOk status statusText _ =>
         if (status =? 404)%Z then Returned None
         else if Js.includes ("HTTP " +:+ pretty status +:+ ": " +:+ statusText) "404"
              then Returned None
              else Thrown (Js.Error ("HTTP " +:+ pretty status +:+ ": " +:+ statusText))
     | FetchOk body => Returned (Some body)
     end, (tr ++ [GetProject token projectName])%list).
Proof.
  unfold VercelService.getProject. unfold_monad. cbn beta iota.
  destruct (fetchGetProject up tr token projectName) as [e|st text em|p]; cbn.
  - now destruct (Js.includes _ _).
  - destruct (st =? 404)%Z; [reflexivity|]. cbn. now destruct (Js.includes _ _).
  - reflexivity.
Qed.

(** X9. [getProject] reports a project as absent whenever the lookup
    mentions 404: on status 404, on a status text that contains ['404'], and
    on a rejection whose message contains ['404']. An error it throws never
    contains ['404'], and it returns a project only for an [ok] response. *)
Theorem getProject_absent (up : Upstream) (token projectName : string) (tr : Trace) :
  (forall statusText errorMessage,
     fetchGetProject up tr token projectName = FetchNotOk 404 statusText errorMessage ->
     fst (VercelService.getProject up token projectName tr) = Returned None)
  /\ (forall status statusText errorMessage,
        fetchGetProject up tr token projectName = FetchNotOk status statusText errorMessage ->
        Js.includes statusText "404" = true ->
        fst (VercelService.getProject up token projectName tr) = Returned None)
  /\ (forall e,
        fetchGetProject up tr token projectName = FetchRejected e ->
        Js.includes (Js.message e) "404" = true ->
        fst (VercelService.getProject up token projectName tr) = Returned None)
  /\ (forall e,
        fst (VercelService.getProject up token projectName tr) = Thrown e ->
        Js.includes (Js.message e) "404" = false)
  /\ (forall p,
        fst (VercelService.getProject up token projectName tr) = Returned (Some p) ->
        fetchGetProject up tr token projectName = FetchOk p).
Proof.
  rewrite getProject_run. cbn [fst]. repeat apply conj.
  - intros text em ->. reflexivity.
  - intros st text em -> Hi. destruct (st =? 404)%Z; [reflexivity|].
    assert (Js.includes ("HTTP " +:+ pretty st +:+ ": " +:+ text) "404" = true) as ->
      by (do 3 apply includes_prepend; exact Hi).
    reflexivity.
  - intros e -> Hi. now rewrite Hi.
  - intros e. destruct (fetchGetProject up tr token projectName) as [e0|st text em|p].
    + destruct (Js.includes (Js.message e0) "404") eqn:Hi; [discriminate|].
      now intros [= <-].
    + destruct (st =? 404)%Z; [discriminate|].
      destruct (Js.includes _ "404") eqn:Hi; [discriminate|]. now intros [= <-].
    + discriminate.
  - intros p. destruct (fetchGetProject up tr token projectName) as [e0|st text em|p0].
    + destruct (Js.includes _ _); discriminate.
    + destruct (st =? 404)%Z; [discriminate|]. destruct (Js.includes _ _); discriminate.
    + now intros [= ->].
Qed.

Lemma getProject_absent_witness :
  fst (VercelService.getProject Scenario.platform "vc" "acme-site" []) = Returned None.
Proof.
  destruct (getProject_absent Scenario.platform "vc" "acme-site" []) as (H & _).
  apply (H "Not Found" None). reflexivity.
Defined.

Lemma createProject_run (up : Upstream) (token projectName : string)
    (repoInfo : GitHubRepoInfo) (framework : string) (tr : Trace) :
  let looked := (tr ++ [GetProject token projectName])%list in
  let body := {| pd_name := projectName;
                 pd_gitRepository_repo := fullName repoInfo;
                 pd_framework := if String.eqb framework "static" then None
                                 else Some framework |} in
  VercelService.createProject up token projectName repoInfo framework tr
  = match fetchGetProject up tr token projectName with
    | FetchOk p => (Returned p, looked)
    | _ =>
        (match fetchPostProject up looked token body with
         | FetchRejected e =>
             Thrown (Js.Error ("Failed to create Vercel project: " +:+ Js.message e))
         | FetchNotOk _ statusText errorMessage =>
             Thrown (Js.Error ("Failed to create Vercel project: Vercel API error: "
                               +:+ Js.orElse errorMessage statusText))
         | FetchOk p => Returned p
         end, (looked ++ [PostProject token body])%list)
    end.
Proof.
  intros looked body. unfold VercelService.createProject.
  unfold tryCatch at 1 2, bind at 1. rewrite getProject_run.
  destruct (fetchGetProject up tr token projectName) as [e|st text em|p].
  - destruct (Js.includes (Js.message e) "404"); unfold_monad; cbn;
      fold looked; fold body; destruct (fetchPostProject up looked token body); reflexivity.
  - destruct (st =? 404)%Z; [|destruct (Js.includes _ "404")]; unfold_monad; cbn;
      fold looked; fold body; destruct (fetchPostProject up looked token body); reflexivity.
  - reflexivity.
Qed.

(** X10. Provisioning is idempotent on the name: when the lookup finds a
    project, [createProject] returns it unchanged and sends no create request,
    whatever the repository and the framework. *)
Theorem createProject_reuses (up : Upstream) (token projectName : string)
    (repoInfo : GitHubRepoInfo) (framework : string) (tr : Trace) (p : VercelProject) :
  fetchGetProject up tr token projectName = FetchOk p ->
  VercelService.createProject up token projectName repoInfo framework tr
  = (Returned p, (tr ++ [GetProject token projectName])%list).
Proof. intros H. rewrite createProject_run. now rewrite H. Qed.

Lemma createProject_reuses_witness :
  VercelService.createProject Cases.existingProject "vc" "acme-site" Scenario.acmeInfo
    "nextjs" []
  = (Returned (Scenario.projectNamed "acme-site"), [GetProject "vc" "acme-site"]).
Proof.
  apply (createProject_reuses Cases.existingProject "vc" "acme-site" Scenario.acmeInfo
           "nextjs" [] (Scenario.projectNamed "acme-site")).
  reflexivity.
Defined.

(** X11. Any lookup that does not find a project, be it a 404, another
    failure or a rejected request, is followed by exactly one create request
    for that name, linked to the repository's full name; the framework
    ['static'] is sent as no preset and any other framework as itself. The
    outcome of [createProject] is then the one of the create request. *)
Theorem createProject_creates (up : Upstream) (token projectName : string)
    (repoInfo : GitHubRepoInfo) (framework : string) (tr : Trace) :
  (forall p, fetchGetProject up tr token projectName <> FetchOk p) ->
  exists body,
    snd (VercelService.createProject up token projectName repoInfo framework tr)
      = (tr ++ [GetProject token projectName; PostProject token body])%list
    /\ pd_name body = projectName
    /\ pd_gitRepository_repo body = fullName repoInfo
    /\ (framework = "static" -> pd_framework body = None)
    /\ (framework <> "static" -> pd_framework body = Some framework)
    /\ (forall p,
          fetchPostProject up (tr ++ [GetProject token projectName])%list token body
            = FetchOk p ->
          fst (VercelService.createProject up token projectName repoInfo framework tr)
            = Returned p)
    /\ (forall p,
          fst (VercelService.createProject up token projectName repoInfo framework tr)
            = Returned p ->
          fetchPostProject up (tr ++ [GetProject token projectName])%list token body
            = FetchOk p).
Proof.
  intros Hno. rewrite createProject_run. cbn zeta.
  destruct (fetchGetProject up tr token projectName) as [e|st text em|p0] eqn:Hg;
    [| |now destruct (Hno p0)];
    (eexists; split; [cbn [snd]; rewrite <- app_assoc; reflexivity|];
     cbn [pd_name pd_gitRepository_repo pd_framework fst];
     split; [reflexivity|]; split; [reflexivity|];
     split; [intros ->; reflexivity|];
     split; [intros Hf; apply String.eqb_neq in Hf; now rewrite Hf|];
     split; [intros p ->; reflexivity|];
     intros p; destruct (fetchPostProject up _ token _); try discriminate;
     now intros [= ->]).
Qed.

Lemma createProject_creates_witness :
  exists body,
    snd (VercelService.createProject Cases.flaky "vc" "acme-site" Scenario.acmeInfo
           "static" [])
      = [GetProject "vc" "acme-site"; PostProject "vc" body]
    /\ pd_framework body = None
    /\ fst (VercelService.createProject Cases.flaky "vc" "acme-site" Scenario.acmeInfo
              "static" [])
       = Returned (Scenario.projectNamed "acme-site").
Proof.
  destruct (createProject_creates Cases.flaky "vc" "acme-site" Scenario.acmeInfo "static" [])
    as (body & Htr & Hname & _ & Hstatic & _ & Hok & _); [discriminate|].
  exists body. split; [exact Htr|]. split; [now apply Hstatic|].
  apply Hok. injection Htr as <-. reflexivity.
Defined.

Lemma createDeployment_run (up : Upstream) (token : string) (project : VercelProject)
    (repoInfo : GitHubRepoInfo) (tr : Trace) :
  let body := {| dd_name := project_name project;
                 dd_project := project_id project;
                 dd_gitSource_repo := fullName repoInfo;
                 dd_gitSource_ref := defaultBranch repoInfo;
                 dd_gitSource_repoId := repoId repoInfo |} in
  VercelService.createDeployment up token project repoInfo tr
  = (match fetchPostDeployment up tr token body with
     | FetchRejected e =>
         Thrown (Js.Error ("Failed to create deployment: " +:+ Js.message e))
     | FetchNotOk _ statusText errorMessage =>
         Thrown (Js.Error ("Failed to create deployment: Vercel deployment error: "
                           +:+ Js.orElse errorMessage statusText))
     | FetchOk d => Returned d
     end, (tr ++ [PostDeployment token body])%list).
Proof.
  intros body. unfold VercelService.createDeployment. unfold_monad. cbn beta iota zeta.
  fold body. destruct (fetchPostDeployment up tr token body); reflexivity.
Qed.

Lemma vercel_getDeploymentStatus_run (up : Upstream) (token : string)
    (deploymentId : Js.Value) (tr : Trace) :
  VercelService.getDeploymentStatus up token deploymentId tr
  = (match fetchGetDeployment up tr token deploymentId with
     | FetchRejected e =>
         Thrown (Js.Error ("Failed to get deployment status: " +:+ Js.message e))
     | FetchNotOk _ statusText errorMessage =>
         Thrown (Js.Error ("Failed to get deployment status: Vercel API error: "
                           +:+ Js.orElse errorMessage statusText))
     | FetchOk d => Returned d
     end, (tr ++ [GetDeployment token deploymentId])%list).
Proof.
  unfold VercelService.getDeploymentStatus. unfold_monad. cbn beta iota.
  destruct (fetchGetDeployment up tr token deploymentId); reflexivity.
Qed.

(** X12. When the platform refuses a deployment or a status request, the
    error carries the platform's own error message, and the HTTP status text
    when the response body has no message or an empty one. *)
Theorem platform_refusal_text (up : Upstream) (token : string) (tr : Trace)
    (status : Z) (statusText : string) (errorMessage : option string) :
  (forall project repoInfo,
     fetchPostDeployment up tr token
       {| dd_name := project_name project; dd_project := project_id project;
          dd_gitSource_repo := fullName repoInfo; dd_gitSource_ref := defaultBranch repoInfo;
          dd_gitSource_repoId := repoId repoInfo |}
       = FetchNotOk status statusText errorMessage ->
     exists text,
       fst (VercelService.createDeployment up token project repoInfo tr)
         = Thrown (Js.Error ("Failed to create deployment: Vercel deployment error: " +:+ text))
       /\ (forall m, errorMessage = Some m -> m <> "" -> text = m)
       /\ (errorMessage = None \/ errorMessage = Some "" -> text = statusText))
  /\ (forall deploymentId,
        fetchGetDeployment up tr token deploymentId
          = FetchNotOk status statusText errorMessage ->
        exists text,
          fst (VercelService.getDeploymentStatus up token deploymentId tr)
            = Thrown (Js.Error ("Failed to get deployment status: Vercel API error: " +:+ text))
          /\ (forall m, errorMessage = Some m -> m <> "" -> text = m)
          /\ (errorMessage = None \/ errorMessage = Some "" -> text = statusText)).
Proof.
  assert (forall m, errorMessage = Some m -> m <> "" -> Js.orElse errorMessage statusText = m)
    as Hsome.
  { intros m -> Hm. cbn. apply nonEmpty_true in Hm. now rewrite Hm. }
  assert (errorMessage = None \/ errorMessage = Some "" ->
          Js.orElse errorMessage statusText = statusText) as Hnone.
  { intros [-> | ->]; reflexivity. }
  split.
  - intros project repoInfo Hf. rewrite createDeployment_run. cbn zeta. rewrite Hf.
    exists (Js.orElse errorMessage statusText). auto.
  - intros deploymentId Hf. rewrite vercel_getDeploymentStatus_run, Hf.
    exists (Js.orElse errorMessage statusText). auto.
Qed.

Lemma platform_refusal_text_witness :
  fst (VercelService.createDeployment Cases.flaky "vc" (Scenario.projectNamed "acme-site")
         Scenario.acmeInfo [])
  = Thrown (Js.Error "Failed to create deployment: Vercel deployment error: Payment Required").
Proof.
  destruct (platform_refusal_text Cases.flaky "vc" [] 402 "Payment Required" (Some ""))
    as (H & _).
  destruct (H (Scenario.projectNamed "acme-site") Scenario.acmeInfo eq_refl)
    as (text & -> & _ & Htext).
  now rewrite Htext by auto.
Defined.

(** X13. Every error of the status flow names the operation twice: its
    message starts with ['Failed to get deployment status: Failed to get
    deployment status: ']. *)
Theorem status_error_prefix (up : Upstream) (token : string) (deploymentId : Js.Value)
    (tr tr' : Trace) (e : Js.Exn) :
  DeploymentService.getDeploymentStatus up token deploymentId tr = (Thrown e, tr') ->
  exists inner,
    Js.message e
    = "Failed to get deployment status: Failed to get deployment status: " +:+ inner.
Proof.
  unfold DeploymentService.getDeploymentStatus. unfold tryCatch at 1, bind at 1.
  rewrite vercel_getDeploymentStatus_run.
  destruct (fetchGetDeployment up tr token deploymentId) as [e0|st text em|d];
    unfold_monad; intros [= <- _]; eexists; reflexivity.
Qed.

Lemma status_error_prefix_witness :
  exists e inner,
    DeploymentService.getDeploymentStatus Scenario.platform "vc" (Js.Str "dpl_9") []
      = (Thrown e, [GetDeployment "vc" (Js.Str "dpl_9")])
    /\ Js.message e
       = "Failed to get deployment status: Failed to get deployment status: " +:+ inner.
Proof.
  eexists.
  destruct (status_error_prefix Scenario.platform "vc" (Js.Str "dpl_9") []
              [GetDeployment "vc" (Js.Str "dpl_9")] _ eq_refl) as (inner & H).
  exists inner. split; [reflexivity|exact H].
Defined.

(** ** The deploy flow ([deployRepository]) *)

Lemma deployRepository_run (up : Upstream) (tokens : TokenPair)
    (params : DeployRepoParams) (tr : Trace) :
  DeploymentService.deployRepository up tokens params tr
  = match GitHubService.validateRepository up (githubToken tokens) (repoUrl params) tr with
    | (Thrown e, tr1) => (Thrown (Js.Error ("Deployment failed: " +:+ Js.message e)), tr1)
    | (Returned info, tr1) =>
        match VercelService.createProject up (vercelToken tokens)
                (DeploymentService.generateProjectName info (projectName params)) info
                (Js.orElse (framework params) "static") tr1 with
        | (Thrown e, tr2) => (Thrown (Js.Error ("Deployment failed: " +:+ Js.message e)), tr2)
        | (Returned proj, tr2) =>
            match VercelService.createDeployment up (vercelToken tokens) proj info tr2 with
            | (Thrown e, tr3) =>
                (Thrown (Js.Error ("Deployment failed: " +:+ Js.message e)), tr3)
            | (Returned dep, tr3) =>
                (Returned {| deployment := dep; project := proj;
                             result_message :=
                               "Successfully initiated deployment of "
                               +:+ fullName info +:+ " to Vercel" |}, tr3)
            end
        end
    end.
Proof.
  unfold DeploymentService.deployRepository. unfold_monad. cbn beta.
  destruct (GitHubService.validateRepository up _ _ tr) as [[info|e] tr1]; [|reflexivity].
  destruct (VercelService.createProject up _ _ info _ tr1) as [[proj|e] tr2]; [|reflexivity].
  destruct (VercelService.createDeployment up _ proj info tr2) as [[dep|e] tr3]; reflexivity.
Qed.

Lemma validateRepository_run (up : Upstream) (token repoUrl : string) (tr : Trace) :
  GitHubService.validateRepository up token repoUrl tr
  = match GitHubService.parseGitHubUrl repoUrl with
    | inl _ =>
        (Thrown (Js.Error ("GitHub API error: Invalid GitHub repository URL: " +:+ repoUrl)),
         tr)
    | inr (o, r) =>
        (match reposGet up tr token o r with
         | inl e =>
             Thrown
               (if decide (Js.status e = Some 404%Z) then
                  Js.Error ("Repository not found or not accessible: " +:+ repoUrl)
                else if decide (Js.status e = Some 401%Z) then
                  Js.Error "GitHub token is invalid or expired"
                else if decide (Js.status e = Some 403%Z) then
                  Js.Error "GitHub token does not have permission to access this repository"
                else Js.Error ("GitHub API error: " +:+ Js.message e))
         | inr data =>
             Returned {| owner := owner_login data; repo := data_name data;
                         defaultBranch := default_branch data; isPrivate := private data;
                         fullName := full_name data; repoId := data_id data |}
         end, (tr ++ [ReposGet token o r])%list)
    end.
Proof.
  destruct (GitHubService.parseGitHubUrl repoUrl) as [e|[o r]] eqn:Hp.
  - pose proof (parseGitHubUrl_error repoUrl e Hp) as ->.
    unfold GitHubService.validateRepository. unfold_monad. now rewrite Hp.
  - destruct (reposGet up tr token o r) as [e|data] eqn:Hg.
    + now apply validateRepository_rejected.
    + now apply validateRepository_found.
Qed.

Lemma validateRepository_thrown (up : Upstream) (token repoUrl : string)
    (tr tr' : Trace) (e : Js.Exn) :
  GitHubService.validateRepository up token repoUrl tr = (Thrown e, tr') ->
  Js.message e = "Repository not found or not accessible: " +:+ repoUrl
  \/ Js.message e = "GitHub token is invalid or expired"
  \/ Js.message e = "GitHub token does not have permission to access this repository"
  \/ exists inner, Js.message e = "GitHub API error: " +:+ inner.
Proof.
  rewrite validateRepository_run.
  destruct (GitHubService.parseGitHubUrl repoUrl) as [e0|[o r]].
  { intros [= <- _]. do 3 right. eexists. reflexivity. }
  destruct (reposGet up tr token o r) as [e0|data]; [|discriminate].
  intros [= <- _]. repeat case_decide; cbn [Js.message Js.Error]; eauto.
Qed.

Lemma createProject_thrown (up : Upstream) (token projectName : string)
    (repoInfo : GitHubRepoInfo) (framework : string) (tr tr' : Trace) (e : Js.Exn) :
  VercelService.createProject up token projectName repoInfo framework tr = (Thrown e, tr') ->
  exists inner, Js.message e = "Failed to create Vercel project: " +:+ inner.
Proof.
  rewrite createProject_run. cbn zeta.
  destruct (fetchGetProject up tr token projectName) as [e1|st1 text1 em1|p1];
    [| |discriminate].
  all: match goal with
       | |- context [fetchPostProject ?u ?t ?k ?b] =>
           destruct (fetchPostProject u t k b) as [e2|st2 text2 em2|p2]
       end; try discriminate; intros [= <- _]; eexists; reflexivity.
Qed.

Lemma createDeployment_thrown (up : Upstream) (token : string) (project : VercelProject)
    (repoInfo : GitHubRepoInfo) (tr tr' : Trace) (e : Js.Exn) :
  VercelService.createDeployment up token project repoInfo tr = (Thrown e, tr') ->
  exists inner, Js.message e = "Failed to create deployment: " +:+ inner.
Proof.
  rewrite createDeployment_run. cbn zeta.
  match goal with
  | |- context [fetchPostDeployment ?u ?t ?k ?b] =>
      destruct (fetchPostDeployment u t k b) as [e3|st3 text3 em3|d3]
  end; try discriminate; intros [= <- _]; eexists; reflexivity.
Qed.

Lemma prefix_empty (s : string) : String.prefix "" s = true.
Proof. now destruct s. Qed.

Ltac names_step :=
  unfold Terms.namedStep, Js.startsWith; cbv [String.append]; cbn;
  rewrite ?prefix_empty; reflexivity.

(** X14. The message of every error of the deploy flow is
    ['Deployment failed: '] followed by the message of the step that failed,
    and it identifies that step: the step can be read off the message alone
    ([Terms.namedStep]). A GitHub message means that the validation threw,
    ['Failed to create Vercel project: '] that the validation returned and the
    provisioning threw, and ['Failed to create deployment: '] that both
    returned and the trigger threw. *)
Theorem deploy_error_catalogue (up : Upstream) (tokens : TokenPair)
    (params : DeployRepoParams) (tr tr' : Trace) (e : Js.Exn) :
  DeploymentService.deployRepository up tokens params tr = (Thrown e, tr') ->
  exists step failed,
    Js.message e = "Deployment failed: " +:+ step
    /\ Terms.namedStep (Js.message e) = Some failed
    /\ match failed with
       | Terms.Validation =>
           (exists e0,
              GitHubService.validateRepository up (githubToken tokens) (repoUrl params) tr
                = (Thrown e0, tr')
              /\ Js.message e0 = step)
           /\ (step = "Repository not found or not accessible: " +:+ repoUrl params
               \/ step = "GitHub token is invalid or expired"
               \/ step = "GitHub token does not have permission to access this repository"
               \/ exists inner, step = "GitHub API error: " +:+ inner)
       | Terms.Provisioning =>
           (exists info tr1 e0,
              GitHubService.validateRepository up (githubToken tokens) (repoUrl params) tr
                = (Returned info, tr1)
              /\ VercelService.createProject up (vercelToken tokens)
                   (DeploymentService.generateProjectName info (projectName params)) info
                   (Js.orElse (framework params) "static") tr1
                 = (Thrown e0, tr')
              /\ Js.message e0 = step)
           /\ exists inner, step = "Failed to create Vercel project: " +:+ inner
       | Terms.Trigger =>
           (exists info tr1 proj tr2 e0,
              GitHubService.validateRepository up (githubToken tokens) (repoUrl params) tr
                = (Returned info, tr1)
              /\ VercelService.createProject up (vercelToken tokens)
                   (DeploymentService.generateProjectName info (projectName params)) info
                   (Js.orElse (framework params) "static") tr1
                 = (Returned proj, tr2)
              /\ VercelService.createDeployment up (vercelToken tokens) proj info tr2
                 = (Thrown e0, tr')
              /\ Js.message e0 = step)
           /\ exists inner, step = "Failed to create deployment: " +:+ inner
       end.
Proof.
  rewrite deployRepository_run.
  destruct (GitHubService.validateRepository up _ _ tr) as [[info|e0] tr1] eqn:Hval.
  2: { intros [= <- <-]. exists (Js.message e0), Terms.Validation.
       pose proof (validateRepository_thrown _ _ _ _ _ _ Hval) as Hshape.
       split; [reflexivity|]. split; [|split; [now exists e0|exact Hshape]].
       cbn [Js.message Js.Error].
       destruct Hshape as [-> |[-> |[-> |[inner ->]]]]; names_step. }
  destruct (VercelService.createProject up _ _ info _ tr1) as [[proj|e1] tr2] eqn:Hcp.
  2: { intros [= <- <-]. exists (Js.message e1), Terms.Provisioning.
       destruct (createProject_thrown _ _ _ _ _ _ _ _ Hcp) as [inner Hinner].
       split; [reflexivity|]. split; [|split; [now exists info, tr1, e1|now exists inner]].
       cbn [Js.message Js.Error]. rewrite Hinner. names_step. }
  destruct (VercelService.createDeployment up _ proj info tr2) as [[dep|e2] tr3] eqn:Hcd;
    [discriminate|].
  intros [= <- <-]. exists (Js.message e2), Terms.Trigger.
  destruct (createDeployment_thrown _ _ _ _ _ _ _ Hcd) as [inner Hinner].
  split; [reflexivity|]. split; [|split; [now exists info, tr1, proj, tr2, e2|now exists inner]].
  cbn [Js.message Js.Error]. rewrite Hinner. names_step.
Qed.

Lemma deploy_error_catalogue_witness :
  exists e step,
    DeploymentService.deployRepository Cases.flaky
      {| githubToken := "gh"; vercelToken := "vc" |}
      {| repoUrl := "https://github.com/acme/site"; projectName := None; framework := None |} []
    = (Thrown e,
       [ReposGet "gh" "acme" "site"; GetProject "vc" "acme-site";
        PostProject "vc" {| pd_name := "acme-site"; pd_gitRepository_repo := "Acme/Site";
                            pd_framework := None |};
        PostDeployment "vc" {| dd_name := "acme-site"; dd_project := "prj_1";
                               dd_gitSource_repo := "Acme/Site"; dd_gitSource_ref := "main";
                               dd_gitSource_repoId := 4242 |}])
    /\ Js.message e = "Deployment failed: " +:+ step
    /\ Terms.namedStep (Js.message e) = Some Terms.Trigger.
Proof.
  eexists.
  match goal with
  | |- exists step, ?run = (Thrown ?e, ?t) /\ _ =>
      destruct (deploy_error_catalogue Cases.flaky
                  {| githubToken := "gh"; vercelToken := "vc" |}
                  {| repoUrl := "https://github.com/acme/site"; projectName := None;
                     framework := None |} [] t e eq_refl) as (step & failed & Hm & Hs & _)
  end.
  exists step. split; [reflexivity|]. split; [exact Hm|reflexivity].
Defined.

Ltac decide_now := apply (bool_decide_unpack _); vm_compute; exact I.

(** The places of a list of at most four calls. *)
Lemma split_short {A} (pre post : list A) (c : A) (l : list A) :
  l = (pre ++ c :: post)%list -> (length l <= 4)%nat ->
  (pre = [] /\ l = c :: post)
  \/ (exists a, pre = [a] /\ l = a :: c :: post)
  \/ (exists a b, pre = [a; b] /\ l = a :: b :: c :: post)
  \/ (exists a b d, pre = [a; b; d] /\ l = a :: b :: d :: c :: post).
Proof.
  intros -> Hlen.
  destruct pre as [|a [|b [|d [|x pre]]]]; cbn [app]; eauto 8.
  exfalso. cbn [app length] in Hlen. rewrite length_app in Hlen. cbn in Hlen. lia.
Qed.

(** The answer to a call at a known place of the calls made. *)
Ltac answer_at Hg :=
  unfold Terms.granted in Hg; rewrite ?app_nil_r in Hg;
  match type of Hg with
  | match ?X with _ => _ end = _ =>
      match goal with
      | H : ?f = _ |- _ =>
          lazymatch H with
          | Hg => fail
          | _ => change X with f in Hg; rewrite H in Hg
          end
      end
  end.

Ltac at_each_place :=
  let pre := fresh "pre" in let c := fresh "c" in let post := fresh "post" in
  let Heq := fresh "Heq" in let Hg := fresh "Hg" in
  intros pre c post Heq Hg;
  apply split_short in Heq; [|cbn; lia];
  destruct Heq as [[-> Heq]|[(? & -> & Heq)|[(? & ? & -> & Heq)|(? & ? & ? & -> & Heq)]]];
  simplify_eq; answer_at Hg; try discriminate Hg; eauto.

Ltac flow_cases :=
  repeat match goal with
         | H : _ = _ |- _ =>
             progress (rewrite <- ?app_assoc in H; cbn [app] in H)
         end;
  split; [at_each_place|];
  split; [at_each_place|];
  split;
  [ intros [result Hr];
    first
      [ discriminate Hr
      | match goal with
        | |- exists pre body, ?l = _ /\ _ => exists (removelast l)
        end;
        cbn [removelast]; eexists; split; [reflexivity|];
        match goal with
        | H : fetchPostDeployment _ _ _ _ = FetchOk _ |- _ =>
            cbn [Terms.granted]; rewrite H; reflexivity
        end ]
  | intros (pre & body & Heq & Hg);
    apply split_short in Heq; [|cbn; lia];
    destruct Heq as [[-> Heq]|[(? & -> & Heq)|[(? & ? & -> & Heq)|(? & ? & ? & -> & Heq)]]];
    simplify_eq; answer_at Hg; try discriminate Hg; eexists; reflexivity ].

(** X15. The deploy flow calls upstream in a fixed order: GitHub's repository
    lookup, then the project lookup, then the project creation, then the
    deployment. It stops at the first call that fails, the project lookup
    apart: a failed repository lookup, project creation or deployment is the
    last call. The project creation follows the project lookup exactly when
    the lookup found nothing; when it found a project, the deployment follows
    at once. A result is returned exactly when the deployment request was
    granted, and it is the last call then. Every call to GitHub carries the
    GitHub token and every call to the platform the Vercel token. *)
Theorem deploy_call_sequence (up : Upstream) (tokens : TokenPair)
    (params : DeployRepoParams) (tr : Trace) :
  exists added,
    snd (DeploymentService.deployRepository up tokens params tr) = (tr ++ added)%list
    /\ (Spec.endpoint <$> added) ∈ Terms.deploySequences
    /\ Forall (fun c => Terms.callToken c = Terms.designatedToken tokens (Spec.endpoint c))
         added
    /\ (forall pre c post,
          added = (pre ++ c :: post)%list ->
          Terms.granted up (tr ++ pre)%list c = false ->
          match c with
          | GetProject _ _ => exists body rest, post = PostProject (vercelToken tokens) body :: rest
          | _ => post = []
          end)
    /\ (forall pre c post,
          added = (pre ++ c :: post)%list ->
          Terms.granted up (tr ++ pre)%list c = true ->
          match c with
          | ReposGet _ _ _ => exists n rest, post = GetProject (vercelToken tokens) n :: rest
          | GetProject _ _ | PostProject _ _ =>
              exists body, post = [PostDeployment (vercelToken tokens) body]
          | PostDeployment _ _ => post = []
          | GetDeployment _ _ => False
          end)
    /\ ((exists result,
           fst (DeploymentService.deployRepository up tokens params tr) = Returned result)
        <-> exists pre body,
              added = (pre ++ [PostDeployment (vercelToken tokens) body])%list
              /\ Terms.granted up (tr ++ pre)%list
                   (PostDeployment (vercelToken tokens) body) = true).
Proof.
  rewrite deployRepository_run, validateRepository_run.
  destruct (GitHubService.parseGitHubUrl (repoUrl params)) as [e0|[o r]].
  { exists []. cbn [snd fst]. rewrite app_nil_r.
    split; [reflexivity|]. split; [decide_now|]. split; [constructor|].
    split; [intros [|? ?] ? ? ?; discriminate|].
    split; [intros [|? ?] ? ? ?; discriminate|].
    split; [intros [? ?]; discriminate|intros ([|? ?] & ? & ? & _); discriminate]. }
  destruct (reposGet up tr (githubToken tokens) o r) as [e0|data] eqn:H0.
  { eexists. cbn [snd fst]. split; [reflexivity|].
    split; [decide_now|]. split; [repeat constructor|]. flow_cases. }
  rewrite createProject_run. cbn zeta.
  match goal with
  | |- context [fetchGetProject up ?t ?k ?n] =>
      destruct (fetchGetProject up t k n) as [e1|st1 text1 em1|p1] eqn:H1
  end.
  1,2: match goal with
       | |- context [fetchPostProject ?u ?t ?k ?b] =>
           destruct (fetchPostProject u t k b) as [e2|st2 text2 em2|p2] eqn:H2
       end.
  1,2,4,5: eexists; cbn [snd fst]; rewrite <- !app_assoc; cbn [app];
           (split; [reflexivity|]); (split; [decide_now|]);
           (split; [repeat constructor|]); flow_cases.
  all: rewrite createDeployment_run; cbn zeta;
    match goal with
    | |- context [fetchPostDeployment ?u ?t ?k ?b] =>
        destruct (fetchPostDeployment u t k b) as [e3|st3 text3 em3|d3] eqn:H3
    end;
    eexists; cbn [snd fst]; rewrite <- !app_assoc; cbn [app];
    (split; [reflexivity|]); (split; [decide_now|]);
    (split; [repeat constructor|]); flow_cases.
Qed.

(** X16. The project is looked up under the name resolved from GitHub's
    answer: without a custom name (or with an empty one) that is the
    lowercased [<login>-<name>] of the repository as GitHub reports it,
    whatever the spelling in the reference. *)
Theorem deploy_default_project_name (up : Upstream) (tokens : TokenPair)
    (params : DeployRepoParams) (tr : Trace) (o r : string) (data : RepoData) :
  GitHubService.parseGitHubUrl (repoUrl params) = inr (o, r) ->
  reposGet up tr (githubToken tokens) o r = inr data ->
  projectName params = None \/ projectName params = Some "" ->
  exists rest,
    snd (DeploymentService.deployRepository up tokens params tr)
    = (tr ++ ReposGet (githubToken tokens) o r
          :: GetProject (vercelToken tokens)
               (Js.toLowerCase (owner_login data +:+ "-" +:+ data_name data))
          :: rest)%list.
Proof.
  intros Hp Hg Hname.
  rewrite deployRepository_run, validateRepository_run, Hp, Hg.
  assert (DeploymentService.generateProjectName
            {| owner := owner_login data; repo := data_name data;
               defaultBranch := default_branch data; isPrivate := private data;
               fullName := full_name data; repoId := data_id data |} (projectName params)
          = Js.toLowerCase (owner_login data +:+ "-" +:+ data_name data)) as ->
    by (destruct Hname as [-> | ->]; reflexivity).
  rewrite createProject_run. cbn zeta.
  match goal with
  | |- context [fetchGetProject up ?t ?k ?n] =>
      destruct (fetchGetProject up t k n) as [e1|st1 text1 em1|p1]
  end.
  1,2: match goal with
       | |- context [fetchPostProject ?u ?t ?k ?b] =>
           destruct (fetchPostProject u t k b) as [e2|st2 text2 em2|p2]
       end.
  1,2,4,5: eexists; cbn [snd]; rewrite <- !app_assoc; reflexivity.
  all: rewrite createDeployment_run; cbn zeta;
    match goal with
    | |- context [fetchPostDeployment ?u ?t ?k ?b] =>
        destruct (fetchPostDeployment u t k b) as [e3|st3 text3 em3|d3]
    end;
    eexists; cbn [snd]; rewrite <- !app_assoc; reflexivity.
Qed.

Lemma deploy_default_project_name_witness :
  exists rest,
    snd (DeploymentService.deployRepository Scenario.platform
           {| githubToken := "gh"; vercelToken := "vc" |}
           {| repoUrl := "git@github.com:acme/site.git"; projectName := Some "";
              framework := None |} [])
    = ReposGet "gh" "acme" "site" :: GetProject "vc" "acme-site" :: rest.
Proof.
  apply (deploy_default_project_name Scenario.platform
           {| githubToken := "gh"; vercelToken := "vc" |}
           {| repoUrl := "git@github.com:acme/site.git"; projectName := Some "";
              framework := None |} [] "acme" "site" Scenario.acmeSite);
    [reflexivity|reflexivity|now right].
Defined.

Lemma deploy_call_sequence_witness :
  exists added body,
    snd (DeploymentService.deployRepository Scenario.platform
           {| githubToken := "gh"; vercelToken := "vc" |}
           {| repoUrl := "https://github.com/acme/site"; projectName := None;
              framework := None |} []) = added
    /\ last added = Some (PostDeployment "vc" body).
Proof.
  destruct (deploy_call_sequence Scenario.platform
              {| githubToken := "gh"; vercelToken := "vc" |}
              {| repoUrl := "https://github.com/acme/site"; projectName := None;
                 framework := None |} []) as (added & Htr & _ & _ & _ & _ & Hret).
  destruct (proj1 Hret (ex_intro _ _ eq_refl)) as (pre & body & Heq & _).
  exists added, body. split; [exact Htr|]. rewrite Heq. apply last_snoc.
Defined.

(** ** Credentials *)

Lemma split_parts_free (sep : ascii) (s : string) :
  Forall (fun part => Js.every (fun c => negb (Ascii.eqb c sep)) part = true)
    (Js.split sep s).
Proof.
  induction s as [|c s IH]; [repeat constructor|].
  cbn [Js.split]. destruct (Ascii.eqb c sep) eqn:Hc.
  - constructor; [reflexivity|exact IH].
  - destruct (Js.split sep s) as [|part parts]; [repeat constructor; cbn; now rewrite Hc|].
    inversion IH as [|? ? Hpart Hparts]; subst.
    constructor; [cbn; now rewrite Hc, Hpart|exact Hparts].
Qed.

Lemma every_trimStart (p : ascii -> bool) (s : string) :
  Js.every p s = true -> Js.every p (Js.trimStart s) = true.
Proof.
  induction s as [|c s IH]; [reflexivity|].
  intros H. cbn [Js.trimStart]. destruct (Js.isWhiteSpace c); [|exact H].
  cbn [Js.every] in H. apply andb_prop in H as [_ H]. now apply IH.
Qed.

Lemma every_trimEnd (p : ascii -> bool) (s : string) :
  Js.every p s = true -> Js.every p (Js.trimEnd s) = true.
Proof.
  induction s as [|c s IH]; [reflexivity|].
  cbn [Js.every]. intros [Hc Hs]%andb_prop. cbn [Js.trimEnd]. specialize (IH Hs).
  destruct (Js.trimEnd s) as [|c' t].
  - destruct (Js.isWhiteSpace c); [reflexivity|]. cbn. now rewrite Hc.
  - change (p c && Js.every p (String c' t) = true). now rewrite Hc, IH.
Qed.

Lemma trimEnd_idempotent (s : string) : Js.trimEnd (Js.trimEnd s) = Js.trimEnd s.
Proof.
  induction s as [|c s IH]; [reflexivity|].
  cbn [Js.trimEnd]. destruct (Js.trimEnd s) as [|c' t] eqn:Ht.
  - destruct (Js.isWhiteSpace c) eqn:Hc; [reflexivity|]. cbn. now rewrite Hc.
  - change (Js.trimEnd (String c (String c' t))) with
      (match Js.trimEnd (String c' t) with
       | EmptyString => if Js.isWhiteSpace c then EmptyString else String c EmptyString
       | t' => String c t'
       end).
    now rewrite IH.
Qed.

Lemma trimStart_head (s : string) : Terms.headIsSpace (Js.trimStart s) = false.
Proof.
  induction s as [|c s IH]; [reflexivity|].
  cbn [Js.trimStart]. destruct (Js.isWhiteSpace c) eqn:Hc; [exact IH|exact Hc].
Qed.

Lemma trimStart_fixed (s : string) : Terms.headIsSpace s = false -> Js.trimStart s = s.
Proof. destruct s as [|c s]; [reflexivity|]. cbn. now intros ->. Qed.

Lemma trimEnd_head (s : string) : Terms.headIsSpace s = false -> Terms.headIsSpace (Js.trimEnd s) = false.
Proof.
  destruct s as [|c s]; [reflexivity|]. cbn [Terms.headIsSpace Js.trimEnd]. intros Hc.
  destruct (Js.trimEnd s); [rewrite Hc|]; cbn; auto.
Qed.

Lemma trim_idempotent (s : string) : Js.trim (Js.trim s) = Js.trim s.
Proof.
  unfold Js.trim.
  rewrite (trimStart_fixed (Js.trimEnd (Js.trimStart s)))
    by apply trimEnd_head, trimStart_head.
  apply trimEnd_idempotent.
Qed.

Lemma every_trim (p : ascii -> bool) (s : string) :
  Js.every p s = true -> Js.every p (Js.trim s) = true.
Proof. intros H. unfold Js.trim. now apply every_trimEnd, every_trimStart. Qed.

(** X17. The credentials [parseTokens] returns are always usable: both are
    non-empty, contain no colon and carry no white space at either end, and
    the combined token had exactly one colon. *)
Theorem parseTokens_result (combinedToken : string) (tokens : TokenPair) :
  DeploymentService.parseTokens combinedToken = inr tokens ->
  githubToken tokens <> "" /\ vercelToken tokens <> ""
  /\ Spec.colonFree (githubToken tokens) = true
  /\ Spec.colonFree (vercelToken tokens) = true
  /\ Js.trim (githubToken tokens) = githubToken tokens
  /\ Js.trim (vercelToken tokens) = vercelToken tokens
  /\ Spec.occurrences ":" combinedToken = 1.
Proof.
  unfold DeploymentService.parseTokens.
  pose proof (split_parts_free ":" combinedToken) as Hfree.
  pose proof (split_length ":" combinedToken) as Hlen.
  destruct (Js.split ":" combinedToken) as [|g [|v [|x rest]]]; try discriminate.
  destruct (Js.nonEmpty (Js.trim g)) eqn:Hg; [|discriminate].
  destruct (Js.nonEmpty (Js.trim v)) eqn:Hv; [|discriminate].
  intros [= <-]. cbn [githubToken vercelToken].
  inversion Hfree as [|? ? Hfg Hrest]; subst. inversion Hrest as [|? ? Hfv _]; subst.
  repeat apply conj;
    try (now apply nonEmpty_true); try (now apply every_trim);
    try apply trim_idempotent.
  cbn [length] in Hlen. lia.
Qed.

Lemma parseTokens_result_witness :
  DeploymentService.parseTokens "  ghp_abc :vc_123  "
    = inr {| githubToken := "ghp_abc"; vercelToken := "vc_123" |}
  /\ Js.trim "ghp_abc" = "ghp_abc".
Proof.
  split; [reflexivity|].
  now destruct (parseTokens_result "  ghp_abc :vc_123  "
                  {| githubToken := "ghp_abc"; vercelToken := "vc_123" |} eq_refl)
    as (_ & _ & _ & _ & H & _).
Defined.

Lemma credentials_bearer (req : AppController.Request) (g v : string) :
  AppController.authorization (AppController.headers req)
    = Some ("Bearer " +:+ g +:+ ":" +:+ v) ->
  Spec.colonFree g = true -> Spec.colonFree v = true ->
  Spec.credentials Spec.BearerToken req
  = if Spec.blank g || Spec.blank v then None
    else Some {| githubToken := Js.trim g; vercelToken := Js.trim v |}.
Proof.
  intros Ha Hg Hv. cbn [Spec.credentials].
  rewrite (extractBearerToken_bearer req _ Ha).
  assert (Js.nonEmpty (g +:+ ":" +:+ v) = true) as -> by now destruct g.
  rewrite (parseTokens_pair g v Hg Hv).
  now destruct (Spec.blank g || Spec.blank v).
Qed.

Lemma credentials_headers (req : AppController.Request) (g v : string) :
  AppController.x_github (AppController.headers req) = Some g ->
  AppController.x_vercel (AppController.headers req) = Some v ->
  Spec.credentials Spec.HeaderPair req
  = if Spec.blank g || Spec.blank v then None
    else Some {| githubToken := Js.trim g; vercelToken := Js.trim v |}.
Proof.
  intros Hg Hv. cbn [Spec.credentials].
  unfold AppController.Headers.extractTokensFromHeaders. rewrite Hg, Hv.
  rewrite !nonEmpty_trim, !negb_involutive.
  destruct (Spec.blank g) eqn:Bg, (Spec.blank v) eqn:Bv; cbn [orb];
    try now destruct (negb (Js.nonEmpty g) || negb (Js.nonEmpty v)).
  assert (Js.nonEmpty g = true) as -> by (destruct g; [discriminate|reflexivity]).
  assert (Js.nonEmpty v = true) as -> by (destruct v; [discriminate|reflexivity]).
  reflexivity.
Qed.

(** X18. The two transports are interchangeable for colon-free credentials:
    a request is answered alike whether its two credentials come as
    [Bearer <github>:<vercel>] or as the [x-github] and [x-vercel] headers,
    provided neither is blank; both revisions trim them the same way. *)
Theorem transports_agree (up : Upstream) (req : AppController.Request)
    (g v : string) (tr : Trace) :
  AppController.authorization (AppController.headers req)
    = Some ("Bearer " +:+ g +:+ ":" +:+ v) ->
  AppController.x_github (AppController.headers req) = Some g ->
  AppController.x_vercel (AppController.headers req) = Some v ->
  Spec.colonFree g = true -> Spec.colonFree v = true ->
  Spec.blank g = false -> Spec.blank v = false ->
  Spec.credentials Spec.BearerToken req
    = Some {| githubToken := Js.trim g; vercelToken := Js.trim v |}
  /\ Spec.credentials Spec.HeaderPair req
     = Some {| githubToken := Js.trim g; vercelToken := Js.trim v |}
  /\ AppController.Bearer.handleTool up req tr = AppController.Headers.handleTool up req tr.
Proof.
  intros Ha Hxg Hxv Hg Hv Bg Bv.
  pose proof (credentials_bearer req g v Ha Hg Hv) as Hb.
  pose proof (credentials_headers req g v Hxg Hxv) as Hh.
  rewrite Bg, Bv in Hb, Hh. cbn [orb] in Hb, Hh.
  split; [exact Hb|]. split; [exact Hh|].
  change (Spec.handleTool Spec.BearerToken up req tr
          = Spec.handleTool Spec.HeaderPair up req tr).
  rewrite (handleTool_authenticated Spec.BearerToken up req _ tr Hb).
  now rewrite (handleTool_authenticated Spec.HeaderPair up req _ tr Hh).
Qed.

Lemma transports_agree_witness :
  AppController.Bearer.handleTool Scenario.platform
    {| AppController.toolName := "getDeploymentStatus";
       AppController.body := Js.Obj [("deploymentId", Js.Str "dpl_1")];
       AppController.headers :=
         {| AppController.authorization := Some "Bearer gh : vc";
            AppController.x_github := Some "gh ";
            AppController.x_vercel := Some " vc" |} |} []
  = AppController.Headers.handleTool Scenario.platform
      {| AppController.toolName := "getDeploymentStatus";
         AppController.body := Js.Obj [("deploymentId", Js.Str "dpl_1")];
         AppController.headers :=
           {| AppController.authorization := Some "Bearer gh : vc";
              AppController.x_github := Some "gh ";
              AppController.x_vercel := Some " vc" |} |} [].
Proof.
  apply (transports_agree Scenario.platform _ "gh " " vc" []); reflexivity.
Defined.

(** ** More on project names *)

Lemma lowerChar_slug (c : ascii) :
  DeploymentService.isSlugChar c = true -> Js.lowerChar c = c.
Proof.
  destruct c as [[] [] [] [] [] [] [] []]; vm_compute; intros H;
    (reflexivity || discriminate).
Qed.

Lemma toLowerCase_slug (s : string) :
  Js.every DeploymentService.isSlugChar s = true -> Js.toLowerCase s = s.
Proof.
  unfold Js.toLowerCase. induction s as [|c s IH]; [reflexivity|].
  cbn [Js.every Js.mapChars]. intros [Hc Hs]%andb_prop.
  now rewrite (lowerChar_slug c Hc), (IH Hs).
Qed.

Lemma replaceNonSlug_fixed (s : string) :
  Js.every DeploymentService.isSlugChar s = true -> DeploymentService.replaceNonSlug s = s.
Proof.
  unfold DeploymentService.replaceNonSlug. induction s as [|c s IH]; [reflexivity|].
  cbn [Js.every Js.mapChars]. intros [Hc Hs]%andb_prop. now rewrite Hc, (IH Hs).
Qed.

Lemma collapseHyphens_fixed (s : string) :
  Spec.noAdjacentHyphens s = true -> DeploymentService.collapseHyphens s = s.
Proof.
  induction s as [|c s IH]; [reflexivity|].
  cbn [Spec.noAdjacentHyphens]. intros [Hc Hs]%andb_prop.
  cbn [DeploymentService.collapseHyphens]. destruct s as [|c' s']; [reflexivity|].
  apply negb_true_iff in Hc. cbn [Spec.startsWithHyphen] in Hc.
  unfold Spec.isHyphen in Hc. rewrite Hc. now rewrite (IH Hs).
Qed.

Lemma dropLastHyphen_fixed (s : string) :
  Spec.endsWithHyphen s = false -> DeploymentService.dropLastHyphen s = s.
Proof.
  induction s as [|c s IH]; [reflexivity|].
  destruct s as [|c' s'].
  - cbn. unfold Spec.isHyphen. now intros ->.
  - intros H. change (DeploymentService.dropLastHyphen (String c (String c' s')))
      with (String c (DeploymentService.dropLastHyphen (String c' s'))).
    now rewrite IH.
Qed.

Lemma dropEdgeHyphens_fixed (s : string) :
  Spec.startsWithHyphen s = false -> Spec.endsWithHyphen s = false ->
  DeploymentService.dropEdgeHyphens s = s.
Proof.
  intros Hh He. unfold DeploymentService.dropEdgeHyphens.
  assert (DeploymentService.dropFirstHyphen s = s) as ->.
  { destruct s as [|c s]; [reflexivity|]. cbn in Hh |- *.
    unfold Spec.isHyphen in Hh. now rewrite Hh. }
  now apply dropLastHyphen_fixed.
Qed.

(** X19. The sanitization of a supplied name is idempotent: the name that a
    non-empty custom name resolves to, when it is not empty, resolves to
    itself if it is supplied as the custom name of any repository. When it is
    empty, supplying it gives that repository's default name instead. The
    default name is not sanitized and need not resolve to itself: the default
    [acme-my.site_1], supplied as custom name, resolves to
    [acme-my-site-1]. *)
Theorem generateProjectName_stable (r r' : GitHubRepoInfo) (name : string) :
  name <> "" ->
  (DeploymentService.generateProjectName r (Some name) <> "" ->
   DeploymentService.generateProjectName r'
     (Some (DeploymentService.generateProjectName r (Some name)))
   = DeploymentService.generateProjectName r (Some name))
  /\ (DeploymentService.generateProjectName r (Some name) = "" ->
      DeploymentService.generateProjectName r'
        (Some (DeploymentService.generateProjectName r (Some name)))
      = Js.toLowerCase (owner r' +:+ "-" +:+ repo r'))
  /\ DeploymentService.generateProjectName Cases.dottedRepo None = "acme-my.site_1"
  /\ DeploymentService.generateProjectName Cases.dottedRepo
       (Some (DeploymentService.generateProjectName Cases.dottedRepo None))
     = "acme-my-site-1".
Proof.
  intros Hname. rewrite (generateProjectName_supplied r name Hname).
  split; [|split; [|split; reflexivity]].
  - intros Hne.
    destruct (sanitize_shape name) as (Hslug & Hadj & Hhead & Hlast).
    unfold DeploymentService.generateProjectName.
    apply nonEmpty_true in Hne. rewrite Hne.
    rewrite (toLowerCase_slug _ Hslug), (replaceNonSlug_fixed _ Hslug).
    rewrite (collapseHyphens_fixed _ Hadj). now apply dropEdgeHyphens_fixed.
  - intros ->. reflexivity.
Qed.

Lemma generateProjectName_stable_witness :
  DeploymentService.generateProjectName Scenario.acmeInfo (Some "my-project") = "my-project".
Proof.
  apply (generateProjectName_stable Scenario.acmeInfo Scenario.acmeInfo "My Project!");
    discriminate.
Defined.

(** ** The request adapter as a whole *)

Ltac not_among H :=
  repeat (apply elem_of_cons in H as [H|H]; [discriminate H|]); inversion H.

Ltac answer_shape :=
  eexists; eexists; split; [reflexivity|];
  split; [decide_now|];
  split; [cbn; first [reflexivity | split; [reflexivity|discriminate]]|];
  first [intros _; reflexivity | let H := fresh in intros H; cbn in H; not_among H].

Lemma handleTool_answer (t : Spec.Transport) (up : Upstream)
    (req : AppController.Request) (tr : Trace) :
  exists resp tr',
    Spec.handleTool t up req tr = (Returned resp, tr')
    /\ AppController.statusCode resp ∈ [200; 400; 401; 404; 500]%Z
    /\ match AppController.json resp with
       | AppController.Success _ => AppController.statusCode resp = 200%Z
       | AppController.Failure dto =>
           AppController.error_code dto = AppController.statusCode resp
           /\ AppController.statusCode resp <> 200%Z
       end
    /\ (AppController.statusCode resp ∈ [401; 404; 500]%Z -> tr' = tr).
Proof.
  destruct (Spec.credentials t req) as [tokens|] eqn:Hc.
  - rewrite (handleTool_authenticated t up req tokens tr Hc).
    unfold tryCatch, AppController.onToolError, AppController.dispatch.
    destruct (String.eqb (AppController.toolName req) "deployRepo");
      [|destruct (String.eqb (AppController.toolName req) "getDeploymentStatus")].
    + destruct (AppController.validateDeployRepoParameters (AppController.body req))
        as [e|[]] eqn:Hv.
      * rewrite (handleDeployRepo_invalid up tokens _ e tr Hv). answer_shape.
      * rewrite (handleDeployRepo_valid up tokens _ tr Hv).
        destruct (DeploymentService.deployRepository up tokens _ tr) as [[result|e] tr1];
          answer_shape.
    + destruct (Js.getProp (AppController.body req) "deploymentId") as [e|v] eqn:Hp.
      * rewrite (handleGetDeploymentStatus_unreadable up _ _ e tr Hp). answer_shape.
      * destruct (Js.truthy v) eqn:Hv.
        -- rewrite (handleGetDeploymentStatus_present up _ _ v tr Hp Hv).
           destruct (DeploymentService.getDeploymentStatus up (vercelToken tokens) v tr)
             as [[summary|e] tr1]; [destruct (Js.toISOString _)|]; answer_shape.
        -- rewrite (handleGetDeploymentStatus_missing up _ _ v tr Hp Hv). answer_shape.
    + answer_shape.
  - destruct t; cbn [Spec.credentials Spec.handleTool] in *.
    + unfold AppController.Bearer.handleTool, tryCatch.
      destruct (AppController.Bearer.extractBearerToken req) as [[|c token]|];
        [answer_shape| |answer_shape].
      cbn [Js.nonEmpty] in Hc.
      destruct (DeploymentService.parseTokens (String c token)); [|discriminate].
      answer_shape.
    + unfold AppController.Headers.handleTool, tryCatch. rewrite Hc. answer_shape.
Qed.

(** X20. Every request is answered: [handleTool] never lets an exception
    escape, under either transport. The HTTP status is one of 200, 400, 401,
    404 and 500; it is 200 exactly for a success envelope, and an error
    envelope carries the HTTP status as its code. *)
Theorem handleTool_always_answers (t : Spec.Transport) (up : Upstream)
    (req : AppController.Request) (tr : Trace) :
  exists resp tr',
    Spec.handleTool t up req tr = (Returned resp, tr')
    /\ AppController.statusCode resp ∈ [200; 400; 401; 404; 500]%Z
    /\ match AppController.json resp with
       | AppController.Success _ => AppController.statusCode resp = 200%Z
       | AppController.Failure dto =>
           AppController.error_code dto = AppController.statusCode resp
           /\ AppController.statusCode resp <> 200%Z
       end.
Proof.
  destruct (handleTool_answer t up req tr) as (resp & tr' & H1 & H2 & H3 & _).
  now exists resp, tr'.
Qed.

(** X21. An answer with status 401, 404 or 500 is given without anything
    having been requested upstream: neither GitHub nor the platform is
    contacted for a request that does not authenticate, names an unknown
    tool or fails parameter validation. *)
Theorem rejected_before_upstream (t : Spec.Transport) (up : Upstream)
    (req : AppController.Request) (tr tr' : Trace) (resp : AppController.HttpResponse) :
  Spec.handleTool t up req tr = (Returned resp, tr') ->
  AppController.statusCode resp ∈ [401; 404; 500]%Z ->
  tr' = tr.
Proof.
  intros Hrun Hcode.
  destruct (handleTool_answer t up req tr) as (resp0 & tr0 & H1 & _ & _ & H4).
  rewrite Hrun in H1. injection H1 as <- <-. now apply H4.
Qed.

Lemma rejected_before_upstream_witness :
  snd (Spec.handleTool Spec.HeaderPair Scenario.platform
         {| AppController.toolName := "deleteProject";
            AppController.body := Js.Obj [];
            AppController.headers := Scenario.pair "gh" "vc" |} []) = [].
Proof.
  apply (rejected_before_upstream Spec.HeaderPair Scenario.platform
           {| AppController.toolName := "deleteProject";
              AppController.body := Js.Obj [];
              AppController.headers := Scenario.pair "gh" "vc" |} []
           _ (AppController.respondError "Unknown tool: deleteProject" 404
                "Available tools: deployRepo, getDeploymentStatus"));
    [reflexivity|decide_now].
Defined.

(** X22. A status check can fail after the platform has answered: when the
    deployment's creation time lies outside the range of dates
    (beyond 8.64e15 ms from the epoch), the caller receives status 400 with
    the message ['Invalid time value']. *)
Theorem status_invalid_time (t : Spec.Transport) (up : Upstream)
    (req : AppController.Request) (tr : Trace) (tokens : TokenPair)
    (deploymentId : Js.Value) (dep : VercelDeployment) :
  Spec.credentials t req = Some tokens ->
  AppController.toolName req = "getDeploymentStatus" ->
  Js.getProp (AppController.body req) "deploymentId" = inr deploymentId ->
  Js.truthy deploymentId = true ->
  fetchGetDeployment up tr (vercelToken tokens) deploymentId = FetchOk dep ->
  (createdAt dep < - Js.maxTime \/ Js.maxTime < createdAt dep)%Z ->
  Spec.handleTool t up req tr
  = (Returned (AppController.respondError "Invalid time value" 400
                 "Failed to get deployment status"),
     (tr ++ [GetDeployment (vercelToken tokens) deploymentId])%list).
Proof.
  intros Hc Ht Hp Hv Hf Hrange.
  apply (handleTool_returned t up req tokens _ tr _ Hc).
  rewrite (dispatch_getDeploymentStatus up tokens req Ht).
  rewrite (handleGetDeploymentStatus_present up _ _ deploymentId tr Hp Hv).
  rewrite (getDeploymentStatus_ok up _ _ tr dep Hf).
  cbn [DeploymentService.summary_deployment]. unfold Js.toISOString.
  assert ((- Js.maxTime <=? createdAt dep)%Z && (createdAt dep <=? Js.maxTime)%Z = false)
    as -> by (apply andb_false_iff; rewrite !Z.leb_gt; lia).
  reflexivity.
Qed.

Lemma status_invalid_time_witness :
  Spec.handleTool Spec.HeaderPair Cases.flaky
    (Scenario.statusRequest (Scenario.pair "gh" "vc") "dpl_2") []
  = (Returned (AppController.respondError "Invalid time value" 400
                 "Failed to get deployment status"),
     [GetDeployment "vc" (Js.Str "dpl_2")]).
Proof.
  apply (status_invalid_time Spec.HeaderPair Cases.flaky
           (Scenario.statusRequest (Scenario.pair "gh" "vc") "dpl_2") []
           {| githubToken := "gh"; vercelToken := "vc" |} (Js.Str "dpl_2")
           {| id := "dpl_2"; url := "x.vercel.app"; deployment_name := "x";
              state := "READY"; createdAt := 9000000000000000; projectId := "prj_1";
              inspectorUrl := None |}); try reflexivity.
  right. reflexivity.
Defined.

(** X23. What [validateDeployRepoParameters] accepts: exactly the bodies
    whose [repoUrl] is a string containing ['github.com'] and whose
    [projectName] and [framework] are each falsy or a string. The framework
    is not compared with the list of presets. *)
Theorem validate_accepts_iff (params : Js.Value) :
  AppController.validateDeployRepoParameters params = inr tt
  <-> exists fields url,
        params = Js.Obj fields
        /\ Js.lookupField "repoUrl" fields = Js.Str url
        /\ Js.includes url "github.com" = true
        /\ (Js.truthy (Js.lookupField "projectName" fields) = false
            \/ Js.isString (Js.lookupField "projectName" fields) = true)
        /\ (Js.truthy (Js.lookupField "framework" fields) = false
            \/ Js.isString (Js.lookupField "framework" fields) = true).
Proof.
  split.
  - intros H. destruct (validate_accepts_objects params H) as [fields ->].
    revert H. unfold AppController.validateDeployRepoParameters. cbn [Js.getProp].
    destruct (Js.lookupField "repoUrl" fields) as [| |b|n|url|items|fs] eqn:Hu;
      try discriminate;
      try (destruct (negb (Js.truthy _)); discriminate).
    destruct (negb (Js.truthy (Js.Str url))); [discriminate|].
    cbn [Js.isString negb AppController.stringOf].
    destruct (Js.includes url "github.com") eqn:Hi; [|discriminate]. cbn [negb].
    destruct (Js.truthy (Js.lookupField "projectName" fields)) eqn:Hpt;
      [destruct (Js.isString (Js.lookupField "projectName" fields)) eqn:Hps;
         [|discriminate]|];
      (destruct (Js.truthy (Js.lookupField "framework" fields)) eqn:Hft;
         [destruct (Js.isString (Js.lookupField "framework" fields)) eqn:Hfs;
            [|discriminate]|]);
      intros _; exists fields, url; auto 10.
  - intros (fields & url & -> & Hu & Hi & Hp & Hf).
    unfold AppController.validateDeployRepoParameters. cbn [Js.getProp]. rewrite Hu.
    assert (Js.truthy (Js.Str url) = true) as ->.
    { destruct url; [discriminate|reflexivity]. }
    cbn [Js.isString negb AppController.stringOf]. rewrite Hi. cbn [negb].
    assert (Js.truthy (Js.lookupField "projectName" fields)
            && negb (Js.isString (Js.lookupField "projectName" fields)) = false) as ->
      by (destruct Hp as [-> | ->]; [reflexivity|apply andb_false_r]).
    assert (Js.truthy (Js.lookupField "framework" fields)
            && negb (Js.isString (Js.lookupField "framework" fields)) = false) as ->
      by (destruct Hf as [-> | ->]; [reflexivity|apply andb_false_r]).
    reflexivity.
Qed.

Lemma validate_accepts_iff_witness :
  AppController.validateDeployRepoParameters
    (Js.Obj [("repoUrl", Js.Str "https://github.com/acme/site");
             ("projectName", Js.Null); ("framework", Js.Str "angular")]) = inr tt.
Proof.
  apply validate_accepts_iff.
  exists [("repoUrl", Js.Str "https://github.com/acme/site");
          ("projectName", Js.Null); ("framework", Js.Str "angular")],
    "https://github.com/acme/site".
  repeat split; auto.
Defined.

Lemma handleDeployRepo_trace (up : Upstream) (tokens : TokenPair) (params : Js.Value)
    (tr : Trace) :
  AppController.validateDeployRepoParameters params = inr tt ->
  snd (AppController.handleDeployRepo up tokens params tr)
  = snd (DeploymentService.deployRepository up tokens (Spec.deployParams params) tr).
Proof.
  intros H. rewrite (handleDeployRepo_valid up tokens params tr H).
  now destruct (DeploymentService.deployRepository up tokens _ tr) as [[result|e] tr'].
Qed.

Lemma deployRepository_creates_project (up : Upstream) (tokens : TokenPair)
    (params : DeployRepoParams) (tr : Trace) (o r : string) (data : RepoData) :
  GitHubService.parseGitHubUrl (repoUrl params) = inr (o, r) ->
  reposGet up tr (githubToken tokens) o r = inr data ->
  (forall p,
     fetchGetProject up (tr ++ [ReposGet (githubToken tokens) o r])%list
       (vercelToken tokens)
       (DeploymentService.generateProjectName (Terms.repoInfoOf data) (projectName params))
     <> FetchOk p) ->
  exists pd rest,
    snd (DeploymentService.deployRepository up tokens params tr)
    = (tr ++ ReposGet (githubToken tokens) o r
          :: GetProject (vercelToken tokens)
               (DeploymentService.generateProjectName (Terms.repoInfoOf data)
                  (projectName params))
          :: PostProject (vercelToken tokens) pd :: rest)%list
    /\ pd_name pd
       = DeploymentService.generateProjectName (Terms.repoInfoOf data) (projectName params)
    /\ pd_framework pd
       = if String.eqb (Js.orElse (framework params) "static") "static" then None
         else Some (Js.orElse (framework params) "static").
Proof.
  intros Hp Hg Hno.
  rewrite deployRepository_run, validateRepository_run, Hp, Hg.
  fold (Terms.repoInfoOf data).
  rewrite createProject_run. cbn zeta.
  destruct (fetchGetProject up _ _ _) as [e1|st1 text1 em1|p1];
    [| |now destruct (Hno p1)].
  all: match goal with
       | |- context [fetchPostProject ?u ?t ?k ?b] =>
           destruct (fetchPostProject u t k b) as [e2|st2 text2 em2|p2]
       end.
  1,2,4,5: eexists; eexists; cbn [snd]; rewrite <- !app_assoc;
           (split; [reflexivity|]); (split; reflexivity).
  all: rewrite createDeployment_run; cbn zeta;
    match goal with
    | |- context [fetchPostDeployment ?u ?t ?k ?b] =>
        destruct (fetchPostDeployment u t k b) as [e3|st3 text3 em3|d3]
    end;
    eexists; eexists; cbn [snd]; rewrite <- !app_assoc;
    (split; [reflexivity|]); (split; reflexivity).
Qed.

(** X24. The framework a caller names reaches the platform as it is, listed
    among the presets or not: when the platform has no project of the resolved
    name, so that one has to be created, the create request carries a
    non-empty framework other than ['static'] as its preset, and no preset
    when the framework is ['static'], empty or omitted. *)
Theorem framework_forwarded (up : Upstream) (tokens : TokenPair) (params : Js.Value)
    (tr : Trace) (o r : string) (data : RepoData) :
  AppController.validateDeployRepoParameters params = inr tt ->
  GitHubService.parseGitHubUrl (repoUrl (Spec.deployParams params)) = inr (o, r) ->
  reposGet up tr (githubToken tokens) o r = inr data ->
  (forall p,
     fetchGetProject up (tr ++ [ReposGet (githubToken tokens) o r])%list
       (vercelToken tokens)
       (DeploymentService.generateProjectName (Terms.repoInfoOf data)
          (projectName (Spec.deployParams params)))
     <> FetchOk p) ->
  exists pd rest,
    snd (AppController.handleDeployRepo up tokens params tr)
    = (tr ++ ReposGet (githubToken tokens) o r
          :: GetProject (vercelToken tokens)
               (DeploymentService.generateProjectName (Terms.repoInfoOf data)
                  (projectName (Spec.deployParams params)))
          :: PostProject (vercelToken tokens) pd :: rest)%list
    /\ (forall f,
          Js.getProp params "framework" = inr (Js.Str f) -> f <> "" -> f <> "static" ->
          pd_framework pd = Some f)
    /\ (forall v,
          Js.getProp params "framework" = inr v ->
          Js.truthy v = false \/ v = Js.Str "static" ->
          pd_framework pd = None).
Proof.
  intros Hv Hp Hg Hno. rewrite (handleDeployRepo_trace up tokens params tr Hv).
  destruct (deployRepository_creates_project up tokens _ tr o r data Hp Hg Hno)
    as (pd & rest & Htr & _ & Hfw).
  exists pd, rest. split; [exact Htr|]. rewrite Hfw.
  cbn [Spec.deployParams framework]. unfold Spec.field. split.
  - intros f -> Hne Hns. cbn [AppController.optString Js.orElse].
    apply nonEmpty_true in Hne. rewrite Hne. cbn [Js.orElse]. rewrite Hne.
    apply String.eqb_neq in Hns. now rewrite Hns.
  - intros v -> [Hf | ->]; [|reflexivity].
    destruct v; try reflexivity; try discriminate. cbn in Hf |- *. now rewrite Hf.
Qed.

Lemma framework_forwarded_witness :
  ("angular" ∉ Terms.frameworkEnum)
  /\ exists pd rest,
       snd (AppController.handleDeployRepo Scenario.platform
              {| githubToken := "gh"; vercelToken := "vc" |}
              (Js.Obj [("repoUrl", Js.Str "https://github.com/acme/site");
                       ("framework", Js.Str "angular")]) [])
       = ReposGet "gh" "acme" "site" :: GetProject "vc" "acme-site"
           :: PostProject "vc" pd :: rest
       /\ pd_framework pd = Some "angular".
Proof.
  split; [decide_now|].
  destruct (framework_forwarded Scenario.platform
              {| githubToken := "gh"; vercelToken := "vc" |}
              (Js.Obj [("repoUrl", Js.Str "https://github.com/acme/site");
                       ("framework", Js.Str "angular")]) [] "acme" "site" Scenario.acmeSite
              eq_refl eq_refl eq_refl)
    as (pd & rest & Htr & Hsome & _); [intros p; discriminate|].
  exists pd, rest. split; [exact Htr|]. apply (Hsome "angular"); [reflexivity| |];
    discriminate.
Defined.

(** X25. The bare [owner/repo] form, which [parseGitHubUrl] accepts, cannot
    be deployed through the controller unless it contains ['github.com']: the
    request fails parameter validation and is answered with status 500. *)
Theorem bare_reference_rejected (t : Spec.Transport) (up : Upstream)
    (req : AppController.Request) (tr : Trace) (tokens : TokenPair) (o r : string) :
  Spec.credentials t req = Some tokens ->
  AppController.toolName req = "deployRepo" ->
  Js.getProp (AppController.body req) "repoUrl" = inr (Js.Str (o +:+ "/" +:+ r)) ->
  o <> "" -> r <> "" -> Terms.slashFree o = true -> Terms.slashFree r = true ->
  Js.startsWith o "git@github.com:" = false ->
  Js.includes (o +:+ "/" +:+ r) "github.com" = false ->
  GitHubService.parseGitHubUrl (o +:+ "/" +:+ r) = inr (o, r)
  /\ Spec.handleTool t up req tr
     = (Returned (AppController.respondError
                    "Parameter 'repoUrl' must be a valid GitHub repository URL"
                    500 "Tool execution failed"), tr).
Proof.
  intros Hc Ht Hp Ho Hr Hso Hsr Hssh Hi. split; [now apply parse_simple|].
  apply (handleTool_thrown t up req tokens
           (Js.Error "Parameter 'repoUrl' must be a valid GitHub repository URL") tr tr Hc).
  rewrite (dispatch_deployRepo up tokens req Ht).
  apply handleDeployRepo_invalid.
  apply (validate_repoUrl_not_github _ (o +:+ "/" +:+ r) Hp); [|exact Hi].
  now apply append_nonEmpty.
Qed.

Lemma bare_reference_rejected_witness :
  Spec.handleTool Spec.HeaderPair Scenario.platform
    (Scenario.deployRequest (Scenario.pair "gh" "vc") "acme/site") []
  = (Returned (AppController.respondError
                 "Parameter 'repoUrl' must be a valid GitHub repository URL"
                 500 "Tool execution failed"), []).
Proof.
  apply (bare_reference_rejected Spec.HeaderPair Scenario.platform
           (Scenario.deployRequest (Scenario.pair "gh" "vc") "acme/site") []
           {| githubToken := "gh"; vercelToken := "vc" |} "acme" "site");
    try reflexivity; discriminate.
Defined.

(** X26. The substring test of the validation does not make the reference a
    GitHub URL: for any non-empty, slash-free [r], the reference
    [github.com/<r>] passes validation and is then parsed by the bare form,
    as the repository [<r>] of the owner [github.com]. *)
Theorem substring_check_admits (r : string) (others : list (string * Js.Value)) :
  r <> "" -> Terms.slashFree r = true ->
  Js.truthy (Js.lookupField "projectName" others) = false ->
  Js.truthy (Js.lookupField "framework" others) = false ->
  AppController.validateDeployRepoParameters
    (Js.Obj (("repoUrl", Js.Str ("github.com/" +:+ r)) :: others)) = inr tt
  /\ GitHubService.parseGitHubUrl ("github.com/" +:+ r) = inr ("github.com", r).
Proof.
  intros Hr Hsr Hpn Hfw. split.
  - unfold AppController.validateDeployRepoParameters. cbn [Js.getProp Js.lookupField].
    cbn [String.eqb Ascii.eqb Bool.eqb]. cbn [Js.truthy Js.isString negb AppController.stringOf].
    assert (Js.includes ("github.com/" +:+ r) "github.com" = true) as ->
      by (apply (includes_append "github.com/" r "github.com"); reflexivity).
    assert (Js.nonEmpty ("github.com/" +:+ r) = true) as -> by reflexivity.
    cbn [negb]. now rewrite Hpn, Hfw.
  - apply (parse_simple "github.com" r); try reflexivity; try assumption. discriminate.
Qed.

Lemma substring_check_admits_witness :
  AppController.validateDeployRepoParameters
    (Js.Obj [("repoUrl", Js.Str "github.com/site")]) = inr tt
  /\ GitHubService.parseGitHubUrl "github.com/site" = inr ("github.com", "site").
Proof.
  apply (substring_check_admits "site" []); try reflexivity. discriminate.
Defined.

(** ** Configuration *)

Example parseInt10_examples :
  Config.parseInt10 "8080" = Config.Int 8080
  /\ Config.parseInt10 "  42px" = Config.Int 42
  /\ Config.parseInt10 "-7" = Config.Int (-7)
  /\ Config.parseInt10 "+15" = Config.Int 15
  /\ Config.parseInt10 "3.9" = Config.Int 3
  /\ Config.parseInt10 "0x1F" = Config.Int 0
  /\ Config.parseInt10 "" = Config.NaN
  /\ Config.parseInt10 "port" = Config.NaN
  /\ Config.parseInt10 "- 1" = Config.NaN
  /\ Config.parseInt10 "-0" = Config.NegZero
  /\ Config.parseInt10 "9007199254740992" = Config.Int 9007199254740992
  /\ Config.parseInt10 "9007199254740993" = Config.Rounded 9007199254740993.
Proof. vm_compute. repeat split. Qed.

(** X27. The port falls back to the default only when [PORT] is unset or
    empty: then it is 3000 in one revision and 8080 in the other. A [PORT]
    that is set but does not start with a decimal digit (after white space,
    and not with a sign either) makes the port [NaN], not the default. *)
Theorem config_port (env : gmap string string) :
  (env !! "PORT" = None \/ env !! "PORT" = Some "" ->
   Config.port (Config.config3000 env) = Config.Int 3000
   /\ Config.port (Config.config8080 env) = Config.Int 8080)
  /\ (forall c rest,
        env !! "PORT" = Some (String c rest) ->
        Js.isWhiteSpace c = false -> c <> "-"%char -> c <> "+"%char ->
        Config.digitValue c = None ->
        Config.port (Config.config3000 env) = Config.NaN
        /\ Config.port (Config.config8080 env) = Config.NaN).
Proof.
  split.
  - intros [H|H]; unfold Config.config3000, Config.config8080, Config.load; rewrite H;
      split; reflexivity.
  - intros c rest H Hws Hm Hp Hd.
    unfold Config.config3000, Config.config8080, Config.load. rewrite H.
    cbn [Js.orElse Js.nonEmpty Config.port]. unfold Config.parseInt10.
    cbn [Js.trimStart]. rewrite Hws.
    assert ((match String c rest with
             | String "-" r => ((-1)%Z, r)
             | String "+" r => (1%Z, r)
             | _ => (1%Z, String c rest)
             end) = (1%Z, String c rest)) as ->.
    { destruct c as [[] [] [] [] [] [] [] []]; try reflexivity; congruence. }
    cbn [Config.leadingDigits]. rewrite Hd. now split.
Qed.

Lemma config_port_witness :
  Config.port (Config.config3000 ∅) = Config.Int 3000
  /\ Config.port (Config.config8080 {[ "PORT" := "eighty" ]}) = Config.NaN.
Proof.
  split.
  - apply (config_port ∅). left. reflexivity.
  - destruct (config_port {[ "PORT" := "eighty" ]}) as (_ & H).
    apply (H "e"%char "ighty"); try reflexivity; discriminate.
Defined.

(** ** Status requests *)

(** X28. The deployment identifier is only tested for truthiness: any truthy
    value, a string or not, is sent to the platform as it is, in exactly one
    request that carries the Vercel credential, and the answer has status 200
    or 400. *)
Theorem status_request_forwarded (t : Spec.Transport) (up : Upstream)
    (req : AppController.Request) (tr : Trace) (tokens : TokenPair)
    (deploymentId : Js.Value) :
  Spec.credentials t req = Some tokens ->
  AppController.toolName req = "getDeploymentStatus" ->
  Js.getProp (AppController.body req) "deploymentId" = inr deploymentId ->
  Js.truthy deploymentId = true ->
  exists resp,
    Spec.handleTool t up req tr
    = (Returned resp, (tr ++ [GetDeployment (vercelToken tokens) deploymentId])%list)
    /\ AppController.statusCode resp ∈ [200; 400]%Z.
Proof.
  intros Hc Ht Hp Hv.
  pose proof (getDeploymentStatus_trace up (vercelToken tokens) deploymentId tr) as Htr.
  rewrite (handleTool_authenticated t up req tokens tr Hc). unfold tryCatch.
  rewrite (dispatch_getDeploymentStatus up tokens req Ht).
  rewrite (handleGetDeploymentStatus_present up _ _ deploymentId tr Hp Hv).
  destruct (DeploymentService.getDeploymentStatus up (vercelToken tokens) deploymentId tr)
    as [[summary|e] tr1]; cbn [snd] in Htr; subst tr1;
    [destruct (Js.toISOString _)|];
    eexists; (split; [reflexivity|decide_now]).
Qed.

Lemma status_request_forwarded_witness :
  exists resp,
    Spec.handleTool Spec.BearerToken Scenario.platform
      {| AppController.toolName := "getDeploymentStatus";
         AppController.body := Js.Obj [("deploymentId", Js.Num 7)];
         AppController.headers := Scenario.bearer "gh:vc" |} []
    = (Returned resp, [GetDeployment "vc" (Js.Num 7)])
    /\ AppController.statusCode resp ∈ [200; 400]%Z.
Proof.
  apply (status_request_forwarded Spec.BearerToken Scenario.platform
           {| AppController.toolName := "getDeploymentStatus";
              AppController.body := Js.Obj [("deploymentId", Js.Num 7)];
              AppController.headers := Scenario.bearer "gh:vc" |} []
           {| githubToken := "gh"; vercelToken := "vc" |} (Js.Num 7)); reflexivity.
Defined.
